(** * conversion-service: the /convert pipeline of src/server.js

    A shallow embedding of the Express handler of [src/server.js] and of the
    helpers it calls.  Pure helpers ([padNumber], [buildStoragePath], the
    comparator of [convertPdfToPng], the width computation of
    [cloneSharpForVariant], the manifest mapping) are Rocq functions.  The
    handler itself is written in a state-and-exception monad whose state is
    the trace of calls made to the outside world (file system, HTTP client,
    [pdftoppm], [sharp], the storage client); the outcome of each call is
    supplied by an environment that may inspect the whole trace so far. *)

From Stdlib Require Import String Ascii ZArith Lia.
From stdpp Require Import base option list sorting strings gmap.

(** ** JavaScript string helpers *)

Module JsString.

Definition digitChar (d : nat) : ascii := ascii_of_nat (48 + d).

(** [String(value)] for a non-negative integer: decimal digits, most
    significant first, no leading zero. *)
Fixpoint digitsFuel (fuel n : nat) (acc : string) : string :=
  match fuel with
  | O => acc
  | S fuel' =>
      let acc' := String (digitChar (n mod 10)) acc in
      if Nat.eqb (n / 10) 0 then acc' else digitsFuel fuel' (n / 10) acc'
  end.

Definition numberToString (n : nat) : string := digitsFuel (S n) n "".

Fixpoint repeatChar (c : ascii) (k : nat) : string :=
  match k with
  | O => ""
  | S k' => String c (repeatChar c k')
  end.

(** [s.padStart(size, c)] with a one-character filler. *)
Definition padStart (s : string) (size : nat) (c : ascii) : string :=
  repeatChar c (size - String.length s) +:+ s.

(** The characters of a string. *)
Definition chars (s : string) : list ascii := list_ascii_of_string s.

(** [s.startsWith(p)] and [s.endsWith(p)]. *)
Definition startsWith (s p : string) : bool :=
  bool_decide (chars p `prefix_of` chars s).

Definition endsWith (s p : string) : bool :=
  bool_decide (chars p `suffix_of` chars s).

Definition isDigit (c : ascii) : bool :=
  let n := nat_of_ascii c in Nat.leb 48 n && Nat.leb n 57.

Definition digitValue (c : ascii) : nat := nat_of_ascii c - 48.

(** [parseInt(s, 10)] on a string of decimal digits. *)
Definition parseDigits (s : string) : nat :=
  fold_left (λ acc c, 10 * acc + digitValue c) (chars s) 0.

(** JavaScript truthiness of a string value that may be [undefined]. *)
Definition truthy (v : option string) : bool :=
  match v with
  | Some s => negb (String.eqb s "")
  | None => false
  end.

End JsString.

Import JsString.

(** ** Storage paths (server.js, lines 36-39) *)

Definition padNumber (value : nat) (size : nat) : string :=
  padStart (numberToString value) size "0".

Definition buildStoragePath (editionId variant : string) (pageNumber : nat) : string :=
  editionId +:+ "/pages/" +:+ variant +:+ "/" +:+ padNumber pageNumber 3 +:+ ".webp".

(** ** Ordering of the rasterizer output (server.js, lines 63-71) *)

Fixpoint takeWhile {A} (p : A → bool) (l : list A) : list A :=
  match l with
  | [] => []
  | x :: l' => if p x then x :: takeWhile p l' else []
  end.

(** The capture group of [file.match(/(\d+)\.png$/)]: the longest run of
    decimal digits that immediately precedes a final [".png"]; [None] when
    the expression does not match (no [".png"] suffix, or no digit in front
    of it). *)
Definition matchPageDigits (file : string) : option string :=
  match reverse (chars file) with
  | "g"%char :: "n"%char :: "p"%char :: "."%char :: rest =>
      match takeWhile isDigit rest with
      | [] => None
      | ds => Some (string_of_list_ascii (reverse ds))
      end
  | _ => None
  end.

(** [parseInt(file.match(/(\d+)\.png$/)?.[1] ?? '0', 10)].  The index is an
    exact natural number here; JavaScript's is a double, exact below 2^53. *)
Definition pageIndex (file : string) : nat :=
  parseDigits (default "0" (matchPageDigits file)).

(** The comparator handed to [Array.prototype.sort]. *)
Definition comparePages (a b : string) : Z :=
  let pageA := pageIndex a in
  let pageB := pageIndex b in
  (Z.of_nat pageA - Z.of_nat pageB)%Z.

(** [Array.prototype.sort(cmp)] is a stable sort; for a comparator that
    orders by a key its result is the stable insertion sort below. *)
Fixpoint sortInsert {A} (cmp : A → A → Z) (x : A) (l : list A) : list A :=
  match l with
  | [] => [x]
  | y :: l' => if (cmp x y <=? 0)%Z then x :: y :: l' else y :: sortInsert cmp x l'
  end.

Definition jsSort {A} (cmp : A → A → Z) (l : list A) : list A :=
  foldr (sortInsert cmp) [] l.

Definition isPageFile (file : string) : bool :=
  startsWith file "page" && endsWith file ".png".

(** [path.join(dir, name)] for a normalized directory and a plain entry
    name. *)
Definition pathJoin (dir name : string) : string := dir +:+ "/" +:+ name.

(** The pure tail of [convertPdfToPng]: filter, sort, join. *)
Definition orderPageFiles (outputDir : string) (files : list string) : list string :=
  pathJoin outputDir <$> jsSort comparePages (filter (λ f, isPageFile f = true) files).

(** ** Data model *)

Definition Buffer := list Byte.byte.

(** A variant configuration: [{ key, width, height?, quality }]. *)
Record VariantSpec := {
  vkey : string;
  vwidth : Z;
  vheight : option Z;
  vquality : Z;
}.

Definition VARIANTS : list VariantSpec :=
  [ {| vkey := "low"; vwidth := 900; vheight := None; vquality := 72 |};
    {| vkey := "medium"; vwidth := 1400; vheight := None; vquality := 80 |};
    {| vkey := "high"; vwidth := 2400; vheight := None; vquality := 90 |} ].

Definition THUMBNAIL_VARIANT : VariantSpec :=
  {| vkey := "thumbnail"; vwidth := 360; vheight := None; vquality := 60 |}.

(** What [image.metadata()] reports; a dimension may be [undefined]. *)
Record Metadata := {
  mwidth : option Z;
  mheight : option Z;
}.

(** The argument of [transformer.resize]. *)
Inductive ResizeOptions :=
| ResizeCover (width height : Z)      (* { width, height, fit: 'cover' } *)
| ResizeWithoutEnlargement (width : Z) (* { width, withoutEnlargement: true } *).

(** One entry of [variantUploads]. *)
Record Asset := {
  path : string;
  publicUrl : string;
}.

(** One element of [manifestPages]; [None] in a dimension is [null]. *)
Record PageEntry := {
  pageNumber : nat;
  pwidth : option Z;
  pheight : option Z;
  assets : gmap string Asset;
}.

(** A value that is a string, [null] or [undefined]. *)
Inductive JsPath :=
| JUndefined
| JNull
| JStr (s : string).

(** [a?.path] *)
Definition optPath (a : option Asset) : JsPath :=
  match a with
  | Some r => JStr (path r)
  | None => JUndefined
  end.

(** [x ?? y] *)
Definition nullish (x y : JsPath) : JsPath :=
  match x with
  | JStr _ => x
  | _ => y
  end.

Infix "??" := nullish (at level 61, left associativity).

Record ManifestPage := {
  mpPageNumber : nat;
  mpWidth : option Z;
  mpHeight : option Z;
  lowResImagePath : JsPath;
  mediumImagePath : JsPath;
  highResImagePath : JsPath;
  thumbnailPath : JsPath;
}.

Record Manifest := {
  editionIdOf : string;
  totalPagesOf : nat;
  assetsBaseUrl : string;
  bucketOf : string;
  generatedAt : string;
  manifestPagesOf : list ManifestPage;
}.

(** The callback of [manifestPages.map] (server.js, lines 207-215). *)
Definition summarizePage (thumbnail : VariantSpec) (page : PageEntry) : ManifestPage :=
  {| mpPageNumber := pageNumber page;
     mpWidth := pwidth page;
     mpHeight := pheight page;
     lowResImagePath :=
       optPath (assets page !! "low") ?? optPath (assets page !! "medium");
     mediumImagePath := optPath (assets page !! "medium") ?? JNull;
     highResImagePath := optPath (assets page !! "high") ?? JNull;
     thumbnailPath :=
       optPath (assets page !! vkey thumbnail) ?? optPath (assets page !! "low") ?? JNull;
  |}.

(** The storage client built by [createClient(supabaseUrl, supabaseKey)]. *)
Record Supabase := {
  sbUrl : string;
  sbKey : string;
}.

(** What is sent to storage: an encoded image, or the manifest (its
    [JSON.stringify] text is not interpreted here). *)
Inductive UploadBody :=
| BodyImage (buffer : Buffer)
| BodyManifest (manifest : Manifest).

(** ** Calls to the outside world *)

Inductive Call :=
| Mkdtemp (prefix : string)
| Mkdir (dir : string)
| HttpGetToFile (url destinationPath : string)
| ExecFile (file : string) (args : list string)
| Readdir (dir : string)
| ReadFile (file : string)
| SharpMetadata (input : Buffer)
| SharpToWebp (input : Buffer) (resize : ResizeOptions) (quality : Z)
| StorageUpload (client : Supabase) (bucket storagePath : string) (body : UploadBody)
| RmRecursive (dir : string).

(** The type of the value a call resolves to.  A storage upload resolves to
    its [error] field: [Some message] or [None]. *)
Definition Answer (c : Call) : Type :=
  match c with
  | Mkdtemp _ => string
  | Readdir _ => list string
  | ReadFile _ => Buffer
  | SharpMetadata _ => Metadata
  | SharpToWebp _ _ _ => Buffer
  | StorageUpload _ _ _ _ => option string
  | Mkdir _ | HttpGetToFile _ _ | ExecFile _ _ | RmRecursive _ => unit
  end.

(** A computation either yields a value or throws an [Error] with a
    message. *)
Inductive Result (A : Type) :=
| Ok (a : A)
| Thrown (message : string).
Arguments Ok {A} a.
Arguments Thrown {A} message.

Definition succeeded (c : Call) : Result (Answer c) → bool :=
  match c with
  | StorageUpload _ _ _ _ => λ r,
      match r with Ok None => true | _ => false end
  | _ => λ r, match r with Ok _ => true | Thrown _ => false end
  end.

(** A trace entry: a call together with what it came back with. *)
Record Event := {
  evCall : Call;
  evResult : Result (Answer evCall);
}.

Definition Trace := list Event.

(** Whether the call came back without failure (for an upload: without
    [error]). *)
Definition evOk (e : Event) : bool := succeeded (evCall e) (evResult e).

(** The outside world.  Every outcome may depend on all calls made so far. *)
Record Env := {
  answer : Trace → ∀ c : Call, Result (Answer c);
  tmpdir : string;                               (* os.tmpdir() *)
  uuid : Trace → string;                         (* uuid() *)
  nowISO : Trace → string;                       (* new Date().toISOString() *)
  getPublicUrlOf : Supabase → string → string → string;
}.

(** ** The request and the response *)

(** The parts of an HTTP request the handler reads: the [x-api-key]
    header and the fields of the JSON body ([None] is [undefined]; a field
    that is present is taken to have the type the handler uses it at). *)
Record Request := {
  reqApiKey : option string;
  reqEditionId : option string;
  reqPdfUrl : option string;
  reqSupabaseUrl : option string;
  reqSupabaseKey : option string;
  reqBucket : option string;
  reqVariants : option (list VariantSpec);
  reqThumbnail : option VariantSpec;
}.

Inductive ResponseBody :=
| Failure (error : string)
| Success (editionId bucket manifestPath : string) (totalPages : nat)
    (pages : list PageEntry) (uploads : list string).

Record Response := {
  status : nat;
  payload : ResponseBody;
}.

(** ** The monad of the handler: trace state plus exceptions *)

Definition M (A : Type) : Type := Trace → Result A * Trace.

Definition ret {A} (a : A) : M A := λ tr, (Ok a, tr).

Definition throw {A} (message : string) : M A := λ tr, (Thrown message, tr).

Definition bind {A B} (m : M A) (k : A → M B) : M B :=
  λ tr, match m tr with
        | (Ok a, tr') => k a tr'
        | (Thrown e, tr') => (Thrown e, tr')
        end.

(** [try { m } catch (error) { h(error.message) }] *)
Definition tryCatch {A} (m : M A) (h : string → M A) : M A :=
  λ tr, match m tr with
        | (Ok a, tr') => (Ok a, tr')
        | (Thrown e, tr') => h e tr'
        end.

#[export] Instance M_ret : MRet M := @ret.
#[export] Instance M_bind : MBind M := λ A B k m, bind m k.

Section Service.

(** Module-level configuration read from the process environment. *)
Variable SERVICE_SECRET : string.
Variable DEFAULT_BUCKET : string.
Variable env : Env.

(** [await] on a call: ask the world, log the call. *)
Definition perform (c : Call) : M (Answer c) :=
  λ tr, let r := answer env tr c in
        (r, tr ++ [{| evCall := c; evResult := r |}]).

Definition ensureTrailingSlash (value : string) : string :=
  if endsWith value "/" then value else value +:+ "/".

(** server.js, lines 41-44 *)
Definition createTempDir : M string :=
  dir ← perform (Mkdtemp (pathJoin (tmpdir env) "pdf-conversion-"));
  ret dir.

(** server.js, lines 46-53; the [console.warn] is not traced. *)
Definition removeDirSafe (dirPath : string) : M unit :=
  if String.eqb dirPath "" then ret tt
  else tryCatch (perform (RmRecursive dirPath)) (λ _, ret tt).

(** server.js, lines 55-72 *)
Definition convertPdfToPng (pdfPath outputDir : string) (dpi : nat) : M (list string) :=
  let prefix := pathJoin outputDir "page" in
  tryCatch
    (perform (ExecFile "pdftoppm" ["-png"; "-r"; numberToString dpi; pdfPath; prefix]))
    (λ message, throw ("pdftoppm failed: " +:+ message));;
  files ← perform (Readdir outputDir);
  ret (orderPageFiles outputDir files).

(** server.js, lines 74-77 *)
Definition downloadPdf (pdfUrl destinationPath : string) : M unit :=
  perform (HttpGetToFile pdfUrl destinationPath).

(** The width handed to [resize] (server.js, lines 80-81). *)
Definition targetWidthOf (metadata : Metadata) (config : VariantSpec) : Z :=
  let maxWidth := default (vwidth config) (mwidth metadata) in
  Z.min (vwidth config) maxWidth.

(** The branch on [config.height]: a number is truthy unless it is 0. *)
Definition resizeOptionsOf (metadata : Metadata) (config : VariantSpec) : ResizeOptions :=
  let targetWidth := targetWidthOf metadata config in
  match vheight config with
  | Some h =>
      if (h =? 0)%Z then ResizeWithoutEnlargement targetWidth
      else ResizeCover targetWidth h
  | None => ResizeWithoutEnlargement targetWidth
  end.

(** server.js, lines 79-95 *)
Definition cloneSharpForVariant (input : Buffer) (metadata : Metadata)
    (config : VariantSpec) : M Buffer :=
  perform (SharpToWebp input (resizeOptionsOf metadata config) (vquality config)).

(** server.js, lines 97-108 *)
Definition uploadBuffer (supabase : Supabase) (bucket storagePath : string)
    (body : UploadBody) : M unit :=
  error ← perform (StorageUpload supabase bucket storagePath body);
  match error with
  | Some message =>
      throw ("Failed to upload " +:+ storagePath +:+ ": " +:+ message)
  | None => ret tt
  end.

Definition getPublicUrl (supabase : Supabase) (bucket storagePath : string) : string :=
  getPublicUrlOf env supabase bucket storagePath.

(** ** The page loop (server.js, lines 158-197) *)

(** The inner [for (const variant of variants)] loop; [variantUploads]
    and [uploads] are the objects it mutates. *)
Fixpoint variantLoop (supabase : Supabase) (bucket editionId : string)
    (pageNumber : nat) (pngBuffer : Buffer) (metadata : Metadata)
    (variants : list VariantSpec)
    (variantUploads : gmap string Asset) (uploads : list string)
    : M (gmap string Asset * list string) :=
  match variants with
  | [] => ret (variantUploads, uploads)
  | variant :: rest =>
      buffer ← cloneSharpForVariant pngBuffer metadata variant;
      let storagePath := buildStoragePath editionId (vkey variant) pageNumber in
      uploadBuffer supabase bucket storagePath (BodyImage buffer);;
      let publicUrl := getPublicUrl supabase bucket storagePath in
      variantLoop supabase bucket editionId pageNumber pngBuffer metadata rest
        (<[vkey variant := {| path := storagePath; publicUrl := publicUrl |}]> variantUploads)
        (uploads ++ [storagePath])
  end.

(** One iteration of the outer loop, for the page at [index]. *)
Definition processPage (supabase : Supabase) (bucket editionId : string)
    (variants : list VariantSpec) (thumbnail : VariantSpec)
    (index : nat) (pngPath : string) (uploads : list string)
    : M (PageEntry * list string) :=
  let pageNumber := index + 1 in
  pngBuffer ← perform (ReadFile pngPath);
  metadata ← perform (SharpMetadata pngBuffer);
  '(variantUploads, uploads) ←
    variantLoop supabase bucket editionId pageNumber pngBuffer metadata
      variants ∅ uploads;
  thumbBuffer ← cloneSharpForVariant pngBuffer metadata thumbnail;
  let thumbStoragePath :=
    editionId +:+ "/pages/" +:+ vkey thumbnail +:+ "/" +:+ padNumber pageNumber 3 +:+ ".webp" in
  uploadBuffer supabase bucket thumbStoragePath (BodyImage thumbBuffer);;
  let thumbnailPublicUrl := getPublicUrl supabase bucket thumbStoragePath in
  let variantUploads :=
    <[vkey thumbnail := {| path := thumbStoragePath; publicUrl := thumbnailPublicUrl |}]>
      variantUploads in
  ret ({| pageNumber := pageNumber;
          pwidth := mwidth metadata;
          pheight := mheight metadata;
          assets := variantUploads |},
       uploads ++ [thumbStoragePath]).

(** The outer [for (let index = 0; index < pngPages.length; index += 1)]
    loop, over the elements of [pngPages] from [index] on. *)
Fixpoint pageLoop (supabase : Supabase) (bucket editionId : string)
    (variants : list VariantSpec) (thumbnail : VariantSpec)
    (index : nat) (pngPages : list string)
    (manifestPages : list PageEntry) (uploads : list string)
    : M (list PageEntry * list string) :=
  match pngPages with
  | [] => ret (manifestPages, uploads)
  | pngPath :: rest =>
      '(entry, uploads) ←
        processPage supabase bucket editionId variants thumbnail index pngPath uploads;
      pageLoop supabase bucket editionId variants thumbnail (index + 1) rest
        (manifestPages ++ [entry]) uploads
  end.

Definition buildManifest (editionId bucket bucketBaseUrl generated : string)
    (thumbnail : VariantSpec) (manifestPages : list PageEntry) : Manifest :=
  {| editionIdOf := editionId;
     totalPagesOf := length manifestPages;
     assetsBaseUrl := bucketBaseUrl;
     bucketOf := bucket;
     generatedAt := generated;
     manifestPagesOf := summarizePage thumbnail <$> manifestPages |}.

(** ** The handler of [POST /convert] (server.js, lines 113-239) *)

Definition unauthorized : Response :=
  {| status := 401; payload := Failure "Unauthorized" |}.

Definition missingParameters : Response :=
  {| status := 400;
     payload := Failure
       "Missing required parameters (editionId, pdfUrl, supabaseUrl, supabaseKey)" |}.

(** Everything after validation (lines 137-231).  [createClient] only
    builds the client object and makes no call. *)
Definition pipelineBody (editionId pdfUrl supabaseUrl supabaseKey bucket : string)
    (variants : list VariantSpec) (thumbnail : VariantSpec) : M Response :=
  let supabase := {| sbUrl := supabaseUrl; sbKey := supabaseKey |} in
  tempRoot ← createTempDir;
  id ← (λ tr, (Ok (uuid env tr), tr));
  let pdfPath := pathJoin tempRoot (id +:+ ".pdf") in
  let pngDir := pathJoin tempRoot "png" in
  perform (Mkdir pngDir);;
  downloadPdf pdfUrl pdfPath;;
  pngPages ← convertPdfToPng pdfPath pngDir 300;
  if Nat.eqb (length pngPages) 0 then throw "No pages produced during PDF conversion"
  else
    let bucketBaseUrl :=
      ensureTrailingSlash (supabaseUrl +:+ "/storage/v1/object/public/" +:+ bucket) in
    '(manifestPages, uploads) ←
      pageLoop supabase bucket editionId variants thumbnail 0 pngPages [] [];
    generated ← (λ tr, (Ok (nowISO env tr), tr));
    let manifest :=
      buildManifest editionId bucket bucketBaseUrl generated thumbnail manifestPages in
    let manifestPath := editionId +:+ "/manifest.json" in
    uploadBuffer supabase bucket manifestPath (BodyManifest manifest);;
    removeDirSafe tempRoot;;
    ret {| status := 200;
           payload := Success editionId bucket manifestPath
                        (length (manifestPagesOf manifest)) manifestPages uploads |}.

(** The body of the [try] block. *)
Definition convert (req : Request) : M Response :=
  let requestSecret := default "" (reqApiKey req) in
  if negb (String.eqb SERVICE_SECRET "") && negb (String.eqb requestSecret SERVICE_SECRET)
  then ret unauthorized
  else
    let bucket := default DEFAULT_BUCKET (reqBucket req) in
    let variants := default VARIANTS (reqVariants req) in
    let thumbnail := default THUMBNAIL_VARIANT (reqThumbnail req) in
    if negb (truthy (reqEditionId req)) || negb (truthy (reqPdfUrl req))
       || negb (truthy (reqSupabaseUrl req)) || negb (truthy (reqSupabaseKey req))
    then ret missingParameters
    else
      pipelineBody (default "" (reqEditionId req)) (default "" (reqPdfUrl req))
        (default "" (reqSupabaseUrl req)) (default "" (reqSupabaseKey req))
        bucket variants thumbnail.

(** The handler: the [try] block and its [catch], started on a trace. *)
Definition handler (req : Request) (tr : Trace) : Response * Trace :=
  match convert req tr with
  | (Ok response, tr') => (response, tr')
  | (Thrown message, tr') => ({| status := 500; payload := Failure message |}, tr')
  end.

End Service.

Arguments handler SERVICE_SECRET DEFAULT_BUCKET env req tr : simpl never.

(** ** Reading a trace *)

Definition isManifestUpload (e : Event) : bool :=
  match evCall e with
  | StorageUpload _ _ _ (BodyManifest _) => true
  | _ => false
  end.

Definition isAssetUpload (e : Event) : bool :=
  match evCall e with
  | StorageUpload _ _ _ (BodyImage _) => true
  | _ => false
  end.

Definition isUpload (e : Event) : bool :=
  match evCall e with
  | StorageUpload _ _ _ _ => true
  | _ => false
  end.

Definition isRender (e : Event) : bool :=
  match evCall e with
  | SharpToWebp _ _ _ => true
  | _ => false
  end.

Definition isRemoval (e : Event) : bool :=
  match evCall e with
  | RmRecursive _ => true
  | _ => false
  end.

(** The storage path of an upload call. *)
Definition uploadPathOf (e : Event) : option string :=
  match evCall e with
  | StorageUpload _ _ storagePath _ => Some storagePath
  | _ => None
  end.

(** The file a [readFile] call reads. *)
Definition readFileOf (e : Event) : option string :=
  match evCall e with
  | ReadFile file => Some file
  | _ => None
  end.

(** The directory a successful [mkdtemp] created. *)
Definition createdDirOf (e : Event) : option string :=
  match e with
  | {| evCall := Mkdtemp _; evResult := Ok dir |} => Some dir
  | _ => None
  end.

(** The entries a successful [readdir] listed. *)
Definition listingOf (e : Event) : option (list string) :=
  match e with
  | {| evCall := Readdir _; evResult := Ok files |} => Some files
  | _ => None
  end.

(** The resize options of a rendering call. *)
Definition resizeOf (e : Event) : option ResizeOptions :=
  match evCall e with
  | SharpToWebp _ resize _ => Some resize
  | _ => None
  end.

(** ** A scripted world for running the handler on concrete requests *)

Definition scriptedAnswer (listing : list string) (fails : Call → bool)
    (c : Call) : Result (Answer c) :=
  if fails c then
    match c return Result (Answer c) with
    | StorageUpload _ _ _ _ => Ok (Some "storage unavailable")
    | _ => Thrown "unavailable"
    end
  else
    match c return Result (Answer c) with
    | Mkdtemp prefix => Ok (prefix +:+ "Ab12Cd")
    | Readdir _ => Ok listing
    | ReadFile _ => Ok []
    | SharpMetadata _ => Ok {| mwidth := Some 2480%Z; mheight := Some 3508%Z |}
    | SharpToWebp input _ _ => Ok input
    | StorageUpload _ _ _ _ => Ok None
    | Mkdir _ | HttpGetToFile _ _ | ExecFile _ _ | RmRecursive _ => Ok tt
    end.

Definition scriptedEnv (listing : list string) (fails : Call → bool) : Env :=
  {| answer := λ _ c, scriptedAnswer listing fails c;
     tmpdir := "/tmp";
     uuid := λ _, "0b0e7a5c";
     nowISO := λ _, "2024-01-01T00:00:00.000Z";
     getPublicUrlOf := λ supabase bucket storagePath,
       sbUrl supabase +:+ "/storage/v1/object/public/" +:+ bucket +:+ "/" +:+ storagePath |}.

Definition neverFails (c : Call) : bool := false.

Definition sampleRequest : Request :=
  {| reqApiKey := None;
     reqEditionId := Some "ed1";
     reqPdfUrl := Some "https://example.org/a.pdf";
     reqSupabaseUrl := Some "https://proj.supabase.co";
     reqSupabaseKey := Some "service-role-key";
     reqBucket := None;
     reqVariants := None;
     reqThumbnail := None |}.

(** ** Definitions that follow the words of the specification *)

(** The page number zero-padded to 3 digits, in the words of the storage
    path convention: two zeros in front of a one-digit number, one in front
    of a two-digit number, none otherwise. *)
Definition zeroPadded3 (pageNumber : nat) : string :=
  if decide (pageNumber < 10) then "00" +:+ numberToString pageNumber
  else if decide (pageNumber < 100) then "0" +:+ numberToString pageNumber
  else numberToString pageNumber.


(** ** The shape of a run

    What the trace and the response of one request look like, exit by
    exit.  [handler_Run] below proves that every run of [handler] has one
    of these shapes. *)

Section RunShape.

Context (env : Env) (supabase : Supabase) (bucket editionId : string).
Context (variants : list VariantSpec) (thumbnail : VariantSpec).

(** The entry stored in [variantUploads] under [key] for a page. *)
Definition assetAt (pageNumber : nat) (key : string) : Asset :=
  let storagePath := buildStoragePath editionId key pageNumber in
  {| path := storagePath;
     publicUrl := getPublicUrl env supabase bucket storagePath |}.

Definition variantAssets (pageNumber : nat) (vs : list VariantSpec)
    (m : gmap string Asset) : gmap string Asset :=
  foldl (λ m v, <[vkey v := assetAt pageNumber (vkey v)]> m) m vs.

(** [variantUploads] at the end of an iteration of the page loop. *)
Definition pageAssets (pageNumber : nat) : gmap string Asset :=
  <[vkey thumbnail := assetAt pageNumber (vkey thumbnail)]>
    (variantAssets pageNumber variants ∅).

Definition variantPaths (pageNumber : nat) (vs : list VariantSpec) : list string :=
  (λ v, buildStoragePath editionId (vkey v) pageNumber) <$> vs.

(** The storage paths of one page, in upload order. *)
Definition pagePaths (pageNumber : nat) : list string :=
  variantPaths pageNumber variants ++ [buildStoragePath editionId (vkey thumbnail) pageNumber].

(** The storage paths of [count] pages starting at index [index]. *)
Definition pathsOfPages (index count : nat) : list string :=
  concat ((λ i, pagePaths (i + 1)) <$> seq index count).

(** The keys under which assets are published. *)
Definition assetKeys : list string := (vkey <$> variants) ++ [vkey thumbnail].

(** An event of the page loop for pages [lo+1 .. hi]: reading or decoding
    a page, rendering a variant, or uploading an image to the path of one
    of the [keys] and one of these pages. *)
Definition PageWork (keys : list string) (lo hi : nat) (e : Event) : Prop :=
  match evCall e with
  | ReadFile _ | SharpMetadata _ | SharpToWebp _ _ _ => True
  | StorageUpload client b storagePath (BodyImage _) =>
      client = supabase ∧ b = bucket ∧
      ∃ key n, key ∈ keys ∧ lo < n ≤ hi ∧ storagePath = buildStoragePath editionId key n
  | _ => False
  end.

(** A page loop that ran to its end over [pngPages], from [index] on. *)
Definition LoopDone (index : nat) (pngPages : list string) (evs : list Event)
    (pages : list PageEntry) (uploads : list string) : Prop :=
  Forall (PageWork assetKeys index (index + length pngPages)) evs
  ∧ Forall (λ e, evOk e = true) evs
  ∧ omap uploadPathOf evs = pathsOfPages index (length pngPages)
  ∧ uploads = pathsOfPages index (length pngPages)
  ∧ omap readFileOf evs = pngPages
  ∧ Forall2 (λ i entry, pageNumber entry = i + 1 ∧ assets entry = pageAssets (i + 1))
      (seq index (length pngPages)) pages.

End RunShape.

Definition internalError (message : string) : Response :=
  {| status := 500; payload := Failure message |}.

(** The calls of a setup that got as far as listing the output directory. *)
Definition setupEvents (env : Env) (tempRoot pdfUrl pdfPath : string)
    (files : list string) : list Event :=
  let pngDir := pathJoin tempRoot "png" in
  [ {| evCall := Mkdtemp (pathJoin (tmpdir env) "pdf-conversion-"); evResult := Ok tempRoot |};
    {| evCall := Mkdir pngDir; evResult := Ok tt |};
    {| evCall := HttpGetToFile pdfUrl pdfPath; evResult := Ok tt |};
    {| evCall := ExecFile "pdftoppm"
                   ["-png"; "-r"; numberToString 300; pdfPath; pathJoin pngDir "page"];
       evResult := Ok tt |};
    {| evCall := Readdir pngDir; evResult := Ok files |} ].

Arguments setupEvents : simpl never.

Definition isSetupCall (e : Event) : bool :=
  match evCall e with
  | Mkdtemp _ | Mkdir _ | HttpGetToFile _ _ | ExecFile _ _ | Readdir _ => true
  | _ => false
  end.

(** The call [removeDirSafe] makes, if any. *)
Definition removalEvents (tempRoot : string) (result : Result unit) : list Event :=
  if String.eqb tempRoot "" then []
  else [ {| evCall := RmRecursive tempRoot; evResult := result |} ].

Definition pageFilesOf (files : list string) : list string :=
  filter (λ f, isPageFile f = true) files.

Section Runs.

Context (SERVICE_SECRET DEFAULT_BUCKET : string) (env : Env) (req : Request).

(** The request as the handler destructures it. *)
Definition editionIdFor : string := default "" (reqEditionId req).
Definition pdfUrlFor : string := default "" (reqPdfUrl req).
Definition clientFor : Supabase :=
  {| sbUrl := default "" (reqSupabaseUrl req); sbKey := default "" (reqSupabaseKey req) |}.
Definition bucketFor : string := default DEFAULT_BUCKET (reqBucket req).
Definition variantsFor : list VariantSpec := default VARIANTS (reqVariants req).
Definition thumbnailFor : VariantSpec := default THUMBNAIL_VARIANT (reqThumbnail req).
Definition manifestPathFor : string := editionIdFor +:+ "/manifest.json".

(** The shared-secret check lets the request through. *)
Definition authorized : Prop :=
  SERVICE_SECRET = "" ∨ default "" (reqApiKey req) = SERVICE_SECRET.

#[export] Instance authorized_dec : Decision authorized.
Proof. unfold authorized. apply _. Defined.

(** All four required fields are present and non-empty. *)
Definition hasRequired : bool :=
  truthy (reqEditionId req) && truthy (reqPdfUrl req)
  && truthy (reqSupabaseUrl req) && truthy (reqSupabaseKey req).

Definition manifestFor (generated : string) (pages : list PageEntry) : Manifest :=
  buildManifest editionIdFor bucketFor
    (ensureTrailingSlash
       (sbUrl clientFor +:+ "/storage/v1/object/public/" +:+ bucketFor))
    generated thumbnailFor pages.

Definition manifestEvent (generated : string) (pages : list PageEntry)
    (result : Result (option string)) : Event :=
  {| evCall := StorageUpload clientFor bucketFor manifestPathFor
                 (BodyManifest (manifestFor generated pages));
     evResult := result |}.

Definition successResponse (pages : list PageEntry) (uploads : list string) : Response :=
  {| status := 200;
     payload := Success editionIdFor bucketFor manifestPathFor (length pages) pages uploads |}.

Abbreviation loopDone := (LoopDone env clientFor bucketFor editionIdFor variantsFor thumbnailFor).
Abbreviation pageWork :=
  (PageWork clientFor bucketFor editionIdFor (assetKeys variantsFor thumbnailFor)).

Inductive Run : Response → Trace → Prop :=
| RunUnauthorized :
    SERVICE_SECRET ≠ "" → default "" (reqApiKey req) ≠ SERVICE_SECRET →
    Run unauthorized []
| RunMissingParameters :
    authorized → hasRequired = false →
    Run missingParameters []
| RunSetupFailed setup message :
    authorized → hasRequired = true →
    Forall (λ e, isSetupCall e = true) setup →
    Forall (λ e, listingOf e = None) setup →
    Run (internalError message) setup
| RunNoPages tempRoot pdfPath files :
    authorized → hasRequired = true →
    pageFilesOf files = [] →
    Run (internalError "No pages produced during PDF conversion")
        (setupEvents env tempRoot pdfUrlFor pdfPath files)
| RunPageFailed tempRoot pdfPath files evs message :
    authorized → hasRequired = true →
    pageFilesOf files ≠ [] →
    Forall (pageWork 0 (length (pageFilesOf files))) evs →
    Run (internalError message)
        (setupEvents env tempRoot pdfUrlFor pdfPath files ++ evs)
| RunManifestFailed tempRoot pdfPath files evs pages uploads generated result message :
    authorized → hasRequired = true →
    pageFilesOf files ≠ [] →
    loopDone 0 (orderPageFiles (pathJoin tempRoot "png") files) evs pages uploads →
    result ≠ Ok None →
    Run (internalError message)
        (setupEvents env tempRoot pdfUrlFor pdfPath files ++ evs
           ++ [manifestEvent generated pages result])
| RunCompleted tempRoot pdfPath files evs pages uploads generated removal :
    authorized → hasRequired = true →
    pageFilesOf files ≠ [] →
    loopDone 0 (orderPageFiles (pathJoin tempRoot "png") files) evs pages uploads →
    Run (successResponse pages uploads)
        (setupEvents env tempRoot pdfUrlFor pdfPath files ++ evs
           ++ [manifestEvent generated pages (Ok None)]
           ++ removalEvents tempRoot removal).

End Runs.

(** ** Requests and worlds used in the examples below *)

(** The request with its [X-Api-Key] header replaced. *)
Definition withApiKey (header : option string) (req : Request) : Request :=
  {| reqApiKey := header;
     reqEditionId := reqEditionId req;
     reqPdfUrl := reqPdfUrl req;
     reqSupabaseUrl := reqSupabaseUrl req;
     reqSupabaseKey := reqSupabaseKey req;
     reqBucket := reqBucket req;
     reqVariants := reqVariants req;
     reqThumbnail := reqThumbnail req |}.

(** [sampleRequest] without its [editionId]. *)
Definition requestWithoutEditionId : Request :=
  {| reqApiKey := None;
     reqEditionId := None;
     reqPdfUrl := Some "https://example.org/a.pdf";
     reqSupabaseUrl := Some "https://proj.supabase.co";
     reqSupabaseKey := Some "service-role-key";
     reqBucket := None;
     reqVariants := None;
     reqThumbnail := None |}.

(** A world in which the download of the PDF fails. *)
Definition downloadFails (c : Call) : bool :=
  match c with
  | HttpGetToFile _ _ => true
  | _ => false
  end.

(** A world in which the upload to one storage path fails. *)
Definition uploadFailsAt (failing : string) (c : Call) : bool :=
  match c with
  | StorageUpload _ _ storagePath _ => String.eqb storagePath failing
  | _ => false
  end.

(** A two-page document, listed out of order together with a stray file. *)
Definition twoPageListing : list string := ["page-2.png"; "notes.txt"; "page-1.png"].

(** A thumbnail configuration with a height of 0. *)
Definition zeroHeightVariant : VariantSpec :=
  {| vkey := "thumbnail"; vwidth := 360; vheight := Some 0%Z; vquality := 60 |}.

Definition a4Metadata : Metadata :=
  {| mwidth := Some 2480%Z; mheight := Some 3508%Z |}.

(** The same two-page document, listed in order. *)
Definition twoPageListingInOrder : list string := ["page-1.png"; "page-2.png"].

(** Three pages of a longer document, one of them numbered 10, and a stray
    file. *)
Definition mixedListing : list string :=
  ["page-10.png"; "page-2.png"; "notes.txt"; "page-9.png"].

(** A request that omits the ["low"] variant and renames the thumbnail. *)
Definition customRequest : Request :=
  {| reqApiKey := None;
     reqEditionId := Some "ed1";
     reqPdfUrl := Some "https://example.org/a.pdf";
     reqSupabaseUrl := Some "https://proj.supabase.co";
     reqSupabaseKey := Some "service-role-key";
     reqBucket := None;
     reqVariants := Some
       [ {| vkey := "medium"; vwidth := 1400; vheight := None; vquality := 80 |};
         {| vkey := "high"; vwidth := 2400; vheight := None; vquality := 90 |} ];
     reqThumbnail := Some
       {| vkey := "tiny"; vwidth := 120; vheight := None; vquality := 50 |} |}.

(** Three pages as [pdftoppm] names them, the first two swapped, and a
    stray file. *)
Definition threePageListing : list string :=
  ["page-2.png"; "page-1.png"; "page-3.png"; "notes.txt"].

(** A world in which the removal of the temporary directory fails. *)
Definition removalFails (c : Call) : bool :=
  match c with
  | RmRecursive _ => true
  | _ => false
  end.

(** The storage path convention, in the words of the specification:
    [{editionId}/pages/{variantKey}/{pageNumber zero-padded to 3 digits}.webp]
    for a page asset and [{editionId}/manifest.json] for the manifest. *)
Definition specPagePath (editionId variantKey : string) (pageNumber : nat) : string :=
  editionId +:+ "/pages/" +:+ variantKey +:+ "/" +:+ zeroPadded3 pageNumber +:+ ".webp".

Definition specManifestPath (editionId : string) : string :=
  editionId +:+ "/manifest.json".

(** Every storage path of a conversion of [pageCount] pages: for each page
    from 1 on, one path per key, and the manifest path at the end. *)
Definition specUploadPaths (editionId : string) (keys : list string)
    (pageCount : nat) : list string :=
  concat ((λ n, (λ key, specPagePath editionId key n) <$> keys) <$> seq 1 pageCount)
  ++ [specManifestPath editionId].

(** The [uploads] and [manifestPath] fields of a response. *)
Definition uploadsOf (response : Response) : list string :=
  match payload response with
  | Success _ _ _ _ _ uploads => uploads
  | Failure _ => []
  end.

Definition manifestPathOf (response : Response) : option string :=
  match payload response with
  | Success _ _ manifestPath _ _ _ => Some manifestPath
  | Failure _ => None
  end.

Definition pagesOf (response : Response) : list PageEntry :=
  match payload response with
  | Success _ _ _ _ pages _ => pages
  | Failure _ => []
  end.

(** ** Renders and image widths (server.js, lines 79-95, 161-163)

    How wide an encoded image is, is a fact about [sharp] and the image, not
    about this code: [widthOf] below stands for it wherever it is needed. *)

(** The width asked of [resize]. *)
Definition resizeWidth (resize : ResizeOptions) : Z :=
  match resize with
  | ResizeCover width _ => width
  | ResizeWithoutEnlargement width => width
  end.

(** A [metadata()] call that came back: the image asked about and the
    answer. *)
Definition metadataOf (e : Event) : option (Buffer * Metadata) :=
  match e with
  | {| evCall := SharpMetadata input; evResult := Ok metadata |} => Some (input, metadata)
  | _ => None
  end.

(** The output of a render that came back. *)
Definition renderedOf (e : Event) : option Buffer :=
  match e with
  | {| evCall := SharpToWebp _ _ _; evResult := Ok output |} => Some output
  | _ => None
  end.

(** What is taken for granted of [sharp] in a run: a width that
    [metadata()] reports is the width of the image, and the output of a
    render is not wider than the width asked of [resize] (with
    [withoutEnlargement] it is the smaller of that width and the input's,
    with a cover fit it is exactly that width). *)
Definition sharpKeepsWidths (widthOf : Buffer → Z) (tr : Trace) : Prop :=
  Forall (λ e,
    (∀ input metadata w,
       metadataOf e = Some (input, metadata) → mwidth metadata = Some w →
       w = widthOf input)
    ∧ (∀ output resize,
         renderedOf e = Some output → resizeOf e = Some resize →
         (widthOf output ≤ resizeWidth resize)%Z)) tr.

(** A render of the image [pngBuffer] with the resize options that
    [cloneSharpForVariant] derives from [metadata] and one of [configs], and
    with that configuration's quality. *)
Definition RenderWith (configs : list VariantSpec) (pngBuffer : Buffer)
    (metadata : Metadata) (e : Event) : Prop :=
  match evCall e with
  | SharpToWebp input resize quality =>
      input = pngBuffer
      ∧ ∃ config,
          config ∈ configs
          ∧ resize = resizeOptionsOf metadata config
          ∧ quality = vquality config
  | _ => True
  end.

(** A render as the page loop makes them: of an image whose metadata was
    read by a call of [scope], with the options derived from that metadata
    and one of [configs]. *)
Definition RenderOf (configs : list VariantSpec) (scope : list Event) (e : Event) : Prop :=
  match evCall e with
  | SharpToWebp input resize quality =>
      ∃ config metadata,
        config ∈ configs
        ∧ (∃ m, m ∈ scope ∧ metadataOf m = Some (input, metadata))
        ∧ resize = resizeOptionsOf metadata config
        ∧ quality = vquality config
  | _ => True
  end.

(** *** Worlds with images of a known width *)

(** In these worlds the width of an image is the length of its buffer. *)
Definition pixelWidth (image : Buffer) : Z := Z.of_nat (length image).

(** A page image 5 wide. *)
Definition fivePixels : Buffer := replicate 5 Byte.x00.

(** A world whose [sharp] resizes as documented: without enlargement the
    output is the input cut to the width asked, with a cover fit it has
    exactly the width asked.  [metadata()] reports the width of the image
    when [reportWidth] is set and no width otherwise. *)
Definition pixelAnswer (reportWidth : bool) (listing : list string)
    (c : Call) : Result (Answer c) :=
  match c return Result (Answer c) with
  | Mkdtemp prefix => Ok (prefix +:+ "Ab12Cd")
  | Readdir _ => Ok listing
  | ReadFile _ => Ok fivePixels
  | SharpMetadata input =>
      Ok {| mwidth := if reportWidth then Some (pixelWidth input) else None;
            mheight := Some 7%Z |}
  | SharpToWebp input (ResizeWithoutEnlargement width) _ => Ok (take (Z.to_nat width) input)
  | SharpToWebp input (ResizeCover width _) _ => Ok (replicate (Z.to_nat width) Byte.x00)
  | StorageUpload _ _ _ _ => Ok None
  | Mkdir _ | HttpGetToFile _ _ | ExecFile _ _ | RmRecursive _ => Ok tt
  end.

Definition pixelEnv (reportWidth : bool) (listing : list string) : Env :=
  {| answer := λ _ c, pixelAnswer reportWidth listing c;
     tmpdir := "/tmp";
     uuid := λ _, "0b0e7a5c";
     nowISO := λ _, "2024-01-01T00:00:00.000Z";
     getPublicUrlOf := λ supabase bucket storagePath,
       sbUrl supabase +:+ "/storage/v1/object/public/" +:+ bucket +:+ "/" +:+ storagePath |}.

(** A request whose variants are 3 and 8 wide and whose thumbnail is cropped
    to 8 by 4. *)
Definition narrowPageRequest : Request :=
  {| reqApiKey := None;
     reqEditionId := Some "ed1";
     reqPdfUrl := Some "https://example.org/a.pdf";
     reqSupabaseUrl := Some "https://proj.supabase.co";
     reqSupabaseKey := Some "service-role-key";
     reqBucket := None;
     reqVariants := Some
       [ {| vkey := "small"; vwidth := 3; vheight := None; vquality := 70 |};
         {| vkey := "large"; vwidth := 8; vheight := None; vquality := 80 |} ];
     reqThumbnail := Some
       {| vkey := "thumb"; vwidth := 8; vheight := Some 4%Z; vquality := 60 |} |}.

(** The render of the thumbnail of page 1 in the world that reports no
    width: a cover fit to 8 by 4 of an image 5 wide. *)
Definition blindThumbnailRender : Event :=
  {| evCall := SharpToWebp fivePixels (ResizeCover 8 4) 60;
     evResult := Ok (replicate 8 Byte.x00) |}.

(** The same render in the world that reports the width. *)
Definition thumbnailRender : Event :=
  {| evCall := SharpToWebp fivePixels (ResizeCover 5 4) 60;
     evResult := Ok (replicate 5 Byte.x00) |}.

(** ** Further definitions used to state properties of the code *)

(** The name [pdftoppm -png] gives the image of page [n] under the prefix
    ["page"]: the page number zero-padded to [digits] digits ([digits] is the
    number of digits of the page count). *)
Definition pdftoppmName (digits n : nat) : string :=
  "page-" +:+ padNumber n digits +:+ ".png".

(** The message of the [Error] the handler ends up with when a call does
    not come back well: the call's own message, wrapped by [convertPdfToPng]
    for the rasterizer and by [uploadBuffer] for a storage [error]; a failed
    removal of the temporary directory is only logged. *)
Definition reportedError (e : Event) : option string :=
  match evCall e as c return Result (Answer c) → option string with
  | StorageUpload _ _ storagePath _ => λ r,
      match r with
      | Ok (Some message) =>
          Some ("Failed to upload " +:+ storagePath +:+ ": " +:+ message)
      | Ok None => None
      | Thrown message => Some message
      end
  | ExecFile _ _ => λ r,
      match r with
      | Ok _ => None
      | Thrown message => Some ("pdftoppm failed: " +:+ message)
      end
  | RmRecursive _ => λ _, None
  | _ => λ r,
      match r with
      | Ok _ => None
      | Thrown message => Some message
      end
  end (evResult e).

(** A computation that stopped at its first failing call: every call
    before it succeeded, and the error thrown is the one that call reports. *)
Definition FailedAt (new : list Event) (message : string) : Prop :=
  ∃ before failed,
    new = before ++ [failed]
    ∧ Forall (λ e, evOk e = true) before
    ∧ evOk failed = false
    ∧ reportedError failed = Some message.

(** The [editionId] and [bucket] fields of a response. *)
Definition editionIdField (response : Response) : option string :=
  match payload response with
  | Success editionId _ _ _ _ _ => Some editionId
  | Failure _ => None
  end.

Definition bucketField (response : Response) : option string :=
  match payload response with
  | Success _ bucket _ _ _ _ => Some bucket
  | Failure _ => None
  end.

(** The [totalPages] field of a response. *)
Definition totalPagesField (response : Response) : option nat :=
  match payload response with
  | Success _ _ _ totalPages _ _ => Some totalPages
  | Failure _ => None
  end.

(** The two calls made for one variant of one page when both come back
    well: the render of the page image (server.js, lines 79-95), then the
    upload of its output under the variant's storage path. *)
Definition renderEvents (supabase : Supabase) (bucket editionId : string)
    (pageNumber : nat) (pngBuffer : Buffer) (metadata : Metadata)
    (config : VariantSpec) (output : Buffer) : list Event :=
  [ {| evCall := SharpToWebp pngBuffer (resizeOptionsOf metadata config) (vquality config);
       evResult := Ok output |};
    {| evCall := StorageUpload supabase bucket
                   (buildStoragePath editionId (vkey config) pageNumber) (BodyImage output);
       evResult := Ok None |} ].

(** What the world answered while one page was processed: the content of
    the page file, its metadata and the output of each render. *)
Record PageRun := {
  prBuffer : Buffer;
  prMetadata : Metadata;
  prOutputs : list Buffer
}.

(** The calls of one iteration of the page loop that ran to its end, over
    the configurations [configs] in turn. *)
Definition pageEvents (supabase : Supabase) (bucket editionId : string)
    (configs : list VariantSpec) (pageNumber : nat) (pngPath : string)
    (run : PageRun) : list Event :=
  {| evCall := ReadFile pngPath; evResult := Ok (prBuffer run) |}
  :: {| evCall := SharpMetadata (prBuffer run); evResult := Ok (prMetadata run) |}
  :: concat (zip_with
               (renderEvents supabase bucket editionId pageNumber
                  (prBuffer run) (prMetadata run))
               configs (prOutputs run)).

(** The calls of a page loop that ran to its end over [pngPages], the first
    of them at index [index]. *)
Fixpoint loopEvents (supabase : Supabase) (bucket editionId : string)
    (configs : list VariantSpec) (index : nat) (pngPages : list string)
    (runs : list PageRun) : list Event :=
  match pngPages, runs with
  | pngPath :: rest, run :: runs' =>
      pageEvents supabase bucket editionId configs (index + 1) pngPath run
      ++ loopEvents supabase bucket editionId configs (index + 1) rest runs'
  | _, _ => []
  end.

(** The paths of the local file system a call names: the directory or file
    it creates, lists, reads, writes or removes.  For [pdftoppm] these are
    the operands after ['-png', '-r', dpi]: the input file and the output
    prefix.  [mkdtemp] is left out: the directory it creates is its result. *)
Definition fsPathsOf (e : Event) : list string :=
  match evCall e with
  | Mkdir p | Readdir p | ReadFile p | RmRecursive p => [p]
  | HttpGetToFile _ destinationPath => [destinationPath]
  | ExecFile _ args => drop 3 args
  | _ => []
  end.

(** [p] is the directory [dir] itself or a path below it. *)
Definition inDir (dir p : string) : bool :=
  String.eqb p dir || startsWith p (dir +:+ "/").

(** ** Sanity checks of the embedding on concrete inputs *)

Example padNumber_7 : padNumber 7 3 = "007".
Proof. reflexivity. Qed.

Example padNumber_42 : padNumber 42 3 = "042".
Proof. reflexivity. Qed.

Example padNumber_1234 : padNumber 1234 3 = "1234".
Proof. reflexivity. Qed.

Example buildStoragePath_low_1 :
  buildStoragePath "uuid" "low" 1 = "uuid/pages/low/001.webp".
Proof. reflexivity. Qed.

Example pageIndex_10 : pageIndex "page-10.png" = 10.
Proof. reflexivity. Qed.

Example pageIndex_none : pageIndex "page.png" = 0.
Proof. reflexivity. Qed.

Example orderPageFiles_9_10 :
  orderPageFiles "/t/png" ["page-10.png"; "page-2.png"; "notes.txt"; "page-9.png"]
  = ["/t/png/page-2.png"; "/t/png/page-9.png"; "/t/png/page-10.png"].
Proof. reflexivity. Qed.

(** ** Facts about strings *)

Section StringFacts.

Lemma app_empty_l s : "" +:+ s = s.
Proof. reflexivity. Qed.

Lemma app_String c s t : String c s +:+ t = String c (s +:+ t).
Proof. reflexivity. Qed.

Lemma app_assoc_string s t u : (s +:+ t) +:+ u = s +:+ (t +:+ u).
Proof.
  induction s as [|c s IH]; [done|].
  rewrite !app_String. by rewrite IH.
Qed.

Lemma length_app_string s t :
  String.length (s +:+ t) = String.length s + String.length t.
Proof.
  induction s as [|c s IH]; [done|].
  rewrite app_String. simpl. by rewrite IH.
Qed.

Lemma chars_app s t : chars (s +:+ t) = chars s ++ chars t.
Proof.
  induction s as [|c s IH]; [done|].
  rewrite app_String. unfold chars in *. simpl. by rewrite IH.
Qed.

Lemma chars_inj s t : chars s = chars t → s = t.
Proof.
  intros H. rewrite <- (string_of_list_ascii_of_string s).
  rewrite <- (string_of_list_ascii_of_string t). unfold chars in H. by rewrite H.
Qed.

End StringFacts.

(** ** Decimal printing and padding *)

Section Decimal.

Lemma div10_facts n :
  n = 10 * (n / 10) + n mod 10 ∧ n mod 10 < 10.
Proof.
  split; [apply Nat.div_mod_eq|]. apply Nat.mod_upper_bound. lia.
Qed.

Ltac div10 n := pose proof (div10_facts n).

Lemma digitsFuel_S fuel n acc :
  digitsFuel (S fuel) n acc =
    if Nat.eqb (n / 10) 0 then String (digitChar (n mod 10)) acc
    else digitsFuel fuel (n / 10) (String (digitChar (n mod 10)) acc).
Proof. reflexivity. Qed.

Lemma digitsFuel_acc fuel : ∀ n acc,
  digitsFuel fuel n acc = digitsFuel fuel n "" +:+ acc.
Proof.
  induction fuel as [|fuel IH]; intros n acc; [reflexivity|].
  rewrite !digitsFuel_S.
  destruct (Nat.eqb (n / 10) 0); [reflexivity|].
  rewrite IH. rewrite (IH _ (String _ "")).
  by rewrite app_assoc_string.
Qed.

Lemma digitsFuel_enough f1 : ∀ f2 n acc,
  n < f1 → n < f2 → digitsFuel f1 n acc = digitsFuel f2 n acc.
Proof.
  induction f1 as [|f1 IH]; intros f2 n acc H1 H2; [lia|].
  destruct f2 as [|f2]; [lia|]. rewrite !digitsFuel_S.
  destruct (Nat.eqb (n / 10) 0) eqn:Hq; [done|].
  apply Nat.eqb_neq in Hq. div10 n.
  apply IH; lia.
Qed.

Lemma numberToString_small n :
  n < 10 → numberToString n = String (digitChar n) "".
Proof.
  intros Hn. unfold numberToString. rewrite digitsFuel_S.
  rewrite Nat.div_small, Nat.mod_small by lia. done.
Qed.

Lemma numberToString_step n :
  10 ≤ n →
  numberToString n = numberToString (n / 10) +:+ String (digitChar (n mod 10)) "".
Proof.
  intros Hn. unfold numberToString at 1. rewrite digitsFuel_S.
  div10 n.
  destruct (Nat.eqb (n / 10) 0) eqn:Hq; [apply Nat.eqb_eq in Hq; lia|].
  rewrite digitsFuel_acc. f_equal.
  apply digitsFuel_enough; lia.
Qed.

Lemma digitValue_digitChar d : d < 10 → digitValue (digitChar d) = d.
Proof.
  intros Hd. unfold digitValue, digitChar.
  rewrite nat_ascii_embedding by lia. lia.
Qed.

Lemma parseDigits_snoc s c :
  parseDigits (s +:+ String c "") = 10 * parseDigits s + digitValue c.
Proof.
  unfold parseDigits. by rewrite chars_app, fold_left_app.
Qed.

(** Printing a number and reading it back gives the number. *)
Lemma parseDigits_numberToString n : parseDigits (numberToString n) = n.
Proof.
  induction (lt_wf n) as [n _ IH].
  destruct (decide (n < 10)) as [Hlt|Hge].
  - rewrite numberToString_small by done.
    unfold parseDigits. simpl. rewrite digitValue_digitChar by done. lia.
  - div10 n. rewrite numberToString_step by lia.
    rewrite parseDigits_snoc, IH by lia.
    rewrite digitValue_digitChar by lia. lia.
Qed.

Lemma length_numberToString_small n :
  n < 10 → String.length (numberToString n) = 1.
Proof. intros Hn. by rewrite numberToString_small. Qed.

Lemma length_numberToString_step n :
  10 ≤ n →
  String.length (numberToString n) = S (String.length (numberToString (n / 10))).
Proof.
  intros Hn. rewrite numberToString_step by done.
  rewrite length_app_string. simpl. lia.
Qed.

Lemma length_numberToString_pos n : 1 ≤ String.length (numberToString n).
Proof.
  destruct (decide (n < 10)).
  - by rewrite length_numberToString_small.
  - rewrite length_numberToString_step by lia. lia.
Qed.

Lemma length_numberToString_two n :
  10 ≤ n → n < 100 → String.length (numberToString n) = 2.
Proof.
  intros H1 H2. div10 n. rewrite length_numberToString_step by done.
  rewrite length_numberToString_small; [done|lia].
Qed.

Lemma length_numberToString_three n :
  100 ≤ n → 3 ≤ String.length (numberToString n).
Proof.
  intros Hn. div10 n. rewrite length_numberToString_step by lia.
  rewrite length_numberToString_step by lia.
  pose proof (length_numberToString_pos (n / 10 / 10)). lia.
Qed.

End Decimal.

Lemma padNumber_zeroPadded3 n : padNumber n 3 = zeroPadded3 n.
Proof.
  unfold padNumber, padStart, zeroPadded3.
  destruct (decide (n < 10)) as [H1|H1].
  - by rewrite length_numberToString_small.
  - destruct (decide (n < 100)) as [H2|H2].
    + by rewrite length_numberToString_two by lia.
    + pose proof (length_numberToString_three n).
      replace (3 - String.length (numberToString n)) with 0 by lia. done.
Qed.

(** ** The sort of the rasterizer adapter *)

Section Sort.

Context {A : Type} (cmp : A → A → Z) (key : A → nat).
Hypothesis cmp_key : ∀ a b, (cmp a b ≤ 0)%Z ↔ key a ≤ key b.

Lemma sortInsert_perm x l : sortInsert cmp x l ≡ₚ x :: l.
Proof.
  induction l as [|y l IH]; simpl; [done|].
  destruct (cmp x y <=? 0)%Z; [done|].
  rewrite IH. apply Permutation_swap.
Qed.

Lemma jsSort_perm l : jsSort cmp l ≡ₚ l.
Proof.
  induction l as [|x l IH]; simpl; [done|].
  rewrite sortInsert_perm. by rewrite IH.
Qed.

Lemma sortInsert_sorted x l :
  StronglySorted (λ a b, key a ≤ key b) l →
  StronglySorted (λ a b, key a ≤ key b) (sortInsert cmp x l).
Proof.
  induction 1 as [|y l Hl IH Hy]; simpl.
  - repeat constructor.
  - destruct (Z.leb_spec (cmp x y) 0) as [Hle|Hgt].
    + apply cmp_key in Hle. constructor; [by constructor|].
      constructor; [done|].
      eapply Forall_impl; [exact Hy|]. simpl. intros; lia.
    + assert (key y ≤ key x).
      { destruct (decide (key x ≤ key y)) as [Hk|Hk]; [|lia].
        apply cmp_key in Hk. lia. }
      constructor; [done|].
      rewrite sortInsert_perm. by constructor.
Qed.

Lemma jsSort_sorted l : StronglySorted (λ a b, key a ≤ key b) (jsSort cmp l).
Proof.
  induction l as [|x l IH]; simpl; [constructor|].
  by apply sortInsert_sorted.
Qed.

(** With pairwise distinct keys the order is strict. *)
Lemma sorted_strict l :
  StronglySorted (λ a b, key a ≤ key b) l →
  NoDup (key <$> l) →
  StronglySorted (λ a b, key a < key b) l.
Proof.
  induction 1 as [|x l Hl IH Hx]; intros Hnd; [constructor|].
  rewrite fmap_cons in Hnd. apply NoDup_cons in Hnd as [Hnotin Hnd].
  constructor; [by apply IH|].
  apply Forall_forall. intros y Hy.
  rewrite Forall_forall in Hx. specialize (Hx y Hy).
  assert (key x ≠ key y); [|lia].
  intros Heq. apply Hnotin. rewrite Heq. by apply list_elem_of_fmap_2.
Qed.

Lemma jsSort_strict l :
  NoDup (key <$> l) → StronglySorted (λ a b, key a < key b) (jsSort cmp l).
Proof.
  intros Hnd. apply sorted_strict; [apply jsSort_sorted|].
  by rewrite jsSort_perm.
Qed.

End Sort.

Lemma comparePages_key a b : (comparePages a b ≤ 0)%Z ↔ pageIndex a ≤ pageIndex b.
Proof. unfold comparePages. lia. Qed.

Lemma StronglySorted_fmap_key {A B} (f : A → B) (key : B → nat) (R : nat → nat → Prop) l :
  StronglySorted (λ a b, R (key (f a)) (key (f b))) l →
  StronglySorted (λ a b, R (key a) (key b)) (f <$> l).
Proof.
  induction 1 as [|x l Hl IH Hx]; [constructor|].
  rewrite fmap_cons. constructor; [done|].
  by apply Forall_fmap.
Qed.

(** ** Page files and their index *)

Section PageFiles.

Lemma takeWhile_stop {A} (p : A → bool) l x r r' :
  p x = false → takeWhile p (l ++ x :: r) = takeWhile p (l ++ x :: r').
Proof.
  intros Hx. induction l as [|y l IH]; simpl.
  - by rewrite Hx.
  - destruct (p y); [by rewrite IH|done].
Qed.

(** A page file is ["page"], then anything, then [".png"]. *)
Lemma isPageFile_shape file :
  isPageFile file = true →
  ∃ mid, chars file = chars "page" ++ mid ++ chars ".png".
Proof.
  unfold isPageFile, startsWith, endsWith.
  intros [Hp Hs]%andb_prop.
  apply bool_decide_eq_true in Hp as [k1 Hk1].
  apply bool_decide_eq_true in Hs as [k2 Hk2].
  rewrite Hk1 in Hk2. change (chars "page") with ["p"; "a"; "g"; "e"]%char in *.
  change (chars ".png") with ["."; "p"; "n"; "g"]%char in *.
  destruct k2 as [|c1 [|c2 [|c3 [|c4 k2]]]]; simplify_eq/=.
  exists k2. rewrite Hk1. by f_equal.
Qed.

(** Joining the directory in front does not change the page index read
    at the end of the name. *)
Lemma pageIndex_pathJoin dir file :
  isPageFile file = true → pageIndex (pathJoin dir file) = pageIndex file.
Proof.
  intros (mid & Hfile)%isPageFile_shape.
  unfold pageIndex, matchPageDigits, pathJoin. f_equal. f_equal.
  rewrite !chars_app, Hfile.
  change (chars "/") with ["/"%char].
  change (chars "page") with ["p"; "a"; "g"; "e"]%char.
  change (chars ".png") with ["."; "p"; "n"; "g"]%char.
  rewrite !reverse_app. simpl.
  change (reverse ["."; "p"; "n"; "g"]%char) with ["g"; "n"; "p"; "."]%char.
  change (reverse ["p"; "a"; "g"; "e"]%char) with ["e"; "g"; "a"; "p"]%char.
  simpl.
  rewrite <- !(assoc_L (++)). simpl.
  by rewrite (takeWhile_stop isDigit (reverse mid) "e"%char _ ["g"; "a"; "p"]%char).
Qed.

Lemma orderPageFiles_perm dir files :
  orderPageFiles dir files ≡ₚ pathJoin dir <$> filter (λ f, isPageFile f = true) files.
Proof.
  unfold orderPageFiles. by rewrite (jsSort_perm comparePages).
Qed.

Lemma length_orderPageFiles dir files :
  length (orderPageFiles dir files) = length (filter (λ f, isPageFile f = true) files).
Proof. by rewrite orderPageFiles_perm, length_fmap. Qed.

Lemma sorted_names_pageFiles files :
  Forall (λ f, isPageFile f = true)
    (jsSort comparePages (filter (λ f, isPageFile f = true) files)).
Proof.
  rewrite (jsSort_perm comparePages). apply Forall_forall.
  by intros f [? _]%list_elem_of_filter.
Qed.

Lemma StronglySorted_key_ext {A} (R : nat → nat → Prop) (k1 k2 : A → nat) l :
  Forall (λ a, k1 a = k2 a) l →
  StronglySorted (λ a b, R (k1 a) (k1 b)) l →
  StronglySorted (λ a b, R (k2 a) (k2 b)) l.
Proof.
  intros Hall Hs. induction Hs as [|x l Hl IH Hx]; [constructor|].
  apply Forall_cons in Hall as [Hxk Hall].
  constructor; [by apply IH|].
  rewrite Forall_forall in Hx, Hall. apply Forall_forall. intros y Hy.
  rewrite <- Hxk, <- (Hall y Hy). by apply Hx.
Qed.

(** The adapter's result is in ascending order of page index. *)
Lemma orderPageFiles_sorted dir files :
  StronglySorted (λ a b, pageIndex a ≤ pageIndex b) (orderPageFiles dir files).
Proof.
  unfold orderPageFiles. apply (StronglySorted_fmap_key _ pageIndex le).
  apply (StronglySorted_key_ext le pageIndex).
  - eapply Forall_impl; [apply sorted_names_pageFiles|].
    intros f Hf. simpl. by rewrite pageIndex_pathJoin.
  - apply (jsSort_sorted comparePages pageIndex comparePages_key).
Qed.

(** ... strictly so when no two page files carry the same index. *)
Lemma orderPageFiles_strict dir files :
  NoDup (pageIndex <$> filter (λ f, isPageFile f = true) files) →
  StronglySorted (λ a b, pageIndex a < pageIndex b) (orderPageFiles dir files).
Proof.
  intros Hnd. unfold orderPageFiles.
  apply (StronglySorted_fmap_key _ pageIndex lt).
  apply (StronglySorted_key_ext lt pageIndex).
  - eapply Forall_impl; [apply sorted_names_pageFiles|].
    intros f Hf. simpl. by rewrite pageIndex_pathJoin.
  - by apply (jsSort_strict comparePages pageIndex comparePages_key).
Qed.

End PageFiles.

(** ** Running the monad *)

Section Monad.

Context (env : Env).

Lemma bind_run {A B} (m : M A) (k : A → M B) tr r tr' :
  (m ≫= k) tr = (r, tr') →
  (∃ a tr1, m tr = (Ok a, tr1) ∧ k a tr1 = (r, tr'))
  ∨ (∃ e, m tr = (Thrown e, tr') ∧ r = Thrown e).
Proof.
  unfold mbind, M_bind, bind. destruct (m tr) as [[a|e] tr1]; intros H.
  - left. eauto.
  - right. simplify_eq. eauto.
Qed.

(** A call followed by a continuation: the call is logged with its
    answer, and the continuation runs only if the answer is a value. *)
Lemma perform_bind_run {B} c (k : Answer c → M B) tr r tr' :
  (perform env c ≫= k) tr = (r, tr') →
  ∃ res,
    res = answer env tr c
    ∧ match res with
      | Ok a => k a (tr ++ [{| evCall := c; evResult := res |}]) = (r, tr')
      | Thrown e => r = Thrown e ∧ tr' = tr ++ [{| evCall := c; evResult := res |}]
      end.
Proof.
  unfold mbind, M_bind, bind, perform. intros H.
  exists (answer env tr c). split; [done|].
  destruct (answer env tr c) as [a|e]; [done|]. by simplify_eq.
Qed.

Lemma ret_run {A} (a : A) tr r tr' :
  ret a tr = (r, tr') → r = Ok a ∧ tr' = tr.
Proof. unfold ret. intros H. by simplify_eq. Qed.

Lemma throw_run {A} message tr (r : Result A) tr' :
  throw message tr = (r, tr') → r = Thrown message ∧ tr' = tr.
Proof. unfold throw. intros H. by simplify_eq. Qed.

(** [uploadBuffer] makes exactly one call and throws exactly when that
    call reports an error. *)
Lemma uploadBuffer_run supabase bucket storagePath body tr r tr' :
  uploadBuffer env supabase bucket storagePath body tr = (r, tr') →
  ∃ result,
    tr' = tr ++ [{| evCall := StorageUpload supabase bucket storagePath body;
                    evResult := result |}]
    ∧ match r with
      | Ok _ => result = Ok None
      | Thrown _ => result ≠ Ok None
      end.
Proof.
  unfold uploadBuffer, mbind, M_bind, bind, perform, throw, ret.
  intros H.
  exists (answer env tr (StorageUpload supabase bucket storagePath body)).
  destruct (answer env tr (StorageUpload supabase bucket storagePath body))
    as [[message|]|e]; by simplify_eq.
Qed.

Lemma cloneSharpForVariant_run input metadata config tr r tr' :
  cloneSharpForVariant env input metadata config tr = (r, tr') →
  tr' = tr ++ [{| evCall := SharpToWebp input (resizeOptionsOf metadata config)
                               (vquality config);
                  evResult := r |}].
Proof. unfold cloneSharpForVariant, perform. intros H. by simplify_eq. Qed.

End Monad.

(** Proof steps shared by the lemmas on runs. *)
Ltac each_event := repeat first [apply Forall_nil_2 | apply Forall_cons_2]; try done.

Ltac step_perform H res :=
  match type of H with
  | (perform _ ?c ≫= _) _ = _ =>
      apply (perform_bind_run _ c) in H as (res & _ & H)
  end.

(** ** The loops of the handler *)

Section Loops.

Context (env : Env) (supabase : Supabase) (bucket editionId : string).

Local Abbreviation pageWork := (PageWork supabase bucket editionId).

Lemma PageWork_mono keys keys' lo hi lo' hi' e :
  keys ⊆ keys' → lo' ≤ lo → hi ≤ hi' →
  pageWork keys lo hi e → pageWork keys' lo' hi' e.
Proof.
  intros Hk Hlo Hhi. unfold PageWork.
  destruct (evCall e) as [| | | | | | | |c b p [buf|m]|]; try done.
  intros (-> & -> & k & n & Hin & Hn & ->).
  split_and!; [done..|]. exists k, n. split_and!; [by apply Hk|lia..|done].
Qed.

Lemma variantLoop_run keys lo hi pageNumber pngBuffer metadata :
  lo < pageNumber ≤ hi →
  ∀ variants variantUploads uploads tr r tr',
    (∀ v, v ∈ variants → vkey v ∈ keys) →
    variantLoop env supabase bucket editionId pageNumber pngBuffer metadata
      variants variantUploads uploads tr = (r, tr') →
    ∃ evs,
      tr' = tr ++ evs
      ∧ Forall (pageWork keys lo hi) evs
      ∧ Forall (λ e, readFileOf e = None) evs
      ∧ match r with
        | Ok (variantUploads', uploads') =>
            Forall (λ e, evOk e = true) evs
            ∧ omap uploadPathOf evs = variantPaths editionId pageNumber variants
            ∧ uploads' = uploads ++ variantPaths editionId pageNumber variants
            ∧ variantUploads' =
                variantAssets env supabase bucket editionId pageNumber variants variantUploads
        | Thrown _ => True
        end.
Proof.
  intros Hpn. induction variants as [|variant rest IH];
    intros variantUploads uploads tr r tr' Hkeys Hrun.
  - apply ret_run in Hrun as [-> ->]. exists [].
    rewrite app_nil_r. split_and!; try done. by rewrite app_nil_r.
  - simpl in Hrun.
    assert (Hwork_render : ∀ res,
      pageWork keys lo hi
        {| evCall := SharpToWebp pngBuffer (resizeOptionsOf metadata variant) (vquality variant);
           evResult := res |}) by done.
    assert (Hwork_upload : ∀ body res,
      pageWork keys lo hi
        {| evCall := StorageUpload supabase bucket
                       (buildStoragePath editionId (vkey variant) pageNumber) (BodyImage body);
           evResult := res |}).
    { intros body res. unfold PageWork. simpl. split_and!; [done..|].
      exists (vkey variant), pageNumber. split_and!; [|lia..|done].
      apply Hkeys. by left. }
    apply bind_run in Hrun as [(buffer & tr1 & Hclone & Hrun) | (msg & Hclone & ->)];
      apply cloneSharpForVariant_run in Hclone as ->.
    2: { eexists [_]. split_and!; [done|each_event..|done]. }
    apply bind_run in Hrun as [([] & tr2 & Hup & Hrun) | (msg & Hup & ->)];
      apply uploadBuffer_run in Hup as (result & -> & Hres).
    2: { eexists [_; _]. rewrite <- app_assoc. split_and!; [done|each_event..|done]. }
    apply IH in Hrun as (evs & -> & Hwork & Hread & Hr).
    2: { intros v Hv. apply Hkeys. by right. }
    eexists (_ :: _ :: evs). rewrite <- !app_assoc. split_and!; [done|each_event..|].
    + destruct r as [[variantUploads' uploads']|msg]; [|done].
      destruct Hr as (Hok & Hpaths & -> & ->). subst result.
      split_and!.
      * each_event.
      * simpl. f_equal. exact Hpaths.
      * by rewrite <- app_assoc.
      * done.
Qed.

Lemma thumbnail_path_eq thumbnail pageNumber :
  editionId +:+ "/pages/" +:+ vkey thumbnail +:+ "/" +:+ padNumber pageNumber 3 +:+ ".webp"
  = buildStoragePath editionId (vkey thumbnail) pageNumber.
Proof. reflexivity. Qed.

Lemma variant_key_in variants thumbnail v :
  v ∈ variants → vkey v ∈ assetKeys variants thumbnail.
Proof.
  intros Hv. unfold assetKeys. apply elem_of_app. left.
  by apply list_elem_of_fmap_2.
Qed.

Lemma thumbnail_key_in variants thumbnail :
  vkey thumbnail ∈ assetKeys variants thumbnail.
Proof. unfold assetKeys. apply elem_of_app. right. by left. Qed.

Lemma processPage_run variants thumbnail index pngPath uploads tr r tr' :
  processPage env supabase bucket editionId variants thumbnail index pngPath uploads tr
    = (r, tr') →
  ∃ evs,
    tr' = tr ++ evs
    ∧ Forall (pageWork (assetKeys variants thumbnail) index (index + 1)) evs
    ∧ match r with
      | Ok (entry, uploads') =>
          Forall (λ e, evOk e = true) evs
          ∧ omap uploadPathOf evs = pagePaths editionId variants thumbnail (index + 1)
          ∧ uploads' = uploads ++ pagePaths editionId variants thumbnail (index + 1)
          ∧ omap readFileOf evs = [pngPath]
          ∧ pageNumber entry = index + 1
          ∧ assets entry
            = pageAssets env supabase bucket editionId variants thumbnail (index + 1)
      | Thrown _ => True
      end.
Proof.
  unfold processPage. rewrite thumbnail_path_eq. intros Hrun.
  step_perform Hrun read. destruct read as [pngBuffer|msg].
  2: { destruct Hrun as [-> ->]. eexists [_]. split_and!; [done|each_event|done]. }
  step_perform Hrun meta. destruct meta as [metadata|msg].
  2: { destruct Hrun as [-> ->]. eexists [_; _]. rewrite <- app_assoc.
       split_and!; [done|each_event|done]. }
  apply bind_run in Hrun as [([variantUploads uploads1] & tr1 & Hloop & Hrun) | (msg & Hloop & ->)];
    apply (variantLoop_run (assetKeys variants thumbnail) index (index + 1)) in Hloop
      as (evs & -> & Hwork & Hread & Hr); try lia;
    try (by intros v Hv; apply variant_key_in).
  2: { eexists (_ :: _ :: evs). rewrite <- !app_assoc.
       split_and!; [done|each_event|done]. }
  destruct Hr as (Hok & Hpaths & -> & ->).
  assert (Hthumb : ∀ body res,
    pageWork (assetKeys variants thumbnail) index (index + 1)
      {| evCall := StorageUpload supabase bucket
                     (buildStoragePath editionId (vkey thumbnail) (index + 1)) (BodyImage body);
         evResult := res |}).
  { intros body res. unfold PageWork. simpl. split_and!; [done..|].
    exists (vkey thumbnail), (index + 1). split_and!; [|lia..|done].
    apply thumbnail_key_in. }
  apply bind_run in Hrun as [(thumbBuffer & tr2 & Hclone & Hrun) | (msg & Hclone & ->)];
    apply cloneSharpForVariant_run in Hclone as ->.
  2: { eexists (_ :: _ :: evs ++ [_]). rewrite <- !app_assoc.
       split_and!; [done| |done]. each_event. apply Forall_app. split; [done|each_event]. }
  apply bind_run in Hrun as [([] & tr3 & Hup & Hrun) | (msg & Hup & ->)];
    apply uploadBuffer_run in Hup as (result & -> & Hres).
  2: { eexists (_ :: _ :: evs ++ [_; _]). rewrite <- !app_assoc.
       split_and!; [done| |done]. each_event. apply Forall_app. split; [done|each_event]. }
  apply ret_run in Hrun as [-> ->]. subst result.
  eexists (_ :: _ :: evs ++ [_; _]). rewrite <- !app_assoc.
  split_and!; [done| | | | | | |].
  - each_event. apply Forall_app. split; [done|each_event].
  - each_event. apply Forall_app. split; [done|each_event].
  - simpl. rewrite omap_app, Hpaths. done.
  - unfold pagePaths. by rewrite <- ?app_assoc.
  - simpl. rewrite omap_app. simpl.
    assert (Hnone : omap readFileOf evs = []).
    { clear -Hread. induction Hread as [|e evs He _ IH]; [done|].
      simpl. rewrite He. exact IH. }
    by rewrite Hnone.
  - done.
  - done.
Qed.

Lemma pathsOfPages_S variants thumbnail index count :
  pathsOfPages editionId variants thumbnail index (S count)
  = pagePaths editionId variants thumbnail (index + 1)
    ++ pathsOfPages editionId variants thumbnail (index + 1) count.
Proof. unfold pathsOfPages. simpl. by rewrite Nat.add_1_r. Qed.

Lemma pageLoop_run variants thumbnail :
  ∀ pngPages index manifestPages uploads tr r tr',
    pageLoop env supabase bucket editionId variants thumbnail index pngPages
      manifestPages uploads tr = (r, tr') →
    ∃ evs,
      tr' = tr ++ evs
      ∧ Forall (pageWork (assetKeys variants thumbnail) index (index + length pngPages)) evs
      ∧ match r with
        | Ok (pages', uploads') =>
            ∃ entries,
              pages' = manifestPages ++ entries
              ∧ uploads' = uploads
                  ++ pathsOfPages editionId variants thumbnail index (length pngPages)
              ∧ LoopDone env supabase bucket editionId variants thumbnail
                  index pngPages evs entries
                  (pathsOfPages editionId variants thumbnail index (length pngPages))
        | Thrown _ => True
        end.
Proof.
  induction pngPages as [|pngPath rest IH];
    intros index manifestPages uploads tr r tr' Hrun.
  - apply ret_run in Hrun as [-> ->]. exists []. rewrite !app_nil_r.
    split_and!; [done..|]. exists []. rewrite app_nil_r.
    split_and!; [done..|]. unfold LoopDone. simpl.
    split_and!; try done.
  - simpl in Hrun.
    apply bind_run in Hrun as [([entry uploads1] & tr1 & Hpage & Hrun) | (msg & Hpage & ->)];
      apply processPage_run in Hpage as (evs1 & -> & Hwork1 & Hr1).
    2: { exists evs1. split_and!; [done| |done].
         eapply Forall_impl; [exact Hwork1|]. intros e.
         apply PageWork_mono; [done|lia|simpl; lia]. }
    destruct Hr1 as (Hok1 & Hpaths1 & -> & Hread1 & Hnum & Hassets).
    apply IH in Hrun as (evs2 & -> & Hwork2 & Hr2).
    exists (evs1 ++ evs2). rewrite <- app_assoc.
    assert (Hwork : Forall (pageWork (assetKeys variants thumbnail) index
                              (index + length (pngPath :: rest))) (evs1 ++ evs2)).
    { apply Forall_app. split.
      - eapply Forall_impl; [exact Hwork1|]. intros e.
        apply PageWork_mono; [done|lia|simpl; lia].
      - eapply Forall_impl; [exact Hwork2|]. intros e.
        apply PageWork_mono; [done|lia|simpl; lia]. }
    split_and!; [done|done|].
    destruct r as [[pages' uploads']|msg]; [|done].
    destruct Hr2 as (entries & -> & -> & Hdone).
    destruct Hdone as (_ & Hok2 & Hpaths2 & _ & Hread2 & Hentries).
    exists (entry :: entries). simpl length. rewrite pathsOfPages_S.
    split_and!.
    + by rewrite <- app_assoc.
    + by rewrite <- app_assoc.
    + unfold LoopDone. split_and!.
      * done.
      * by apply Forall_app.
      * rewrite omap_app, Hpaths1, Hpaths2. by rewrite <- pathsOfPages_S.
      * by rewrite <- pathsOfPages_S.
      * rewrite omap_app, Hread1, Hread2. done.
      * simpl. constructor; [done|]. by replace (S index) with (index + 1) by lia.
Qed.

End Loops.

(** ** Every run of the handler has one of the shapes of [Run] *)

Section Handler.

Context (SERVICE_SECRET DEFAULT_BUCKET : string) (env : Env).

(** The rasterizer adapter: one [pdftoppm] call, then one directory
    listing; its result is the ordered page files of that listing. *)
Lemma convertPdfToPng_run pdfPath outputDir dpi tr r tr' :
  convertPdfToPng env pdfPath outputDir dpi tr = (r, tr') →
  ∃ exec,
    let e1 := {| evCall := ExecFile "pdftoppm"
                   ["-png"; "-r"; numberToString dpi; pdfPath; pathJoin outputDir "page"];
                 evResult := exec |} in
    match exec with
    | Thrown message => r = Thrown ("pdftoppm failed: " +:+ message) ∧ tr' = tr ++ [e1]
    | Ok _ =>
        ∃ listing,
          tr' = tr ++ [e1; {| evCall := Readdir outputDir; evResult := listing |}]
          ∧ match listing with
            | Ok files => r = Ok (orderPageFiles outputDir files)
            | Thrown message => r = Thrown message
            end
    end.
Proof.
  unfold convertPdfToPng, mbind, M_bind, bind, tryCatch, perform, throw, ret.
  intros H.
  exists (answer env tr (ExecFile "pdftoppm"
            ["-png"; "-r"; numberToString dpi; pdfPath; pathJoin outputDir "page"])).
  destruct (answer env tr (ExecFile _ _)) as [[]|message]; simpl in *.
  - match type of H with
    | context [answer env ?t (Readdir outputDir)] =>
        exists (answer env t (Readdir outputDir));
        destruct (answer env t (Readdir outputDir)) as [files|message]
    end; simplify_eq; by rewrite <- app_assoc.
  - by simplify_eq.
Qed.

Lemma removeDirSafe_run dirPath tr r tr' :
  removeDirSafe env dirPath tr = (r, tr') →
  r = Ok tt ∧ ∃ removal, tr' = tr ++ removalEvents dirPath removal.
Proof.
  unfold removeDirSafe, removalEvents, tryCatch, perform, ret.
  destruct (String.eqb dirPath ""); intros H.
  - simplify_eq. split; [done|]. exists (Ok tt). by rewrite app_nil_r.
  - split; [by destruct (answer env tr (RmRecursive dirPath)) as [[]|?]; simplify_eq|].
    exists (answer env tr (RmRecursive dirPath)).
    by destruct (answer env tr (RmRecursive dirPath)); simplify_eq.
Qed.

Lemma pipelineBody_Run req r tr' :
  authorized SERVICE_SECRET req → hasRequired req = true →
  pipelineBody env (editionIdFor req) (pdfUrlFor req)
    (default "" (reqSupabaseUrl req)) (default "" (reqSupabaseKey req))
    (bucketFor DEFAULT_BUCKET req) (variantsFor req) (thumbnailFor req) [] = (r, tr') →
  Run SERVICE_SECRET DEFAULT_BUCKET env req
    (match r with Ok response => response | Thrown message => internalError message end)
    tr'.
Proof.
  intros Hauth Hreq H. unfold pipelineBody, createTempDir, downloadPdf in H.
  apply bind_run in H as [(tempRoot & tr1 & Htmp & H) | (msg & Htmp & ->)];
    step_perform Htmp mk; destruct mk as [dir|m];
    try (apply ret_run in Htmp as [? ?]); try destruct Htmp as [? ?]; simplify_eq.
  2: { apply RunSetupFailed; [done..| |]; each_event. }
  apply bind_run in H as [(id & tr2 & Hid & H) | (m & Hid & ->)]; simplify_eq.
  step_perform H mkd. destruct mkd as [[]|m].
  2: { destruct H as [-> ->]. apply RunSetupFailed; [done..| |]; each_event. }
  step_perform H dl. destruct dl as [[]|m].
  2: { destruct H as [-> ->]. apply RunSetupFailed; [done..| |]; each_event. }
  apply bind_run in H as [(pngPages & tr3 & Hconv & H) | (m & Hconv & ->)];
    apply convertPdfToPng_run in Hconv as [[[]|m'] Hconv]; simpl in Hconv.
  4: { destruct Hconv as [[= ->] ->]. apply RunSetupFailed; [done..| |]; each_event. }
  3: { destruct Hconv as ([files|m''] & -> & Hr); simplify_eq.
       apply RunSetupFailed; [done..| |]; each_event. }
  2: { destruct Hconv as [? _]. simplify_eq. }
  destruct Hconv as ([files|m''] & -> & Hr); simplify_eq.
  rename dir into tempRoot.
  set (pdfPath := pathJoin tempRoot (uuid env _ +:+ ".pdf")) in *.
  change [_; _; _; _; _] with (setupEvents env tempRoot (pdfUrlFor req) pdfPath files) in H.
  pose proof (length_orderPageFiles (pathJoin tempRoot "png") files) as Hlen.
  destruct (Nat.eqb_spec (length (orderPageFiles (pathJoin tempRoot "png") files)) 0)
    as [Hzero|Hpos].
  { apply throw_run in H as [-> ->]. apply RunNoPages; [done..|].
    apply nil_length_inv. unfold pageFilesOf. lia. }
  assert (Hfiles : pageFilesOf files ≠ []).
  { intros Hnil. unfold pageFilesOf in Hnil. rewrite Hnil in Hlen. simpl in Hlen. lia. }
  apply bind_run in H as [([pages uploads] & tr4 & Hloop & H) | (m & Hloop & ->)];
    apply pageLoop_run in Hloop as (evs & -> & Hwork & Hr).
  2: { apply RunPageFailed; [done..|]. unfold pageFilesOf. by rewrite <- Hlen. }
  destruct Hr as (entries & -> & -> & Hdone). simpl in Hdone.
  apply bind_run in H as [(generated & tr5 & Hgen & H) | (m & Hgen & ->)]; simplify_eq.
  apply bind_run in H as [([] & tr6 & Hup & H) | (m & Hup & ->)];
    apply uploadBuffer_run in Hup as (result & -> & Hres).
  2: { rewrite <- app_assoc.
       by eapply (RunManifestFailed _ _ _ _ tempRoot pdfPath files evs entries). }
  subst result.
  apply bind_run in H as [([] & tr7 & Hrm & H) | (m & Hrm & ->)];
    apply removeDirSafe_run in Hrm as [? (removal & ->)]; [|done].
  apply ret_run in H as [-> ->].
  unfold buildManifest. cbn [manifestPagesOf].
  rewrite length_fmap. rewrite <- !app_assoc.
  by eapply (RunCompleted _ _ _ _ tempRoot pdfPath files evs entries).
Qed.

Lemma required_check req :
  negb (truthy (reqEditionId req)) || negb (truthy (reqPdfUrl req))
    || negb (truthy (reqSupabaseUrl req)) || negb (truthy (reqSupabaseKey req))
  = negb (hasRequired req).
Proof. unfold hasRequired. by repeat destruct (truthy _). Qed.

(** The two checks in front of the pipeline, as equations on [handler]. *)
Lemma handler_unauthorized req tr :
  SERVICE_SECRET ≠ "" → default "" (reqApiKey req) ≠ SERVICE_SECRET →
  handler SERVICE_SECRET DEFAULT_BUCKET env req tr = (unauthorized, tr).
Proof.
  intros Hs Hk. unfold handler, convert.
  destruct (String.eqb_spec SERVICE_SECRET ""); [done|].
  by destruct (String.eqb_spec (default "" (reqApiKey req)) SERVICE_SECRET).
Qed.

Lemma handler_authorized req tr :
  authorized SERVICE_SECRET req →
  handler SERVICE_SECRET DEFAULT_BUCKET env req tr =
    if hasRequired req then
      match pipelineBody env (editionIdFor req) (pdfUrlFor req)
              (default "" (reqSupabaseUrl req)) (default "" (reqSupabaseKey req))
              (bucketFor DEFAULT_BUCKET req) (variantsFor req) (thumbnailFor req) tr with
      | (Ok response, tr') => (response, tr')
      | (Thrown message, tr') => (internalError message, tr')
      end
    else (missingParameters, tr).
Proof.
  intros Hauth. unfold handler, convert. rewrite required_check.
  assert (negb (String.eqb SERVICE_SECRET "")
          && negb (String.eqb (default "" (reqApiKey req)) SERVICE_SECRET) = false) as ->.
  { destruct Hauth as [->| ->]; [done|]. rewrite String.eqb_refl.
    by destruct (negb _). }
  by destruct (hasRequired req).
Qed.

(** Every run of the handler, started on an empty trace, is a [Run]. *)
Lemma handler_Run req response tr :
  handler SERVICE_SECRET DEFAULT_BUCKET env req [] = (response, tr) →
  Run SERVICE_SECRET DEFAULT_BUCKET env req response tr.
Proof.
  destruct (decide (authorized SERVICE_SECRET req)) as [Hauth|Hno].
  - rewrite handler_authorized by done.
    destruct (hasRequired req) eqn:Hreq.
    + destruct (pipelineBody _ _ _ _ _ _ _ _ _) as [r tr1] eqn:Hbody.
      apply pipelineBody_Run in Hbody; [|done..].
      destruct r; intros H; by simplify_eq.
    + intros H. simplify_eq. by apply RunMissingParameters.
  - unfold authorized in Hno.
    rewrite handler_unauthorized by tauto.
    intros H. simplify_eq. apply RunUnauthorized; tauto.
Qed.

End Handler.

(** ** Facts about storage paths and asset maps *)

Section PathFacts.

Context (env : Env) (supabase : Supabase) (bucket editionId : string).
Context (variants : list VariantSpec) (thumbnail : VariantSpec).

Lemma buildStoragePath_spec key pageNumber :
  buildStoragePath editionId key pageNumber
  = editionId +:+ "/pages/" +:+ key +:+ "/" +:+ zeroPadded3 pageNumber +:+ ".webp".
Proof. unfold buildStoragePath. by rewrite padNumber_zeroPadded3. Qed.

Lemma last_chars_app s t c :
  last (chars t) = Some c → last (chars (s +:+ t)) = Some c.
Proof.
  rewrite chars_app. destruct (chars t) as [|x l] eqn:Ht; [done|].
  intros Hl. by rewrite last_app, Hl.
Qed.

(** A page asset path ends in ["p"], the manifest path in ["n"]. *)
Lemma buildStoragePath_not_manifest key pageNumber e' :
  buildStoragePath editionId key pageNumber ≠ e' +:+ "/manifest.json".
Proof.
  intros Heq. apply (f_equal (λ s, last (chars s))) in Heq.
  rewrite (last_chars_app e' "/manifest.json" "n"%char) in Heq by done.
  assert (Hp : last (chars (buildStoragePath editionId key pageNumber)) = Some "p"%char).
  { unfold buildStoragePath. by do 5 apply last_chars_app. }
  rewrite Hp in Heq. discriminate Heq.
Qed.

Lemma length_pagePaths pageNumber :
  length (pagePaths editionId variants thumbnail pageNumber) = length variants + 1.
Proof.
  unfold pagePaths, variantPaths. rewrite length_app, length_fmap. done.
Qed.

Lemma length_pathsOfPages index count :
  length (pathsOfPages editionId variants thumbnail index count)
  = count * (length variants + 1).
Proof.
  revert index. induction count as [|count IH]; intros index; [done|].
  unfold pathsOfPages in *. simpl.
  rewrite length_app, length_pagePaths, IH. lia.
Qed.

Lemma elem_of_pathsOfPages p index count :
  p ∈ pathsOfPages editionId variants thumbnail index count →
  ∃ key n, key ∈ assetKeys variants thumbnail ∧ index < n ≤ index + count
           ∧ p = buildStoragePath editionId key n.
Proof.
  revert index. induction count as [|count IH]; intros index Hp.
  { by apply elem_of_nil in Hp. }
  rewrite pathsOfPages_S in Hp. apply elem_of_app in Hp as [Hp|Hp].
  - unfold pagePaths, variantPaths in Hp.
    apply elem_of_app in Hp as [Hp|Hp].
    + apply list_elem_of_fmap in Hp as (v & -> & Hv).
      exists (vkey v), (index + 1). split_and!; [by apply variant_key_in|lia..|done].
    + apply list_elem_of_singleton in Hp as ->.
      exists (vkey thumbnail), (index + 1).
      split_and!; [apply thumbnail_key_in|lia..|done].
  - apply IH in Hp as (key & n & Hkey & Hn & ->).
    exists key, n. split_and!; [done|lia..|done].
Qed.

Lemma manifest_not_in_pathsOfPages e' index count :
  e' +:+ "/manifest.json" ∉ pathsOfPages editionId variants thumbnail index count.
Proof.
  intros (key & n & _ & _ & Heq)%elem_of_pathsOfPages.
  symmetry in Heq. by apply buildStoragePath_not_manifest in Heq.
Qed.

Lemma lookup_variantAssets pageNumber vs : ∀ (m : gmap string Asset) key,
  variantAssets env supabase bucket editionId pageNumber vs m !! key
  = if decide (key ∈ vkey <$> vs)
    then Some (assetAt env supabase bucket editionId pageNumber key)
    else m !! key.
Proof.
  induction vs as [|v vs IH]; intros m key.
  - case_decide as Hin; [by apply elem_of_nil in Hin|done].
  - unfold variantAssets in *. simpl foldl. rewrite IH, fmap_cons.
    destruct (decide (key ∈ vkey <$> vs)) as [Hin|Hnotin].
    + rewrite decide_True; [done|]. by right.
    + destruct (decide (key = vkey v)) as [->|Hne].
      * rewrite lookup_insert_eq. rewrite decide_True; [done|]. by left.
      * rewrite lookup_insert_ne by done.
        rewrite decide_False; [done|].
        intros [?|?]%elem_of_cons; done.
Qed.

(** The asset map of a page holds exactly the published keys, each with
    its own storage path. *)
Lemma lookup_pageAssets pageNumber key :
  pageAssets env supabase bucket editionId variants thumbnail pageNumber !! key
  = if decide (key ∈ assetKeys variants thumbnail)
    then Some (assetAt env supabase bucket editionId pageNumber key)
    else None.
Proof.
  unfold pageAssets, assetKeys.
  destruct (decide (key = vkey thumbnail)) as [->|Hne].
  - rewrite lookup_insert_eq. rewrite decide_True; [done|].
    apply elem_of_app. right. by left.
  - rewrite lookup_insert_ne by done. rewrite lookup_variantAssets, lookup_empty.
    destruct (decide (key ∈ vkey <$> variants)) as [Hin|Hnotin].
    + rewrite decide_True; [done|]. apply elem_of_app. by left.
    + rewrite decide_False; [done|].
      intros [?|Ht]%elem_of_app; [done|].
      by apply list_elem_of_singleton in Ht.
Qed.

End PathFacts.

(** ** Kinds of events *)

Section EventKinds.

Context (supabase : Supabase) (bucket editionId : string).

(** An event of the page loop is neither a setup call, nor the manifest
    upload, nor the removal of the temporary directory. *)
Lemma PageWork_kind keys lo hi e :
  PageWork supabase bucket editionId keys lo hi e →
  isRemoval e = false ∧ isManifestUpload e = false ∧ isSetupCall e = false
  ∧ listingOf e = None ∧ createdDirOf e = None.
Proof.
  unfold PageWork, isRemoval, isManifestUpload, isSetupCall, listingOf, createdDirOf.
  destruct e as [c r]. simpl.
  destruct c as [| | | | | | | |client b p [buf|m]|]; done.
Qed.

Lemma PageWork_upload keys lo hi e p :
  PageWork supabase bucket editionId keys lo hi e →
  uploadPathOf e = Some p →
  isAssetUpload e = true
  ∧ ∃ key n, key ∈ keys ∧ lo < n ≤ hi ∧ p = buildStoragePath editionId key n.
Proof.
  unfold PageWork, uploadPathOf, isAssetUpload.
  destruct (evCall e) as [| | | | | | | |client b q [buf|m]|]; try done.
  intros (_ & _ & Hshape) [= ->]. by split.
Qed.

Lemma Forall_PageWork_kind keys lo hi evs :
  Forall (PageWork supabase bucket editionId keys lo hi) evs →
  Forall (λ e, isRemoval e = false) evs
  ∧ Forall (λ e, isManifestUpload e = false) evs
  ∧ Forall (λ e, listingOf e = None) evs
  ∧ Forall (λ e, createdDirOf e = None) evs.
Proof.
  intros Hall. split_and!; (eapply Forall_impl; [exact Hall|]);
    intros e He; apply PageWork_kind in He as (? & ? & ? & ? & ?); done.
Qed.

Lemma isSetupCall_kind e :
  isSetupCall e = true →
  isRemoval e = false ∧ isUpload e = false ∧ isRender e = false
  ∧ isManifestUpload e = false ∧ isAssetUpload e = false.
Proof.
  unfold isSetupCall, isRemoval, isUpload, isRender, isManifestUpload, isAssetUpload.
  by destruct (evCall e).
Qed.

End EventKinds.

(** ** Facts about the events of a run *)

Lemma setupEvents_listing env tempRoot pdfUrl pdfPath files e files' :
  e ∈ setupEvents env tempRoot pdfUrl pdfPath files →
  listingOf e = Some files' → files' = files.
Proof.
  unfold setupEvents. intros He Hl.
  repeat (apply elem_of_cons in He as [->|He]; [by simplify_eq/=|]).
  by apply elem_of_nil in He.
Qed.

Lemma setupEvents_kind env tempRoot pdfUrl pdfPath files :
  Forall (λ e, isSetupCall e = true ∧ evOk e = true)
    (setupEvents env tempRoot pdfUrl pdfPath files).
Proof. unfold setupEvents. each_event. Qed.

Lemma removalEvents_kind tempRoot removal :
  Forall (λ e, isRemoval e = true) (removalEvents tempRoot removal).
Proof. unfold removalEvents. destruct (String.eqb tempRoot ""); each_event. Qed.

Lemma omap_none {A B} (f : A → option B) l :
  Forall (λ x, f x = None) l → omap f l = [].
Proof.
  induction 1 as [|x l Hx _ IH]; [done|]. simpl. by rewrite Hx.
Qed.

Lemma filter_none {A} (f : A → bool) l :
  Forall (λ x, f x = false) l → filter (λ x, f x = true) l = [].
Proof.
  induction 1 as [|x l Hx _ IH]; [done|].
  rewrite filter_cons_False; [done|]. by rewrite Hx.
Qed.

Lemma filter_all {A} (f : A → bool) l :
  Forall (λ x, f x = true) l → filter (λ x, f x = true) l = l.
Proof.
  induction 1 as [|x l Hx _ IH]; [done|].
  rewrite filter_cons_True by done. by rewrite IH.
Qed.

(** ** Inversion of runs *)

Lemma split_at_marked {A} (f : A → bool) l1 x l2 k1 y k2 :
  l1 ++ x :: l2 = k1 ++ y :: k2 →
  Forall (λ a, f a = false) l1 → Forall (λ a, f a = false) l2 → f y = true →
  k1 = l1 ∧ y = x ∧ k2 = l2.
Proof.
  revert k1. induction l1 as [|a l1 IH]; intros k1 Heq Hl1 Hl2 Hy.
  - destruct k1 as [|b k1]; simplify_eq/=; [done|].
    exfalso. rewrite Forall_app, Forall_cons in Hl2.
    destruct Hl2 as (_ & Hy' & _). congruence.
  - apply Forall_cons in Hl1 as [Ha Hl1].
    destruct k1 as [|b k1]; simplify_eq/=; [congruence|].
    destruct (IH k1) as (-> & -> & ->); done.
Qed.

Lemma no_marked_split {A} (f : A → bool) l k1 y k2 :
  l = k1 ++ y :: k2 → Forall (λ a, f a = false) l → f y = true → False.
Proof.
  intros -> Hall Hy. rewrite Forall_app, Forall_cons in Hall.
  destruct Hall as (_ & Hy' & _). congruence.
Qed.

Section RunFacts.

Context (SERVICE_SECRET DEFAULT_BUCKET : string) (env : Env) (req : Request).

Local Abbreviation run := (Run SERVICE_SECRET DEFAULT_BUCKET env req).
Local Abbreviation loopDone :=
  (LoopDone env (clientFor req) (bucketFor DEFAULT_BUCKET req) (editionIdFor req)
     (variantsFor req) (thumbnailFor req)).

Lemma setup_no_manifest tempRoot pdfPath files :
  Forall (λ e, isManifestUpload e = false)
    (setupEvents env tempRoot (pdfUrlFor req) pdfPath files).
Proof. unfold setupEvents. each_event. Qed.

Lemma removal_no_manifest tempRoot removal :
  Forall (λ e, isManifestUpload e = false) (removalEvents tempRoot removal).
Proof. unfold removalEvents. destruct (String.eqb tempRoot ""); each_event. Qed.

(** A manifest upload in a run is the one call made after a page loop
    that ran to its end. *)
Lemma Run_manifest_event response tr pre e post :
  run response tr → tr = pre ++ e :: post → isManifestUpload e = true →
  ∃ tempRoot pdfPath files evs pages uploads generated result,
    pre = setupEvents env tempRoot (pdfUrlFor req) pdfPath files ++ evs
    ∧ e = manifestEvent DEFAULT_BUCKET req generated pages result
    ∧ pageFilesOf files ≠ []
    ∧ loopDone 0 (orderPageFiles (pathJoin tempRoot "png") files) evs pages uploads
    ∧ (status response = 200 → response = successResponse DEFAULT_BUCKET req pages uploads).
Proof.
  intros Hrun Hsplit He.
  destruct Hrun as [| |setup message _ _ Hsetup _|tempRoot pdfPath files _ _ _
                   |tempRoot pdfPath files evs message _ _ _ Hwork
                   |tempRoot pdfPath files evs pages uploads generated result message
                      _ _ Hsome Hdone Hres
                   |tempRoot pdfPath files evs pages uploads generated removal
                      _ _ Hsome Hdone].
  - by destruct pre.
  - by destruct pre.
  - exfalso. eapply (no_marked_split isManifestUpload); [exact Hsplit| |exact He].
    eapply Forall_impl; [exact Hsetup|]. intros a Ha.
    by apply isSetupCall_kind in Ha as (_ & _ & _ & ? & _).
  - exfalso. eapply (no_marked_split isManifestUpload); [exact Hsplit| |exact He].
    apply setup_no_manifest.
  - exfalso. eapply (no_marked_split isManifestUpload); [exact Hsplit| |exact He].
    apply Forall_app. split; [apply setup_no_manifest|].
    by apply Forall_PageWork_kind in Hwork as (_ & ? & _).
  - pose proof Hdone as (Hwork & _).
    apply Forall_PageWork_kind in Hwork as (_ & Hnm & _).
    rewrite app_assoc in Hsplit.
    apply (split_at_marked isManifestUpload) in Hsplit as (-> & -> & ->);
      [|apply Forall_app; split; [apply setup_no_manifest|done]|done..].
    exists tempRoot, pdfPath, files, evs, pages, uploads, generated, result.
    split_and!; done.
  - pose proof Hdone as (Hwork & _).
    apply Forall_PageWork_kind in Hwork as (_ & Hnm & _).
    rewrite app_assoc in Hsplit.
    change ([?m] ++ ?r) with (m :: r) in Hsplit.
    apply (split_at_marked isManifestUpload) in Hsplit as (-> & -> & ->);
      [|apply Forall_app; split; [apply setup_no_manifest|done]
       |apply removal_no_manifest|done].
    exists tempRoot, pdfPath, files, evs, pages, uploads, generated, (Ok None).
    split_and!; done.
Qed.

(** A run that answers 200 went through every step. *)
Lemma Run_completed response tr :
  run response tr → status response = 200 →
  ∃ tempRoot pdfPath files evs pages uploads generated removal,
    response = successResponse DEFAULT_BUCKET req pages uploads
    ∧ tr = setupEvents env tempRoot (pdfUrlFor req) pdfPath files ++ evs
           ++ [manifestEvent DEFAULT_BUCKET req generated pages (Ok None)]
           ++ removalEvents tempRoot removal
    ∧ pageFilesOf files ≠ []
    ∧ loopDone 0 (orderPageFiles (pathJoin tempRoot "png") files) evs pages uploads
    ∧ (∀ l files', l ∈ tr → listingOf l = Some files' → files' = files).
Proof.
  intros Hrun Hstatus.
  destruct Hrun as [| | | | | |tempRoot pdfPath files evs pages uploads generated removal
                                 _ _ Hsome Hdone]; try done.
  exists tempRoot, pdfPath, files, evs, pages, uploads, generated, removal.
  split_and!; [done..|].
  intros l files' Hl Hls. destruct Hdone as (Hwork & _).
  apply Forall_PageWork_kind in Hwork as (_ & _ & Hnl & _).
  apply elem_of_app in Hl as [Hl|Hl]; [by eapply setupEvents_listing|].
  exfalso. apply elem_of_app in Hl as [Hl|Hl].
  - rewrite Forall_forall in Hnl. specialize (Hnl l Hl). congruence.
  - apply elem_of_cons in Hl as [->|Hl]; [done|].
    pose proof (removalEvents_kind tempRoot removal) as Hrm.
    rewrite Forall_forall in Hrm. specialize (Hrm l Hl).
    unfold isRemoval, listingOf in *. destruct l as [[] ?]; done.
Qed.

(** Every upload of a run goes to the path of an asset key and a page
    number, or is the manifest upload at the manifest path. *)
Lemma Run_upload_shape response tr e p :
  run response tr → e ∈ tr → uploadPathOf e = Some p →
  (isManifestUpload e = true ∧ p = manifestPathFor req)
  ∨ (isAssetUpload e = true
     ∧ ∃ key n, key ∈ assetKeys (variantsFor req) (thumbnailFor req) ∧ 1 ≤ n
                ∧ p = buildStoragePath (editionIdFor req) key n).
Proof.
  intros Hrun He Hp.
  assert (Hsetup : ∀ setup, Forall (λ e, isSetupCall e = true) setup → e ∈ setup → False).
  { intros setup Hall Hin. rewrite Forall_forall in Hall. specialize (Hall e Hin).
    unfold isSetupCall, uploadPathOf in *. by destruct (evCall e). }
  assert (Hsetup' : ∀ tempRoot pdfPath files,
    e ∈ setupEvents env tempRoot (pdfUrlFor req) pdfPath files → False).
  { intros tempRoot pdfPath files. apply Hsetup.
    eapply Forall_impl; [apply setupEvents_kind|]. by intros a [? _]. }
  assert (Hloop : ∀ evs hi,
    Forall (PageWork (clientFor req) (bucketFor DEFAULT_BUCKET req) (editionIdFor req)
              (assetKeys (variantsFor req) (thumbnailFor req)) 0 hi) evs →
    e ∈ evs →
    isAssetUpload e = true
    ∧ ∃ key n, key ∈ assetKeys (variantsFor req) (thumbnailFor req) ∧ 1 ≤ n
               ∧ p = buildStoragePath (editionIdFor req) key n).
  { intros evs hi Hall Hin. rewrite Forall_forall in Hall. specialize (Hall e Hin).
    destruct (PageWork_upload _ _ _ _ _ _ _ _ Hall Hp) as (Ha & key & n & Hk & Hn & ->).
    split; [done|]. exists key, n. split_and!; [done|lia|done]. }
  assert (Hrm : ∀ t r, e ∈ removalEvents t r → False).
  { intros t r Hin. pose proof (removalEvents_kind t r) as Hk.
    rewrite Forall_forall in Hk. specialize (Hk e Hin).
    unfold isRemoval, uploadPathOf in *. by destruct (evCall e). }
  destruct Hrun as [| |setup message _ _ Hsetup0 _|tempRoot pdfPath files _ _ _
                   |tempRoot pdfPath files evs message _ _ _ Hwork
                   |tempRoot pdfPath files evs pages uploads generated result message
                      _ _ _ Hdone _
                   |tempRoot pdfPath files evs pages uploads generated removal
                      _ _ _ Hdone].
  - by apply elem_of_nil in He.
  - by apply elem_of_nil in He.
  - exfalso. by eapply Hsetup.
  - exfalso. by eapply Hsetup'.
  - apply elem_of_app in He as [He|He]; [exfalso; by eapply Hsetup'|].
    right. by eapply Hloop.
  - destruct Hdone as (Hwork & _).
    apply elem_of_app in He as [He|He]; [exfalso; by eapply Hsetup'|].
    apply elem_of_app in He as [He|He]; [right; by eapply Hloop|].
    apply list_elem_of_singleton in He as ->. left.
    change (Some (manifestPathFor req) = Some p) in Hp. by simplify_eq.
  - destruct Hdone as (Hwork & _).
    apply elem_of_app in He as [He|He]; [exfalso; by eapply Hsetup'|].
    apply elem_of_app in He as [He|He]; [right; by eapply Hloop|].
    apply elem_of_cons in He as [->|He].
    { left. change (Some (manifestPathFor req) = Some p) in Hp. by simplify_eq. }
    exfalso. by eapply Hrm.
Qed.

(** The listing of a run is unique. *)
Lemma Run_listing response tr l files :
  run response tr → l ∈ tr → listingOf l = Some files →
  ∃ tempRoot pdfPath rest,
    tr = setupEvents env tempRoot (pdfUrlFor req) pdfPath files ++ rest
    ∧ Forall (λ e, listingOf e = None) rest.
Proof.
  intros Hrun Hl Hls.
  assert (Hrm : ∀ t r, Forall (λ e, listingOf e = None) (removalEvents t r)).
  { intros t r. unfold removalEvents. destruct (String.eqb t ""); each_event. }
  assert (Hin : ∀ tempRoot pdfPath files' rest,
    l ∈ setupEvents env tempRoot (pdfUrlFor req) pdfPath files' ++ rest →
    Forall (λ e, listingOf e = None) rest → files' = files).
  { intros tempRoot pdfPath files' rest [Hin|Hin]%elem_of_app Hrest.
    - symmetry. by eapply setupEvents_listing.
    - rewrite Forall_forall in Hrest. specialize (Hrest l Hin). congruence. }
  destruct Hrun as [| |setup message _ _ _ Hnols|tempRoot pdfPath files' _ _ _
                   |tempRoot pdfPath files' evs message _ _ _ Hwork
                   |tempRoot pdfPath files' evs pages uploads generated result message
                      _ _ _ Hdone _
                   |tempRoot pdfPath files' evs pages uploads generated removal
                      _ _ _ Hdone].
  - by apply elem_of_nil in Hl.
  - by apply elem_of_nil in Hl.
  - rewrite Forall_forall in Hnols. specialize (Hnols l Hl). congruence.
  - exists tempRoot, pdfPath, []. rewrite app_nil_r in *.
    rewrite <- (app_nil_r (setupEvents _ _ _ _ _)) in Hl.
    apply Hin in Hl as ->; done.
  - apply Forall_PageWork_kind in Hwork as (_ & _ & Hnl & _).
    exists tempRoot, pdfPath, evs. apply Hin in Hl as ->; done.
  - destruct Hdone as (Hwork & _).
    apply Forall_PageWork_kind in Hwork as (_ & _ & Hnl & _).
    assert (Hrest : Forall (λ e, listingOf e = None)
              (evs ++ [manifestEvent DEFAULT_BUCKET req generated pages result])).
    { apply Forall_app. split; [done|each_event]. }
    eexists tempRoot, pdfPath, _. apply Hin in Hl as ->; done.
  - destruct Hdone as (Hwork & _).
    apply Forall_PageWork_kind in Hwork as (_ & _ & Hnl & _).
    assert (Hrest : Forall (λ e, listingOf e = None)
              (evs ++ [manifestEvent DEFAULT_BUCKET req generated pages (Ok None)]
                 ++ removalEvents tempRoot removal)).
    { rewrite !Forall_app. split_and!; [done|each_event|apply Hrm]. }
    eexists tempRoot, pdfPath, _. apply Hin in Hl as ->; done.
Qed.

End RunFacts.

(** ** The uploads of a completed run *)

Section CompletedRuns.

Context (DEFAULT_BUCKET : string) (env : Env) (req : Request).

Lemma asset_uploads_of_loop keys lo hi evs :
  Forall (PageWork (clientFor req) (bucketFor DEFAULT_BUCKET req) (editionIdFor req)
            keys lo hi) evs →
  omap uploadPathOf (filter (λ e, isAssetUpload e = true) evs) = omap uploadPathOf evs.
Proof.
  induction 1 as [|e evs He _ IH]; [done|].
  destruct (uploadPathOf e) as [p|] eqn:Hp.
  - destruct (PageWork_upload _ _ _ _ _ _ _ _ He Hp) as [Hasset _].
    rewrite filter_cons_True by done. simpl. rewrite Hp. f_equal. exact IH.
  - simpl. rewrite Hp. destruct (decide (isAssetUpload e = true)).
    + rewrite filter_cons_True by done. simpl. rewrite Hp. exact IH.
    + rewrite filter_cons_False by done. exact IH.
Qed.

Lemma uploads_of_completed tempRoot pdfPath files evs pages uploads generated removal :
  LoopDone env (clientFor req) (bucketFor DEFAULT_BUCKET req) (editionIdFor req)
    (variantsFor req) (thumbnailFor req) 0
    (orderPageFiles (pathJoin tempRoot "png") files) evs pages uploads →
  let tr := setupEvents env tempRoot (pdfUrlFor req) pdfPath files ++ evs
            ++ [manifestEvent DEFAULT_BUCKET req generated pages (Ok None)]
            ++ removalEvents tempRoot removal in
  omap uploadPathOf (filter (λ e, isAssetUpload e = true) tr) = uploads
  ∧ omap uploadPathOf (filter (λ e, isManifestUpload e = true) tr) = [manifestPathFor req]
  ∧ omap uploadPathOf tr = uploads ++ [manifestPathFor req].
Proof.
  intros (Hwork & _ & Hpaths & -> & _) tr. subst tr.
  pose proof (setupEvents_kind env tempRoot (pdfUrlFor req) pdfPath files) as Hk.
  pose proof (removalEvents_kind tempRoot removal) as Hrm.
  assert (Hs1 : filter (λ e, isAssetUpload e = true)
                  (setupEvents env tempRoot (pdfUrlFor req) pdfPath files) = []).
  { apply filter_none. eapply Forall_impl; [exact Hk|]. intros e [He _].
    by apply isSetupCall_kind in He as (_ & _ & _ & _ & ?). }
  assert (Hs2 : filter (λ e, isManifestUpload e = true)
                  (setupEvents env tempRoot (pdfUrlFor req) pdfPath files) = []).
  { apply filter_none. eapply Forall_impl; [exact Hk|]. intros e [He _].
    by apply isSetupCall_kind in He as (_ & _ & _ & ? & _). }
  assert (Hs3 : omap uploadPathOf
                  (setupEvents env tempRoot (pdfUrlFor req) pdfPath files) = []).
  { apply omap_none. eapply Forall_impl; [exact Hk|]. intros e [He _].
    unfold isSetupCall, uploadPathOf in *. by destruct (evCall e). }
  assert (Hr1 : filter (λ e, isAssetUpload e = true) (removalEvents tempRoot removal) = []).
  { apply filter_none. eapply Forall_impl; [exact Hrm|]. intros e He.
    unfold isRemoval, isAssetUpload in *. by destruct (evCall e). }
  assert (Hr2 : filter (λ e, isManifestUpload e = true) (removalEvents tempRoot removal) = []).
  { apply filter_none. eapply Forall_impl; [exact Hrm|]. intros e He.
    unfold isRemoval, isManifestUpload in *. by destruct (evCall e). }
  assert (Hr3 : omap uploadPathOf (removalEvents tempRoot removal) = []).
  { apply omap_none. eapply Forall_impl; [exact Hrm|]. intros e He.
    unfold isRemoval, uploadPathOf in *. by destruct (evCall e). }
  assert (He2 : filter (λ e, isManifestUpload e = true) evs = []).
  { apply filter_none. by apply Forall_PageWork_kind in Hwork as (_ & ? & _). }
  rewrite !filter_app, !omap_app, Hs1, Hs2, Hs3, Hr1, Hr2, Hr3, He2.
  rewrite (asset_uploads_of_loop _ _ _ _ Hwork), Hpaths.
  rewrite filter_cons_False, filter_nil by done.
  rewrite filter_cons_True, filter_nil by done.
  simpl. by rewrite !app_nil_r.
Qed.

End CompletedRuns.

(** ** The paths of the code and the paths of the convention *)

Lemma buildStoragePath_specPagePath editionId key pageNumber :
  buildStoragePath editionId key pageNumber = specPagePath editionId key pageNumber.
Proof. apply buildStoragePath_spec. Qed.

Lemma pagePaths_spec editionId variants thumbnail pageNumber :
  pagePaths editionId variants thumbnail pageNumber
  = (λ key, specPagePath editionId key pageNumber) <$> assetKeys variants thumbnail.
Proof.
  unfold pagePaths, variantPaths, assetKeys.
  rewrite fmap_app, <- list_fmap_compose. simpl.
  rewrite buildStoragePath_specPagePath. f_equal.
  apply list_fmap_ext. intros i v _. simpl. apply buildStoragePath_specPagePath.
Qed.

Lemma pathsOfPages_spec editionId variants thumbnail count : ∀ index,
  pathsOfPages editionId variants thumbnail index count
  = concat ((λ n, (λ key, specPagePath editionId key n) <$> assetKeys variants thumbnail)
              <$> seq (index + 1) count).
Proof.
  induction count as [|count IH]; intros index; [done|].
  rewrite pathsOfPages_S, IH, pagePaths_spec. simpl.
  by replace (S (index + 1)) with (index + 1 + 1) by lia.
Qed.

(** ** The renders of a run *)

Section Renders.

Context (env : Env) (supabase : Supabase) (bucket editionId : string).

Lemma RenderWith_mono configs configs' pngBuffer metadata e :
  configs ⊆ configs' →
  RenderWith configs pngBuffer metadata e → RenderWith configs' pngBuffer metadata e.
Proof.
  intros Hsub. unfold RenderWith. destruct (evCall e); try done.
  intros (-> & config & Hin & -> & ->). split; [done|].
  exists config. split_and!; [by apply Hsub|done..].
Qed.

Lemma RenderOf_mono configs scope scope' e :
  scope ⊆ scope' → RenderOf configs scope e → RenderOf configs scope' e.
Proof.
  intros Hsub. unfold RenderOf. destruct (evCall e); try done.
  intros (config & metadata & Hin & (m & Hm & Hmeta) & -> & ->).
  exists config, metadata. split_and!; [done| |done..].
  exists m. split; [by apply Hsub|done].
Qed.

Lemma RenderWith_RenderOf configs pngBuffer metadata scope m e :
  m ∈ scope → metadataOf m = Some (pngBuffer, metadata) →
  RenderWith configs pngBuffer metadata e → RenderOf configs scope e.
Proof.
  intros Hm Hmeta. unfold RenderWith, RenderOf. destruct (evCall e); try done.
  intros (-> & config & Hin & -> & ->).
  exists config, metadata. split_and!; [done| |done..]. by exists m.
Qed.

Lemma variantLoop_renders pageNumber pngBuffer metadata :
  ∀ variants variantUploads uploads tr r tr',
    variantLoop env supabase bucket editionId pageNumber pngBuffer metadata
      variants variantUploads uploads tr = (r, tr') →
    ∃ evs, tr' = tr ++ evs ∧ Forall (RenderWith variants pngBuffer metadata) evs.
Proof.
  induction variants as [|variant rest IH];
    intros variantUploads uploads tr r tr' Hrun.
  - apply ret_run in Hrun as [_ ->]. exists []. by rewrite app_nil_r.
  - simpl in Hrun.
    assert (Hrender : ∀ res,
      RenderWith (variant :: rest) pngBuffer metadata
        {| evCall := SharpToWebp pngBuffer (resizeOptionsOf metadata variant)
                       (vquality variant);
           evResult := res |}).
    { intros res. split; [done|]. exists variant. split_and!; [by left|done..]. }
    apply bind_run in Hrun as [(buffer & tr1 & Hclone & Hrun) | (msg & Hclone & _)];
      apply cloneSharpForVariant_run in Hclone as ->.
    2: { eexists [_]. split; [done|]. each_event. }
    apply bind_run in Hrun as [([] & tr2 & Hup & Hrun) | (msg & Hup & _)];
      apply uploadBuffer_run in Hup as (result & -> & _).
    2: { eexists [_; _]. rewrite <- app_assoc. split; [done|]. each_event. }
    apply IH in Hrun as (evs & -> & Hevs).
    eexists (_ :: _ :: evs). rewrite <- !app_assoc. split; [done|].
    each_event. eapply Forall_impl; [exact Hevs|]. intros e.
    apply RenderWith_mono. intros v Hv. by right.
Qed.

Lemma processPage_renders variants thumbnail index pngPath uploads tr r tr' :
  processPage env supabase bucket editionId variants thumbnail index pngPath uploads tr
    = (r, tr') →
  ∃ evs, tr' = tr ++ evs ∧ Forall (RenderOf (variants ++ [thumbnail]) evs) evs.
Proof.
  unfold processPage. intros Hrun.
  step_perform Hrun read. destruct read as [pngBuffer|msg].
  2: { destruct Hrun as [_ ->]. eexists [_]. split; [done|]. each_event. }
  step_perform Hrun meta. destruct meta as [metadata|msg].
  2: { destruct Hrun as [_ ->]. eexists [_; _]. rewrite <- app_assoc.
       split; [done|]. each_event. }
  assert (Hpage : ∀ res rest,
    Forall (RenderWith (variants ++ [thumbnail]) pngBuffer metadata) rest →
    Forall (RenderOf (variants ++ [thumbnail])
              ({| evCall := ReadFile pngPath; evResult := res |}
               :: {| evCall := SharpMetadata pngBuffer; evResult := Ok metadata |}
               :: rest))
      ({| evCall := ReadFile pngPath; evResult := res |}
       :: {| evCall := SharpMetadata pngBuffer; evResult := Ok metadata |}
       :: rest)).
  { intros res rest Hrest. each_event.
    eapply Forall_impl; [exact Hrest|]. intros e.
    apply (RenderWith_RenderOf _ _ _ _
             {| evCall := SharpMetadata pngBuffer; evResult := Ok metadata |});
      [|done]. right. by left. }
  assert (Hthumb : ∀ res,
    RenderWith (variants ++ [thumbnail]) pngBuffer metadata
      {| evCall := SharpToWebp pngBuffer (resizeOptionsOf metadata thumbnail)
                     (vquality thumbnail);
         evResult := res |}).
  { intros res. split; [done|]. exists thumbnail. split_and!; [|done..].
    apply elem_of_app. right. by left. }
  apply bind_run in Hrun as [([variantUploads uploads1] & tr1 & Hloop & Hrun) | (msg & Hloop & _)];
    apply variantLoop_renders in Hloop as (evs & -> & Hevs);
    assert (Hevs' : Forall (RenderWith (variants ++ [thumbnail]) pngBuffer metadata) evs)
      by (eapply Forall_impl; [exact Hevs|]; intros e; apply RenderWith_mono;
          intros v Hv; apply elem_of_app; by left).
  2: { eexists (_ :: _ :: evs). rewrite <- !app_assoc. split; [done|]. by apply Hpage. }
  apply bind_run in Hrun as [(thumbBuffer & tr2 & Hclone & Hrun) | (msg & Hclone & _)];
    apply cloneSharpForVariant_run in Hclone as ->.
  2: { eexists (_ :: _ :: evs ++ [_]). rewrite <- !app_assoc. split; [done|].
       apply Hpage. apply Forall_app. split; [done|each_event]. }
  apply bind_run in Hrun as [([] & tr3 & Hup & Hrun) | (msg & Hup & _)];
    apply uploadBuffer_run in Hup as (result & -> & _).
  2: { eexists (_ :: _ :: evs ++ [_; _]). rewrite <- !app_assoc. split; [done|].
       apply Hpage. apply Forall_app. split; [done|each_event]. }
  apply ret_run in Hrun as [_ ->].
  eexists (_ :: _ :: evs ++ [_; _]). rewrite <- !app_assoc. split; [done|].
  apply Hpage. apply Forall_app. split; [done|each_event].
Qed.

Lemma pageLoop_renders variants thumbnail :
  ∀ pngPages index manifestPages uploads tr r tr',
    pageLoop env supabase bucket editionId variants thumbnail index pngPages
      manifestPages uploads tr = (r, tr') →
    ∃ evs, tr' = tr ++ evs ∧ Forall (RenderOf (variants ++ [thumbnail]) evs) evs.
Proof.
  induction pngPages as [|pngPath rest IH];
    intros index manifestPages uploads tr r tr' Hrun.
  - apply ret_run in Hrun as [_ ->]. exists []. by rewrite app_nil_r.
  - simpl in Hrun.
    apply bind_run in Hrun as [([entry uploads1] & tr1 & Hpage & Hrun) | (msg & Hpage & _)];
      apply processPage_renders in Hpage as (evs1 & -> & Hevs1).
    2: { by exists evs1. }
    apply IH in Hrun as (evs2 & -> & Hevs2).
    exists (evs1 ++ evs2). rewrite <- app_assoc. split; [done|].
    apply Forall_app. split.
    + eapply Forall_impl; [exact Hevs1|]. intros e. apply RenderOf_mono.
      intros x Hx. apply elem_of_app. by left.
    + eapply Forall_impl; [exact Hevs2|]. intros e. apply RenderOf_mono.
      intros x Hx. apply elem_of_app. by right.
Qed.

End Renders.

Section RendersHandler.

Context (SERVICE_SECRET DEFAULT_BUCKET : string) (env : Env).

Lemma pipelineBody_renders editionId pdfUrl supabaseUrl supabaseKey bucket
    variants thumbnail r tr' :
  pipelineBody env editionId pdfUrl supabaseUrl supabaseKey bucket variants thumbnail []
    = (r, tr') →
  Forall (RenderOf (variants ++ [thumbnail]) tr') tr'.
Proof.
  intros H. unfold pipelineBody, createTempDir, downloadPdf in H.
  apply bind_run in H as [(tempRoot & tr1 & Htmp & H) | (msg & Htmp & _)];
    step_perform Htmp mk; destruct mk as [dir|m];
    try (apply ret_run in Htmp as [? ?]); try destruct Htmp as [? ?]; simplify_eq.
  2: { each_event. }
  rename dir into tempRoot.
  apply bind_run in H as [(id & tr2 & Hid & H) | (m & Hid & _)]; simplify_eq.
  step_perform H mkd. destruct mkd as [[]|m].
  2: { destruct H as [_ ->]. each_event. }
  step_perform H dl. destruct dl as [[]|m].
  2: { destruct H as [_ ->]. each_event. }
  apply bind_run in H as [(pngPages & tr3 & Hconv & H) | (m & Hconv & _)];
    apply convertPdfToPng_run in Hconv as [[[]|m'] Hconv]; simpl in Hconv.
  4: { destruct Hconv as [_ ->]. each_event. }
  3: { destruct Hconv as ([files|m''] & -> & Hr); simplify_eq. each_event. }
  2: { destruct Hconv as [? _]. simplify_eq. }
  destruct Hconv as ([files|m''] & -> & Hr); simplify_eq.
  set (pdfPath := pathJoin tempRoot (uuid env _ +:+ ".pdf")) in *.
  change [_; _; _; _; _] with (setupEvents env tempRoot pdfUrl pdfPath files) in H.
  assert (Hsetup : ∀ scope,
    Forall (RenderOf (variants ++ [thumbnail]) scope)
      (setupEvents env tempRoot pdfUrl pdfPath files)).
  { intros scope. unfold setupEvents. each_event. }
  assert (Hwhole : ∀ evs tail,
    Forall (RenderOf (variants ++ [thumbnail]) evs) evs →
    (∀ scope, Forall (RenderOf (variants ++ [thumbnail]) scope) tail) →
    Forall (RenderOf (variants ++ [thumbnail])
              (setupEvents env tempRoot pdfUrl pdfPath files ++ evs ++ tail))
      (setupEvents env tempRoot pdfUrl pdfPath files ++ evs ++ tail)).
  { intros evs tail Hevs Htail. rewrite !Forall_app. split_and!; [done| |done].
    eapply Forall_impl; [exact Hevs|]. intros e. apply RenderOf_mono.
    intros x Hx. apply elem_of_app. right. apply elem_of_app. by left. }
  destruct (Nat.eqb (length (orderPageFiles (pathJoin tempRoot "png") files)) 0).
  { apply throw_run in H as [_ ->]. apply Hsetup. }
  apply bind_run in H as [([pages uploads] & tr4 & Hloop & H) | (m & Hloop & _)];
    apply pageLoop_renders in Hloop as (evs & -> & Hevs).
  2: { rewrite <- (app_nil_r evs). apply Hwhole; [done|]. intros scope. each_event. }
  apply bind_run in H as [(generated & tr5 & Hgen & H) | (m & Hgen & _)]; simplify_eq.
  apply bind_run in H as [([] & tr6 & Hup & H) | (m & Hup & _)];
    apply uploadBuffer_run in Hup as (result & -> & _).
  2: { rewrite <- app_assoc. apply Hwhole; [done|]. intros scope. each_event. }
  apply bind_run in H as [([] & tr7 & Hrm & H) | (m & Hrm & _)];
    apply removeDirSafe_run in Hrm as [? (removal & ->)]; [|done].
  apply ret_run in H as [_ ->].
  rewrite <- !app_assoc. apply Hwhole; [done|]. intros scope.
  apply Forall_app. split; [each_event|].
  unfold removalEvents. destruct (String.eqb tempRoot ""); each_event.
Qed.

(** Every render of a run is the render of a page image whose metadata the
    run read, with the options of one of the request's configurations. *)
Lemma handler_renders req response tr :
  handler SERVICE_SECRET DEFAULT_BUCKET env req [] = (response, tr) →
  Forall (RenderOf (variantsFor req ++ [thumbnailFor req]) tr) tr.
Proof.
  intros Hrun.
  destruct (decide (authorized SERVICE_SECRET req)) as [Hauth|Hno].
  2: { unfold authorized in Hno. rewrite handler_unauthorized in Hrun by tauto.
       by simplify_eq. }
  rewrite handler_authorized in Hrun by done.
  destruct (hasRequired req); [|by simplify_eq].
  destruct (pipelineBody _ _ _ _ _ _ _ _ _) as [r tr1] eqn:Hbody.
  apply pipelineBody_renders in Hbody. by destruct r; simplify_eq.
Qed.

End RendersHandler.

(** * Properties of the service *)

(** ** Authorization (server.js, lines 115-118) *)

Lemma Run_status_not_401 SERVICE_SECRET DEFAULT_BUCKET env req response tr :
  authorized SERVICE_SECRET req →
  Run SERVICE_SECRET DEFAULT_BUCKET env req response tr →
  status response ≠ 401.
Proof.
  intros Hauth Hrun. destruct Hrun; try done.
  unfold authorized in Hauth. tauto.
Qed.

(** C10. With an empty service secret the check is skipped: the handler
    never answers 401 and its run does not depend on the [X-Api-Key] header
    at all.  With a non-empty secret, a request whose header is absent or
    differs from it gets [401 { success: false, error: 'Unauthorized' }]
    and no call to the outside world is made. *)
Theorem shared_secret_check SERVICE_SECRET DEFAULT_BUCKET env req :
  (SERVICE_SECRET = "" →
     status (handler SERVICE_SECRET DEFAULT_BUCKET env req []).1 ≠ 401
     ∧ ∀ header,
         handler SERVICE_SECRET DEFAULT_BUCKET env (withApiKey header req) []
         = handler SERVICE_SECRET DEFAULT_BUCKET env req [])
  ∧ (SERVICE_SECRET ≠ "" → reqApiKey req ≠ Some SERVICE_SECRET →
       handler SERVICE_SECRET DEFAULT_BUCKET env req []
       = ({| status := 401; payload := Failure "Unauthorized" |}, [])).
Proof.
  split.
  - intros ->. split.
    + destruct (handler "" DEFAULT_BUCKET env req []) as [response tr] eqn:Hrun.
      apply handler_Run in Hrun.
      eapply Run_status_not_401; [|exact Hrun]. by left.
    + intros header. rewrite !handler_authorized by (by left). done.
  - intros Hs Hk. apply handler_unauthorized; [done|].
    destruct (reqApiKey req) as [k|]; simpl; congruence.
Qed.

(** The check at work, with and without a configured secret. *)
Lemma shared_secret_check_witness :
  handler "" "editions" (scriptedEnv twoPageListing neverFails)
    (withApiKey (Some "anything") sampleRequest) []
  = handler "" "editions" (scriptedEnv twoPageListing neverFails) sampleRequest []
  ∧ handler "s3cret" "editions" (scriptedEnv twoPageListing neverFails)
      (withApiKey (Some "guess") sampleRequest) []
    = ({| status := 401; payload := Failure "Unauthorized" |}, []).
Proof.
  split.
  - apply (shared_secret_check "" "editions" (scriptedEnv twoPageListing neverFails)
             sampleRequest). reflexivity.
  - apply (shared_secret_check "s3cret" "editions" (scriptedEnv twoPageListing neverFails)
             (withApiKey (Some "guess") sampleRequest)); [discriminate|simpl; discriminate].
Defined.

(** ** Validation (server.js, lines 130-135) *)

(** C8, as stated, fails: with a service secret configured, a request that
    lacks both the header and [editionId] is answered 401, not 400. *)
Lemma missing_parameters_as_claimed_fails :
  ¬ (∀ SERVICE_SECRET DEFAULT_BUCKET env req,
       hasRequired req = false →
       status (handler SERVICE_SECRET DEFAULT_BUCKET env req []).1 = 400).
Proof.
  intros Hclaim.
  specialize (Hclaim "s3cret" "editions" (scriptedEnv twoPageListing neverFails)
                requestWithoutEditionId eq_refl).
  vm_compute in Hclaim. discriminate Hclaim.
Qed.

(** C8, amended.  A request in which [editionId], [pdfUrl], [supabaseUrl] or
    [supabaseKey] is missing or empty is answered with a failure envelope and
    no call to the outside world is made (no temporary directory, no
    download, no upload); the answer is the 400 validation failure when the
    request passes the shared-secret check, and the 401 of that check
    otherwise. *)
Theorem missing_parameters_rejected SERVICE_SECRET DEFAULT_BUCKET env req :
  hasRequired req = false →
  (handler SERVICE_SECRET DEFAULT_BUCKET env req []).2 = []
  ∧ (∃ message, payload (handler SERVICE_SECRET DEFAULT_BUCKET env req []).1 = Failure message)
  ∧ (authorized SERVICE_SECRET req →
       handler SERVICE_SECRET DEFAULT_BUCKET env req []
       = ({| status := 400;
             payload := Failure
               "Missing required parameters (editionId, pdfUrl, supabaseUrl, supabaseKey)" |},
          []))
  ∧ (¬ authorized SERVICE_SECRET req →
       handler SERVICE_SECRET DEFAULT_BUCKET env req []
       = ({| status := 401; payload := Failure "Unauthorized" |}, [])).
Proof.
  intros Hmissing.
  destruct (decide (authorized SERVICE_SECRET req)) as [Hauth|Hno].
  - rewrite handler_authorized, Hmissing by done. simpl.
    split_and!; [done|eauto|done|done].
  - pose proof Hno as Hno'. unfold authorized in Hno'.
    rewrite handler_unauthorized by tauto.
    simpl. split_and!; [done|eauto|done|done].
Qed.

(** A request without [editionId]: with no secret configured, and with a
    secret configured that the request does not carry. *)
Lemma missing_parameters_rejected_witness :
  handler "" "editions" (scriptedEnv twoPageListing neverFails) requestWithoutEditionId []
  = ({| status := 400;
        payload := Failure
          "Missing required parameters (editionId, pdfUrl, supabaseUrl, supabaseKey)" |},
     [])
  ∧ handler "s3cret" "editions" (scriptedEnv twoPageListing neverFails)
      requestWithoutEditionId []
    = ({| status := 401; payload := Failure "Unauthorized" |}, []).
Proof.
  split.
  - apply (missing_parameters_rejected "" "editions"
             (scriptedEnv twoPageListing neverFails) requestWithoutEditionId).
    + reflexivity.
    + left. reflexivity.
  - apply (missing_parameters_rejected "s3cret" "editions"
             (scriptedEnv twoPageListing neverFails) requestWithoutEditionId).
    + reflexivity.
    + intros [Hsecret|Hkey]; discriminate.
Defined.

(** ** Variant rendering (server.js, lines 79-95, 161-180) *)

Lemma resizeWidth_resizeOptionsOf metadata config :
  resizeWidth (resizeOptionsOf metadata config) = targetWidthOf metadata config.
Proof.
  unfold resizeOptionsOf. destruct (vheight config) as [h|]; [|done].
  by destruct (h =? 0)%Z.
Qed.

(** Settles the contract of [sharp] on a computed run. *)
Ltac sharp_widths :=
  apply Forall_forall; intros ? Hevent; vm_compute in Hevent;
  repeat (apply elem_of_cons in Hevent as [->|Hevent]);
  [split;
   [intros ? ? ? Hmeta Hwidth; vm_compute in Hmeta; simplify_eq;
    vm_compute in Hwidth; simplify_eq; by vm_compute
   |intros ? ? Hout Hresize; vm_compute in Hout; simplify_eq;
    vm_compute in Hresize; simplify_eq; by vm_compute]..
  |by apply elem_of_nil in Hevent].

(** C7, as stated, fails, in two places.  A configured height of 0 is
    present but falsy, and the resize is then the proportional one, not a
    cover fit.  And when [metadata()] reports no width the width asked of
    [resize] is [config.width] whatever the page's width: a page 5 wide is
    asked to be 8 wide, and a cover fit to 8 by 4 renders it 8 wide. *)
Lemma rendering_as_claimed_fails :
  ¬ (∀ metadata config h,
       vheight config = Some h →
       resizeOptionsOf metadata config = ResizeCover (targetWidthOf metadata config) h)
  ∧ ¬ (∀ SERVICE_SECRET DEFAULT_BUCKET env req response tr
         (widthOf : Buffer → Z) e input resize quality,
         handler SERVICE_SECRET DEFAULT_BUCKET env req [] = (response, tr) →
         sharpKeepsWidths widthOf tr →
         e ∈ tr → evCall e = SharpToWebp input resize quality →
         (resizeWidth resize ≤ widthOf input)%Z
         ∧ ∀ output, renderedOf e = Some output → (widthOf output ≤ widthOf input)%Z).
Proof.
  split.
  - intros Hclaim. specialize (Hclaim a4Metadata zeroHeightVariant 0%Z eq_refl).
    vm_compute in Hclaim. discriminate Hclaim.
  - intros Hclaim.
    pose (run := handler "" "editions" (pixelEnv false ["page-1.png"])
                   narrowPageRequest []).
    destruct (Hclaim "" "editions" (pixelEnv false ["page-1.png"]) narrowPageRequest
                run.1 run.2 pixelWidth blindThumbnailRender fivePixels
                (ResizeCover 8 4) 60%Z (surjective_pairing run)) as [Hasked Hrendered].
    + sharp_widths.
    + vm_compute. do 11 apply list_elem_of_further. apply list_elem_of_here.
    + reflexivity.
    + vm_compute in Hasked. by apply Hasked.
Qed.

(** C7, amended.  Take any render of any run.  It renders a page image
    whose metadata the run has read, for one of the configured variants or
    for the thumbnail, with that configuration's quality.  If the metadata
    reports the page's natural width, the width asked of [resize] is
    [min(config.width, natural width)]; it is then at most the natural
    width, and so is the width of the rendered image, [sharp] returning no
    image wider than asked.  If the metadata reports no width, the width
    asked is [config.width].  When [config.height] is absent or 0 the resize
    is [{ width, withoutEnlargement: true }], and when it is present and not
    0 it is [{ width, height: config.height, fit: 'cover' }]. *)
Theorem variant_never_upscaled SERVICE_SECRET DEFAULT_BUCKET env req response tr
    (widthOf : Buffer → Z) e input resize quality :
  handler SERVICE_SECRET DEFAULT_BUCKET env req [] = (response, tr) →
  e ∈ tr → evCall e = SharpToWebp input resize quality →
  ∃ config metadata,
    config ∈ variantsFor req ++ [thumbnailFor req]
    ∧ (∃ m, m ∈ tr ∧ metadataOf m = Some (input, metadata))
    ∧ quality = vquality config
    ∧ (sharpKeepsWidths widthOf tr → ∀ w, mwidth metadata = Some w →
         w = widthOf input
         ∧ resizeWidth resize = Z.min (vwidth config) (widthOf input)
         ∧ (resizeWidth resize ≤ widthOf input)%Z
         ∧ ∀ output, renderedOf e = Some output → (widthOf output ≤ widthOf input)%Z)
    ∧ (mwidth metadata = None → resizeWidth resize = vwidth config)
    ∧ (vheight config = None ∨ vheight config = Some 0%Z →
         resize = ResizeWithoutEnlargement (resizeWidth resize))
    ∧ (∀ h, vheight config = Some h → h ≠ 0%Z →
         resize = ResizeCover (resizeWidth resize) h).
Proof.
  intros Hrun He Hcall.
  pose proof (handler_renders _ _ _ _ _ _ Hrun) as Hrenders.
  rewrite Forall_forall in Hrenders. specialize (Hrenders e He).
  unfold RenderOf in Hrenders. rewrite Hcall in Hrenders.
  destruct Hrenders as (config & metadata & Hconfig & (m & Hm & Hmeta) & -> & ->).
  exists config, metadata.
  rewrite resizeWidth_resizeOptionsOf.
  split_and!; [done|by exists m|done|..].
  - intros Hsharp w Hw. unfold sharpKeepsWidths in Hsharp.
    rewrite Forall_forall in Hsharp.
    destruct (Hsharp m Hm) as [Hreported _]. destruct (Hsharp e He) as [_ Houtput].
    assert (Hnatural : w = widthOf input) by (by eapply Hreported).
    assert (Hasked : targetWidthOf metadata config = Z.min (vwidth config) (widthOf input)).
    { unfold targetWidthOf. rewrite Hw. simpl. by rewrite Hnatural. }
    split_and!; [done|done|lia|].
    intros output Hout.
    assert (Hle : (widthOf output ≤ resizeWidth (resizeOptionsOf metadata config))%Z).
    { apply Houtput; [done|]. unfold resizeOf. by rewrite Hcall. }
    rewrite resizeWidth_resizeOptionsOf in Hle. lia.
  - intros Hnone. unfold targetWidthOf. rewrite Hnone. simpl. lia.
  - unfold resizeOptionsOf. by intros [-> | ->].
  - intros h Hh Hne. unfold resizeOptionsOf. rewrite Hh.
    by destruct (Z.eqb_spec h 0).
Qed.

(** The thumbnail of a page 5 wide, cropped to 8 by 4, in a world whose
    [sharp] reports widths and resizes as documented: it is asked, and
    rendered, 5 wide. *)
Lemma variant_never_upscaled_witness :
  let run := handler "" "editions" (pixelEnv true ["page-1.png"]) narrowPageRequest [] in
  sharpKeepsWidths pixelWidth run.2
  ∧ ∃ config metadata,
      config ∈ variantsFor narrowPageRequest ++ [thumbnailFor narrowPageRequest]
      ∧ (∃ m, m ∈ run.2 ∧ metadataOf m = Some (fivePixels, metadata))
      ∧ 60%Z = vquality config
      ∧ (sharpKeepsWidths pixelWidth run.2 → ∀ w, mwidth metadata = Some w →
           w = pixelWidth fivePixels
           ∧ resizeWidth (ResizeCover 5 4) = Z.min (vwidth config) (pixelWidth fivePixels)
           ∧ (resizeWidth (ResizeCover 5 4) ≤ pixelWidth fivePixels)%Z
           ∧ ∀ output, renderedOf thumbnailRender = Some output →
                       (pixelWidth output ≤ pixelWidth fivePixels)%Z)
      ∧ (mwidth metadata = None → resizeWidth (ResizeCover 5 4) = vwidth config)
      ∧ (vheight config = None ∨ vheight config = Some 0%Z →
           ResizeCover 5 4 = ResizeWithoutEnlargement (resizeWidth (ResizeCover 5 4)))
      ∧ (∀ h, vheight config = Some h → h ≠ 0%Z →
           ResizeCover 5 4 = ResizeCover (resizeWidth (ResizeCover 5 4)) h).
Proof.
  intros run. split.
  - sharp_widths.
  - apply (variant_never_upscaled "" "editions" (pixelEnv true ["page-1.png"])
             narrowPageRequest run.1 run.2 pixelWidth thumbnailRender fivePixels
             (ResizeCover 5 4) 60%Z (surjective_pairing run)).
    + vm_compute. do 11 apply list_elem_of_further. apply list_elem_of_here.
    + reflexivity.
Defined.

(** ** Cleanup of the temporary directory (server.js, lines 141, 221, 232) *)

(** A failure response never comes with a removal of the temporary
    directory: [removeDirSafe] is only called at the end of the [try]
    block. *)
Lemma failure_leaves_temp_dir SERVICE_SECRET DEFAULT_BUCKET env req response tr :
  handler SERVICE_SECRET DEFAULT_BUCKET env req [] = (response, tr) →
  status response ≠ 200 →
  Forall (λ e, isRemoval e = false) tr.
Proof.
  intros Hrun%handler_Run Hstatus.
  destruct Hrun as [| |setup message _ _ Hsetup _| |? ? ? ? ? _ _ _ Hwork
                   |? ? ? ? ? ? ? ? ? _ _ _ Hdone _|]; try done.
  - eapply Forall_impl; [exact Hsetup|]. intros e He. by apply isSetupCall_kind in He as (? & _).
  - each_event.
  - apply Forall_PageWork_kind in Hwork as (Hrm & _).
    apply Forall_app. split; [each_event|done].
  - destruct Hdone as (Hwork & _). apply Forall_PageWork_kind in Hwork as (Hrm & _).
    rewrite !Forall_app. split_and!; [each_event|done|each_event].
Qed.

(** On the success path the directory is removed: the last call of a run
    answered 200 is the removal of the directory [mkdtemp] returned. *)
Lemma success_removes_temp_dir SERVICE_SECRET DEFAULT_BUCKET env req response tr :
  handler SERVICE_SECRET DEFAULT_BUCKET env req [] = (response, tr) →
  status response = 200 →
  ∃ tempRoot before removal,
    head tr ≫= createdDirOf = Some tempRoot
    ∧ tr = before ++ removalEvents tempRoot removal.
Proof.
  intros Hrun%handler_Run Hstatus.
  destruct (Run_completed _ _ _ _ _ _ Hrun Hstatus) as
    (tempRoot & pdfPath & files & evs & pages & uploads & generated & removal
     & _ & -> & _).
  exists tempRoot,
    (setupEvents env tempRoot (pdfUrlFor req) pdfPath files ++ evs
       ++ [manifestEvent DEFAULT_BUCKET req generated pages (Ok None)]),
    removal.
  split; [reflexivity|]. by rewrite <- !app_assoc.
Qed.

(** C1.  In a world where the download fails, the request is answered 500
    while the temporary directory that [mkdtemp] created is still there:
    the trace holds its creation and no removal. *)
Theorem temp_dir_leaks_when_download_fails :
  let run := handler "" "editions" (scriptedEnv twoPageListing downloadFails)
               sampleRequest [] in
  run.1 = {| status := 500; payload := Failure "unavailable" |}
  ∧ omap createdDirOf run.2 = ["/tmp/pdf-conversion-Ab12Cd"]
  ∧ filter (λ e, isRemoval e = true) run.2 = [].
Proof. vm_compute. done. Qed.

(** ** Zero pages (server.js, lines 148-151) *)

(** C9.  If the listing of the output directory holds no page file, the
    request is answered [500 'No pages produced during PDF conversion'] and
    the run made no rendering call and no upload, neither of an asset nor of
    a manifest. *)
Theorem zero_pages_abort SERVICE_SECRET DEFAULT_BUCKET env req response tr files :
  handler SERVICE_SECRET DEFAULT_BUCKET env req [] = (response, tr) →
  (∃ e, e ∈ tr ∧ listingOf e = Some files) →
  pageFilesOf files = [] →
  response = {| status := 500;
                payload := Failure "No pages produced during PDF conversion" |}
  ∧ Forall (λ e, isRender e = false ∧ isUpload e = false) tr.
Proof.
  intros Hrun%handler_Run (e & He & Hls) Hnone.
  destruct Hrun as [| |setup message _ _ _ Hnols| |? ? files' ? ? _ _ Hsome Hwork
                   |? ? files' ? ? ? ? ? ? _ _ Hsome Hdone _
                   |? ? files' ? ? ? ? ? _ _ Hsome Hdone].
  - by apply elem_of_nil in He.
  - by apply elem_of_nil in He.
  - rewrite Forall_forall in Hnols. specialize (Hnols e He). congruence.
  - split; [done|]. unfold setupEvents. each_event.
  - exfalso. apply elem_of_app in He as [He|He].
    + apply (setupEvents_listing _ _ _ _ _ _ _ He) in Hls. congruence.
    + apply Forall_PageWork_kind in Hwork as (_ & _ & Hl & _).
      rewrite Forall_forall in Hl. specialize (Hl e He). congruence.
  - exfalso. destruct Hdone as (Hwork & _).
    apply elem_of_app in He as [He|He].
    + apply (setupEvents_listing _ _ _ _ _ _ _ He) in Hls. congruence.
    + apply elem_of_app in He as [He|He].
      * apply Forall_PageWork_kind in Hwork as (_ & _ & Hl & _).
        rewrite Forall_forall in Hl. specialize (Hl e He). congruence.
      * apply list_elem_of_singleton in He as ->. done.
  - exfalso. destruct Hdone as (Hwork & _).
    apply elem_of_app in He as [He|He].
    + apply (setupEvents_listing _ _ _ _ _ _ _ He) in Hls. congruence.
    + apply elem_of_app in He as [He|He].
      * apply Forall_PageWork_kind in Hwork as (_ & _ & Hl & _).
        rewrite Forall_forall in Hl. specialize (Hl e He). congruence.
      * apply elem_of_cons in He as [->|He]; [done|].
        pose proof (removalEvents_kind tempRoot removal) as Hrm.
        rewrite Forall_forall in Hrm. specialize (Hrm e He).
        unfold isRemoval, listingOf in *. destruct e as [[] ?]; done.
Qed.

(** A listing that holds only a stray file. *)
Lemma zero_pages_abort_witness :
  let run := handler "" "editions" (scriptedEnv ["notes.txt"] neverFails) sampleRequest [] in
  run.1 = {| status := 500; payload := Failure "No pages produced during PDF conversion" |}
  ∧ Forall (λ e, isRender e = false ∧ isUpload e = false) run.2.
Proof.
  apply (zero_pages_abort "" "editions" (scriptedEnv ["notes.txt"] neverFails) sampleRequest
           _ _ ["notes.txt"]).
  - apply surjective_pairing.
  - exists {| evCall := Readdir "/tmp/pdf-conversion-Ab12Cd/png"; evResult := Ok ["notes.txt"] |}.
    split; [|reflexivity]. vm_compute.
    do 4 apply list_elem_of_further. apply list_elem_of_here.
  - vm_compute. reflexivity.
Defined.

(** ** Upload failures and the manifest (server.js, lines 97-108, 218-219) *)

(** C4.  If the upload of any page asset fails, the response is a 500
    failure envelope and the run contains no manifest upload at all.
    Moreover a manifest upload, when there is one, comes after every call
    before it succeeded, and the uploads before it are exactly the assets of
    every page and every variant, thumbnail included. *)
Theorem upload_failure_aborts SERVICE_SECRET DEFAULT_BUCKET env req response tr :
  handler SERVICE_SECRET DEFAULT_BUCKET env req [] = (response, tr) →
  ((∃ e, e ∈ tr ∧ isAssetUpload e = true ∧ evOk e = false) →
     (∃ message, response = {| status := 500; payload := Failure message |})
     ∧ Forall (λ e, isManifestUpload e = false) tr)
  ∧ (∀ pre e post,
       tr = pre ++ e :: post → isManifestUpload e = true →
       Forall (λ e', evOk e' = true) pre
       ∧ ∃ files,
           (∃ l, l ∈ pre ∧ listingOf l = Some files)
           ∧ omap uploadPathOf pre
             = pathsOfPages (editionIdFor req) (variantsFor req) (thumbnailFor req)
                 0 (length (pageFilesOf files))).
Proof.
  intros Hrun%handler_Run. split.
  - intros (e & He & Hasset & Hfailed).
    assert (Hsetup : ∀ tempRoot pdfPath files,
      e ∈ setupEvents env tempRoot (pdfUrlFor req) pdfPath files → False).
    { intros tempRoot pdfPath files Hin.
      pose proof (setupEvents_kind env tempRoot (pdfUrlFor req) pdfPath files) as Hk.
      rewrite Forall_forall in Hk. destruct (Hk e Hin). congruence. }
    assert (Hloop : ∀ evs, Forall (λ e, evOk e = true) evs → e ∈ evs → False).
    { intros evs Hok Hin. rewrite Forall_forall in Hok. specialize (Hok e Hin). congruence. }
    destruct Hrun as [| |setup message _ _ Hsetup' _|tempRoot pdfPath files _ _ _
                     |tempRoot pdfPath files evs message _ _ _ Hwork
                     |tempRoot pdfPath files evs pages uploads generated result message
                        _ _ _ Hdone _
                     |tempRoot pdfPath files evs pages uploads generated removal
                        _ _ _ Hdone].
    + by apply elem_of_nil in He.
    + by apply elem_of_nil in He.
    + exfalso. rewrite Forall_forall in Hsetup'. specialize (Hsetup' e He).
      apply isSetupCall_kind in Hsetup' as (_ & _ & _ & _ & ?). congruence.
    + exfalso. by eapply Hsetup.
    + split; [by exists message|].
      apply Forall_app. split; [apply setup_no_manifest|].
      by apply Forall_PageWork_kind in Hwork as (_ & ? & _).
    + exfalso. destruct Hdone as (_ & Hok & _).
      apply elem_of_app in He as [He|He]; [by eapply Hsetup|].
      apply elem_of_app in He as [He|He]; [by eapply Hloop|].
      apply list_elem_of_singleton in He as ->. done.
    + exfalso. destruct Hdone as (_ & Hok & _).
      apply elem_of_app in He as [He|He]; [by eapply Hsetup|].
      apply elem_of_app in He as [He|He]; [by eapply Hloop|].
      apply elem_of_cons in He as [->|He]; [done|].
      pose proof (removalEvents_kind tempRoot removal) as Hrm.
      rewrite Forall_forall in Hrm. specialize (Hrm e He).
      unfold isRemoval, isAssetUpload in *. by destruct (evCall e).
  - intros pre e post Hsplit He.
    destruct (Run_manifest_event _ _ _ _ _ _ _ _ _ Hrun Hsplit He) as
      (tempRoot & pdfPath & files & evs & pages & uploads & generated & result
       & -> & -> & Hsome & Hdone & _).
    destruct Hdone as (Hwork & Hok & Hpaths & _).
    pose proof (setupEvents_kind env tempRoot (pdfUrlFor req) pdfPath files) as Hk.
    split.
    + apply Forall_app. split; [|done].
      eapply Forall_impl; [exact Hk|]. by intros a [_ ?].
    + exists files. split.
      * exists {| evCall := Readdir (pathJoin tempRoot "png"); evResult := Ok files |}.
        split; [|done]. apply elem_of_app. left. unfold setupEvents.
        do 4 apply list_elem_of_further. apply list_elem_of_here.
      * rewrite omap_app, Hpaths, length_orderPageFiles.
        rewrite (omap_none uploadPathOf (setupEvents _ _ _ _ _)); [done|].
        eapply Forall_impl; [exact Hk|]. intros a [Ha _].
        unfold isSetupCall, uploadPathOf in *. by destruct (evCall a).
Qed.

(** The upload of the medium variant of page 1 fails. *)
Lemma upload_failure_aborts_witness :
  let run := handler "" "editions"
               (scriptedEnv twoPageListing (uploadFailsAt "ed1/pages/medium/001.webp"))
               sampleRequest [] in
  (∃ message, run.1 = {| status := 500; payload := Failure message |})
  ∧ Forall (λ e, isManifestUpload e = false) run.2.
Proof.
  intros run.
  destruct (upload_failure_aborts "" "editions"
              (scriptedEnv twoPageListing (uploadFailsAt "ed1/pages/medium/001.webp"))
              sampleRequest run.1 run.2 (surjective_pairing run)) as [Hfail _].
  apply Hfail.
  exists {| evCall := StorageUpload (clientFor sampleRequest) "editions"
                        "ed1/pages/medium/001.webp" (BodyImage []);
            evResult := Ok (Some "storage unavailable") |}.
  split; [|split; reflexivity].
  vm_compute. do 10 apply list_elem_of_further. apply list_elem_of_here.
Defined.

(** ** The success response (server.js, lines 153-197, 223-231) *)

(** C3.  A success response comes from a run whose directory listing held
    P page files, P > 0; with V configured variants its [pages] array has P
    entries, [totalPages] is P, and [uploads] has P * (V + 1) entries, which
    are the paths of the asset uploads of the run, in order.  The manifest is
    uploaded once, separately, at [manifestPath], which is not an element of
    [uploads]. *)
Theorem success_counts SERVICE_SECRET DEFAULT_BUCKET env req response tr
    editionId bucket manifestPath totalPages pages uploads :
  handler SERVICE_SECRET DEFAULT_BUCKET env req [] = (response, tr) →
  payload response = Success editionId bucket manifestPath totalPages pages uploads →
  ∃ files,
    (∃ l, l ∈ tr ∧ listingOf l = Some files)
    ∧ 0 < length (pageFilesOf files)
    ∧ length pages = length (pageFilesOf files)
    ∧ totalPages = length (pageFilesOf files)
    ∧ length uploads = length (pageFilesOf files) * (length (variantsFor req) + 1)
    ∧ (manifestPath ∉ uploads)
    ∧ omap uploadPathOf (filter (λ e, isAssetUpload e = true) tr) = uploads
    ∧ omap uploadPathOf (filter (λ e, isManifestUpload e = true) tr) = [manifestPath].
Proof.
  intros Hrun%handler_Run Hpayload.
  assert (Hstatus : status response = 200) by (destruct Hrun; simplify_eq/=; done).
  destruct (Run_completed _ _ _ _ _ _ Hrun Hstatus) as
    (tempRoot & pdfPath & files & evs & pages' & uploads' & generated & removal
     & -> & -> & Hsome & Hdone & _).
  simpl in Hpayload. simplify_eq.
  destruct (uploads_of_completed DEFAULT_BUCKET env req tempRoot pdfPath files evs
              pages uploads generated removal Hdone) as (Hassets & Hmanifest & _).
  destruct Hdone as (_ & _ & _ & Huploads & _ & Hentries).
  apply Forall2_length in Hentries. rewrite length_seq, length_orderPageFiles in Hentries.
  fold (pageFilesOf files) in Hentries.
  exists files. split_and!.
  - exists {| evCall := Readdir (pathJoin tempRoot "png"); evResult := Ok files |}.
    split; [|done]. apply elem_of_app. left. unfold setupEvents.
    do 4 apply list_elem_of_further. apply list_elem_of_here.
  - destruct (pageFilesOf files); [done|simpl; lia].
  - done.
  - done.
  - rewrite Huploads, length_pathsOfPages, length_orderPageFiles. done.
  - rewrite Huploads. apply manifest_not_in_pathsOfPages.
  - exact Hassets.
  - exact Hmanifest.
Qed.

(** Two pages, the three default variants and the thumbnail: 8 uploads. *)
Lemma success_counts_witness :
  ∃ files,
    (∃ l, l ∈ (handler "" "editions" (scriptedEnv twoPageListing neverFails)
                 sampleRequest []).2 ∧ listingOf l = Some files)
    ∧ 0 < length (pageFilesOf files)
    ∧ 2 = length (pageFilesOf files)
    ∧ 2 = length (pageFilesOf files)
    ∧ 8 = length (pageFilesOf files) * (length (variantsFor sampleRequest) + 1)
    ∧ ("ed1/manifest.json" ∉ pathsOfPages "ed1" VARIANTS THUMBNAIL_VARIANT 0 2)
    ∧ omap uploadPathOf
        (filter (λ e, isAssetUpload e = true)
           (handler "" "editions" (scriptedEnv twoPageListing neverFails) sampleRequest []).2)
      = pathsOfPages "ed1" VARIANTS THUMBNAIL_VARIANT 0 2
    ∧ omap uploadPathOf
        (filter (λ e, isManifestUpload e = true)
           (handler "" "editions" (scriptedEnv twoPageListing neverFails) sampleRequest []).2)
      = ["ed1/manifest.json"].
Proof.
  pose (run := handler "" "editions" (scriptedEnv twoPageListing neverFails) sampleRequest []).
  destruct (payload run.1) as [|e b m t p u] eqn:Hpayload; [vm_compute in Hpayload; discriminate|].
  pose proof (success_counts "" "editions" (scriptedEnv twoPageListing neverFails)
                sampleRequest run.1 run.2 e b m t p u (surjective_pairing run) Hpayload)
    as Hcounts.
  vm_compute in Hpayload. injection Hpayload as <- <- <- <- <- <-.
  exact Hcounts.
Defined.

(** ** Storage paths (server.js, lines 36-39, 181, 218) *)

(** C2.  For two runs of the same request, in any two worlds:
    - the path built for an edition, a key and a page number is the string
      [{editionId}/pages/{key}/{page number zero-padded to 3 digits}.webp];
    - every upload of a run is either an image sent to such a path, for one
      of the configured variant keys or the thumbnail key and a page number
      from 1 on, or the manifest sent to [{editionId}/manifest.json];
    - a run answered 200 uploads exactly the paths of the convention, for
      every page and every key, then the manifest path;
    - hence two runs answered 200 over the same number of page files upload
      the same paths and report the same [uploads] and [manifestPath]. *)
Theorem storage_paths_deterministic SERVICE_SECRET DEFAULT_BUCKET req
    env1 env2 response1 tr1 response2 tr2 :
  handler SERVICE_SECRET DEFAULT_BUCKET env1 req [] = (response1, tr1) →
  handler SERVICE_SECRET DEFAULT_BUCKET env2 req [] = (response2, tr2) →
  let editionId := editionIdFor req in
  let keys := assetKeys (variantsFor req) (thumbnailFor req) in
  (∀ key n, buildStoragePath editionId key n = specPagePath editionId key n)
  ∧ (∀ e p, e ∈ tr1 → uploadPathOf e = Some p →
       (isManifestUpload e = true ∧ p = specManifestPath editionId)
       ∨ (isAssetUpload e = true
          ∧ ∃ key n, key ∈ keys ∧ 1 ≤ n ∧ p = specPagePath editionId key n))
  ∧ (status response1 = 200 →
       ∀ files, (∃ l, l ∈ tr1 ∧ listingOf l = Some files) →
       omap uploadPathOf tr1 = specUploadPaths editionId keys (length (pageFilesOf files))
       ∧ uploadsOf response1 ++ [specManifestPath editionId] = omap uploadPathOf tr1
       ∧ manifestPathOf response1 = Some (specManifestPath editionId))
  ∧ (status response1 = 200 → status response2 = 200 →
       ∀ files1 files2,
         (∃ l, l ∈ tr1 ∧ listingOf l = Some files1) →
         (∃ l, l ∈ tr2 ∧ listingOf l = Some files2) →
         length (pageFilesOf files1) = length (pageFilesOf files2) →
         omap uploadPathOf tr1 = omap uploadPathOf tr2
         ∧ uploadsOf response1 = uploadsOf response2
         ∧ manifestPathOf response1 = manifestPathOf response2).
Proof.
  intros Hrun1%handler_Run Hrun2%handler_Run editionId keys.
  assert (Hsuccess : ∀ env response tr files,
    Run SERVICE_SECRET DEFAULT_BUCKET env req response tr →
    status response = 200 →
    (∃ l, l ∈ tr ∧ listingOf l = Some files) →
    omap uploadPathOf tr = specUploadPaths editionId keys (length (pageFilesOf files))
    ∧ uploadsOf response ++ [specManifestPath editionId] = omap uploadPathOf tr
    ∧ manifestPathOf response = Some (specManifestPath editionId)).
  { intros env response tr files Hrun Hstatus (l & Hl & Hls).
    destruct (Run_completed _ _ _ _ _ _ Hrun Hstatus) as
      (tempRoot & pdfPath & files' & evs & pages & uploads & generated & removal
       & -> & -> & _ & Hdone & Hunique).
    apply Hunique in Hls; [|done]. subst files'.
    destruct (uploads_of_completed DEFAULT_BUCKET env req tempRoot pdfPath files evs
                pages uploads generated removal Hdone) as (_ & _ & Hall).
    destruct Hdone as (_ & _ & _ & Huploads & _).
    rewrite Hall. split_and!; [|done..].
    rewrite Huploads, pathsOfPages_spec, length_orderPageFiles. done. }
  split_and!.
  - intros key n. apply buildStoragePath_specPagePath.
  - intros e p He Hp.
    destruct (Run_upload_shape _ _ _ _ _ _ _ _ Hrun1 He Hp)
      as [[Hm ->]|(Ha & key & n & Hk & Hn & ->)]; [by left|].
    right. split; [done|]. exists key, n. split_and!; [done..|].
    apply buildStoragePath_specPagePath.
  - intros Hstatus files Hfiles. by eapply Hsuccess.
  - intros Hs1 Hs2 files1 files2 Hf1 Hf2 Hlen.
    destruct (Hsuccess _ _ _ _ Hrun1 Hs1 Hf1) as (Hp1 & Hu1 & Hm1).
    destruct (Hsuccess _ _ _ _ Hrun2 Hs2 Hf2) as (Hp2 & Hu2 & Hm2).
    split_and!.
    + by rewrite Hp1, Hp2, Hlen.
    + apply (app_inv_tail [specManifestPath editionId]).
      by rewrite Hu1, Hu2, Hp1, Hp2, Hlen.
    + by rewrite Hm1, Hm2.
Qed.

(** The same request in two worlds that list the pages in different orders. *)
Lemma storage_paths_deterministic_witness :
  let run1 := handler "" "editions" (scriptedEnv twoPageListing neverFails)
                sampleRequest [] in
  let run2 := handler "" "editions" (scriptedEnv twoPageListingInOrder neverFails)
                sampleRequest [] in
  omap uploadPathOf run1.2 = omap uploadPathOf run2.2
  ∧ uploadsOf run1.1 = uploadsOf run2.1
  ∧ manifestPathOf run1.1 = manifestPathOf run2.1.
Proof.
  intros run1 run2.
  destruct (storage_paths_deterministic "" "editions" sampleRequest
              (scriptedEnv twoPageListing neverFails)
              (scriptedEnv twoPageListingInOrder neverFails)
              run1.1 run1.2 run2.1 run2.2
              (surjective_pairing run1) (surjective_pairing run2))
    as (_ & _ & _ & Hsame).
  apply (Hsame eq_refl eq_refl twoPageListing twoPageListingInOrder).
  - exists {| evCall := Readdir "/tmp/pdf-conversion-Ab12Cd/png";
              evResult := Ok twoPageListing |}.
    split; [|reflexivity].
    vm_compute. do 4 apply list_elem_of_further. apply list_elem_of_here.
  - exists {| evCall := Readdir "/tmp/pdf-conversion-Ab12Cd/png";
              evResult := Ok twoPageListingInOrder |}.
    split; [|reflexivity].
    vm_compute. do 4 apply list_elem_of_further. apply list_elem_of_here.
  - vm_compute. reflexivity.
Defined.

(** ** Page order (server.js, lines 63-71, 158-160) *)

Lemma Forall2_fmap_eq {A B C} (f : B → C) (g : A → C) (l : list A) (k : list B) :
  Forall2 (λ a b, f b = g a) l k → f <$> k = g <$> l.
Proof. induction 1 as [|a b l k Hab _ IH]; [done|]. rewrite !fmap_cons. by rewrite Hab, IH. Qed.

Lemma pageNumbers_of_loop env supabase bucket editionId variants thumbnail
    pngPages evs pages uploads :
  LoopDone env supabase bucket editionId variants thumbnail 0 pngPages evs pages uploads →
  pageNumber <$> pages = seq 1 (length pngPages).
Proof.
  intros (_ & _ & _ & _ & _ & Hentries).
  rewrite <- fmap_S_seq. apply Forall2_fmap_eq.
  eapply Forall2_impl; [exact Hentries|]. intros i entry [-> _]. simpl. lia.
Qed.

(** C5.  When the rasterizer adapter returns, its last call listed the
    output directory, and its result holds exactly the page files of that
    listing, joined to the directory, in ascending order of the number read
    in front of [".png"] (compared as numbers); the order is strictly
    ascending when no two page files carry the same number, as is the case
    for the files [pdftoppm] writes.  ["page-10.png"] therefore comes after
    ["page-9.png"].  The page loop reads these files in this order and
    numbers the pages 1, 2, ... by position. *)
Theorem pages_in_numeric_order env pdfPath outputDir dpi tr pngPages tr' :
  convertPdfToPng env pdfPath outputDir dpi tr = (Ok pngPages, tr') →
  ∃ files,
    (∃ before, tr' = before ++ [{| evCall := Readdir outputDir; evResult := Ok files |}])
    ∧ pngPages = orderPageFiles outputDir files
    ∧ pngPages ≡ₚ pathJoin outputDir <$> pageFilesOf files
    ∧ StronglySorted (λ a b, pageIndex a ≤ pageIndex b) pngPages
    ∧ (NoDup (pageIndex <$> pageFilesOf files) →
         StronglySorted (λ a b, pageIndex a < pageIndex b) pngPages)
    ∧ (∀ dir, orderPageFiles dir ["page-10.png"; "page-9.png"]
              = [pathJoin dir "page-9.png"; pathJoin dir "page-10.png"])
    ∧ (∀ supabase bucket editionId variants thumbnail tr1 pages uploads tr2,
         pageLoop env supabase bucket editionId variants thumbnail 0 pngPages [] [] tr1
           = (Ok (pages, uploads), tr2) →
         ∃ evs, tr2 = tr1 ++ evs
                ∧ omap readFileOf evs = pngPages
                ∧ pageNumber <$> pages = seq 1 (length pngPages)).
Proof.
  intros Hrun. apply convertPdfToPng_run in Hrun as [[[]|message] Hrun]; simpl in Hrun.
  2: { by destruct Hrun as [? _]. }
  destruct Hrun as ([files|message] & -> & Hr); [|done].
  injection Hr as ->. exists files. split_and!.
  - eexists (tr ++ [_]). by rewrite <- app_assoc.
  - done.
  - apply orderPageFiles_perm.
  - apply orderPageFiles_sorted.
  - apply orderPageFiles_strict.
  - intros dir. reflexivity.
  - intros supabase bucket editionId variants thumbnail tr1 pages uploads tr2 Hloop.
    apply pageLoop_run in Hloop as (evs & -> & _ & entries & Hpages & _ & Hdone).
    simpl in Hpages. subst pages. exists evs. split_and!; [done| |].
    + by destruct Hdone as (_ & _ & _ & _ & ? & _).
    + by eapply pageNumbers_of_loop.
Qed.

(** Pages 2, 9 and 10, listed out of order. *)
Lemma pages_in_numeric_order_witness :
  ∃ files,
    orderPageFiles "/t/png" mixedListing = orderPageFiles "/t/png" files
    ∧ StronglySorted (λ a b, pageIndex a ≤ pageIndex b)
        (orderPageFiles "/t/png" mixedListing).
Proof.
  destruct (pages_in_numeric_order (scriptedEnv mixedListing neverFails)
              "/t/a.pdf" "/t/png" 300 []
              (orderPageFiles "/t/png" mixedListing)
              (convertPdfToPng (scriptedEnv mixedListing neverFails)
                 "/t/a.pdf" "/t/png" 300 []).2)
    as (files & _ & Heq & _ & Hsorted & _).
  - vm_compute. reflexivity.
  - exists files. split; [exact Heq|exact Hsorted].
Defined.

(** ** Manifest summary fields (server.js, lines 207-215) *)

(** C6.  Take any manifest upload of a run and any page entry of that
    manifest, at position [i].  It describes page [i + 1], whose asset map
    holds, under each configured variant key and under the thumbnail key, the
    storage path of that key and page, and nothing else.  Its summary fields
    are read from this map: [lowResImagePath] is the path under ["low"], else
    the path under ["medium"] (else [undefined]); [mediumImagePath] and
    [highResImagePath] are the paths under ["medium"] and ["high"], else
    [null]; [thumbnailPath] is the path under the configured thumbnail key,
    else the path under ["low"], else [null].  The thumbnail key is always in
    the map, so [thumbnailPath] is the thumbnail's own path whatever the key
    is called; and when the keys omit ["low"] but include ["medium"],
    [lowResImagePath] equals [mediumImagePath]. *)
Theorem manifest_summary_fields SERVICE_SECRET DEFAULT_BUCKET env req response tr
    e client bucket storagePath manifest i summary :
  handler SERVICE_SECRET DEFAULT_BUCKET env req [] = (response, tr) →
  e ∈ tr →
  evCall e = StorageUpload client bucket storagePath (BodyManifest manifest) →
  manifestPagesOf manifest !! i = Some summary →
  let keys := assetKeys (variantsFor req) (thumbnailFor req) in
  let pathOf := λ key, buildStoragePath (editionIdFor req) key (i + 1) in
  let assetMap := pageAssets env (clientFor req) (bucketFor DEFAULT_BUCKET req)
                    (editionIdFor req) (variantsFor req) (thumbnailFor req) (i + 1) in
  mpPageNumber summary = i + 1
  ∧ (status response = 200 →
       ∃ entry, pagesOf response !! i = Some entry ∧ assets entry = assetMap)
  ∧ (∀ key, path <$> assetMap !! key = if decide (key ∈ keys) then Some (pathOf key) else None)
  ∧ lowResImagePath summary
    = match assetMap !! "low", assetMap !! "medium" with
      | Some low, _ => JStr (path low)
      | None, Some medium => JStr (path medium)
      | None, None => JUndefined
      end
  ∧ mediumImagePath summary
    = match assetMap !! "medium" with Some medium => JStr (path medium) | None => JNull end
  ∧ highResImagePath summary
    = match assetMap !! "high" with Some high => JStr (path high) | None => JNull end
  ∧ thumbnailPath summary
    = match assetMap !! vkey (thumbnailFor req), assetMap !! "low" with
      | Some thumb, _ => JStr (path thumb)
      | None, Some low => JStr (path low)
      | None, None => JNull
      end
  ∧ thumbnailPath summary = JStr (pathOf (vkey (thumbnailFor req)))
  ∧ ("low" ∉ keys → "medium" ∈ keys →
       lowResImagePath summary = JStr (pathOf "medium")
       ∧ mediumImagePath summary = JStr (pathOf "medium")).
Proof.
  intros Hrun%handler_Run He Hcall Hsummary keys pathOf assetMap.
  destruct (list_elem_of_split _ _ He) as (pre & post & Hsplit).
  assert (Hm : isManifestUpload e = true) by (unfold isManifestUpload; by rewrite Hcall).
  destruct (Run_manifest_event _ _ _ _ _ _ _ _ _ Hrun Hsplit Hm) as
    (tempRoot & pdfPath & files & evs & pages & uploads & generated & result
     & -> & -> & _ & Hdone & Hok).
  simpl in Hcall. injection Hcall as <- <- <- <-.
  unfold manifestFor, buildManifest in Hsummary. simpl in Hsummary.
  apply list_lookup_fmap_Some in Hsummary as (entry & -> & Hentry).
  destruct Hdone as (_ & _ & _ & _ & _ & Hentries).
  destruct (Forall2_lookup_r _ _ _ _ _ Hentries Hentry) as (i' & Hi' & Hnum & Hassets).
  apply lookup_seq in Hi' as [-> _]. simpl in Hnum, Hassets.
  fold assetMap in Hassets.
  assert (Hlookup : ∀ key,
    assetMap !! key
    = if decide (key ∈ keys)
      then Some (assetAt env (clientFor req) (bucketFor DEFAULT_BUCKET req)
                   (editionIdFor req) (i + 1) key)
      else None) by (intros key; apply lookup_pageAssets).
  assert (Hthumb : vkey (thumbnailFor req) ∈ keys) by apply thumbnail_key_in.
  unfold summarizePage. simpl. rewrite Hassets.
  split_and!.
  - done.
  - intros Hstatus. exists entry. split; [|done].
    rewrite Hok by done. done.
  - intros key. rewrite Hlookup. by case_decide.
  - by destruct (assetMap !! "low"), (assetMap !! "medium").
  - by destruct (assetMap !! "medium").
  - by destruct (assetMap !! "high").
  - by destruct (assetMap !! vkey (thumbnailFor req)), (assetMap !! "low").
  - rewrite Hlookup, decide_True by done. done.
  - intros Hnolow Hmedium.
    rewrite !Hlookup, decide_False, decide_True by done. done.
Qed.

(** Page 1 of a request without ["low"] and with the thumbnail key ["tiny"]. *)
Lemma manifest_summary_fields_witness :
  ∃ summary,
    lowResImagePath summary = JStr "ed1/pages/medium/001.webp"
    ∧ mediumImagePath summary = JStr "ed1/pages/medium/001.webp"
    ∧ thumbnailPath summary = JStr "ed1/pages/tiny/001.webp".
Proof.
  pose (env := scriptedEnv twoPageListing neverFails).
  pose (run := handler "" "editions" env customRequest []).
  pose (manifest := manifestFor "editions" customRequest
                      "2024-01-01T00:00:00.000Z" (pagesOf run.1)).
  pose (e := {| evCall := StorageUpload (clientFor customRequest) "editions"
                            "ed1/manifest.json" (BodyManifest manifest);
                evResult := Ok None |}).
  destruct (manifestPagesOf manifest !! 0) as [summary|] eqn:Hsummary;
    [|vm_compute in Hsummary; discriminate].
  exists summary.
  destruct (manifest_summary_fields "" "editions" env customRequest run.1 run.2
              e (clientFor customRequest) "editions" "ed1/manifest.json" manifest
              0 summary (surjective_pairing run))
    as (_ & _ & _ & _ & _ & _ & _ & Hthumb & Hlow).
  - vm_compute. do 21 apply list_elem_of_further. apply list_elem_of_here.
  - reflexivity.
  - exact Hsummary.
  - destruct Hlow as [Hlow Hmedium].
    + apply (bool_decide_unpack _). vm_compute. exact I.
    + apply (bool_decide_unpack _). vm_compute. exact I.
    + split_and!; [exact Hlow|exact Hmedium|exact Hthumb].
Defined.

(** * Further properties of the helpers *)

(** ** [padNumber] (server.js, line 36) *)

Lemma chars_repeatChar c k : chars (repeatChar c k) = replicate k c.
Proof. induction k as [|k IH]; [done|]. unfold chars in *. simpl. by rewrite IH. Qed.

Lemma length_chars s : length (chars s) = String.length s.
Proof. induction s as [|c s IH]; [done|]. unfold chars in *. simpl. by rewrite IH. Qed.

Lemma isDigit_digitChar d : d < 10 → isDigit (digitChar d) = true.
Proof.
  intros Hd. unfold isDigit, digitChar. rewrite nat_ascii_embedding by lia.
  apply andb_true_intro. split; apply Nat.leb_le; lia.
Qed.

Lemma numberToString_digits n : Forall (λ c, isDigit c = true) (chars (numberToString n)).
Proof.
  induction (lt_wf n) as [n _ IH].
  pose proof (div10_facts n) as [Hdiv Hmod].
  destruct (decide (n < 10)) as [Hlt|Hge].
  - rewrite numberToString_small by done. repeat constructor. by apply isDigit_digitChar.
  - rewrite numberToString_step, chars_app by lia. apply Forall_app. split.
    + apply IH. lia.
    + repeat constructor. by apply isDigit_digitChar.
Qed.

Lemma fold_left_leading_zeros k l :
  fold_left (λ acc c, 10 * acc + digitValue c) (replicate k "0"%char ++ l) 0
  = fold_left (λ acc c, 10 * acc + digitValue c) l 0.
Proof. induction k as [|k IH]; [done|]. simpl. exact IH. Qed.

Lemma parseDigits_padNumber n size : parseDigits (padNumber n size) = n.
Proof.
  unfold padNumber, padStart, parseDigits.
  rewrite chars_app, chars_repeatChar, fold_left_leading_zeros.
  apply parseDigits_numberToString.
Qed.

Lemma length_padNumber n size :
  String.length (padNumber n size) = Nat.max size (String.length (numberToString n)).
Proof.
  unfold padNumber, padStart.
  rewrite length_app_string, <- (length_chars (repeatChar _ _)), chars_repeatChar,
    length_replicate. lia.
Qed.

Lemma padNumber_digits n size :
  Forall (λ c, isDigit c = true) (chars (padNumber n size)).
Proof.
  unfold padNumber, padStart.
  rewrite chars_app, chars_repeatChar. apply Forall_app. split.
  - by apply Forall_replicate.
  - apply numberToString_digits.
Qed.

(** X1.  For every number and every width, [padNumber] yields a string of
    decimal digits, at least [size] long and exactly as long as the longer of
    [size] and the number's own digits, from which [parseInt] reads the
    number back: padding never truncates and never changes the value. *)
Theorem padNumber_round_trip n size :
  parseDigits (padNumber n size) = n
  ∧ String.length (padNumber n size) = Nat.max size (String.length (numberToString n))
  ∧ Forall (λ c, isDigit c = true) (chars (padNumber n size)).
Proof.
  split_and!.
  - apply parseDigits_padNumber.
  - apply length_padNumber.
  - apply padNumber_digits.
Qed.

(** ** [buildStoragePath] (server.js, lines 38-39) *)

Lemma split_at_last {A} (x : A) l1 r1 l2 r2 :
  l1 ++ x :: r1 = l2 ++ x :: r2 → x ∉ r1 → x ∉ r2 → l1 = l2 ∧ r1 = r2.
Proof.
  revert l2. induction l1 as [|a l1 IH]; intros l2 Heq Hr1 Hr2.
  - destruct l2 as [|b l2]; simplify_eq/=; [done|].
    exfalso. apply Hr1. apply elem_of_app. right. by left.
  - destruct l2 as [|b l2]; simplify_eq/=.
    + exfalso. apply Hr2. apply elem_of_app. right. by left.
    + destruct (IH l2) as [-> ->]; done.
Qed.

Lemma slash_not_in_page_name n :
  "/"%char ∉ chars (padNumber n 3 +:+ ".webp").
Proof.
  rewrite chars_app. intros [Hin|Hin]%elem_of_app.
  - pose proof (padNumber_digits n 3) as Hdigits.
    rewrite Forall_forall in Hdigits. specialize (Hdigits _ Hin). done.
  - change (chars ".webp") with ["."; "w"; "e"; "b"; "p"]%char in Hin.
    repeat (apply elem_of_cons in Hin as [Hin|Hin]; [done|]).
    by apply elem_of_nil in Hin.
Qed.

(** The key and the page number can be read back from a storage path. *)
Lemma storage_path_inv editionId key1 page1 key2 page2 :
  buildStoragePath editionId key1 page1 = buildStoragePath editionId key2 page2 →
  key1 = key2 ∧ page1 = page2.
Proof.
  unfold buildStoragePath. intros Heq.
  apply (inj (String.app editionId)) in Heq.
  apply (inj (String.app "/pages/")) in Heq.
  apply (f_equal chars) in Heq. rewrite !(chars_app key1), !(chars_app key2) in Heq.
  rewrite !(chars_app "/") in Heq. change (chars "/") with ["/"%char] in Heq.
  simpl in Heq.
  apply split_at_last in Heq as [Hkey Hrest]; try apply slash_not_in_page_name.
  split; [by apply chars_inj|].
  rewrite !chars_app in Hrest.
  apply app_inv_tail in Hrest. apply chars_inj in Hrest.
  rewrite <- (parseDigits_padNumber page1 3), <- (parseDigits_padNumber page2 3).
  by rewrite Hrest.
Qed.

(** X2.  Within an edition, two storage paths are equal only for the same
    variant key and the same page number: no two (key, page) pairs share an
    object, whatever characters the key contains. *)
Theorem buildStoragePath_inj editionId key1 page1 key2 page2 :
  buildStoragePath editionId key1 page1 = buildStoragePath editionId key2 page2 →
  key1 = key2 ∧ page1 = page2.
Proof. apply storage_path_inv. Qed.

Lemma buildStoragePath_inj_witness :
  "low" = "low" ∧ 7 = 7.
Proof.
  apply (buildStoragePath_inj "ed1" "low" 7 "low" 7). reflexivity.
Defined.

(** ** [ensureTrailingSlash] (server.js, line 34) *)

Lemma endsWith_app_self s t : endsWith (s +:+ t) t = true.
Proof.
  unfold endsWith. apply bool_decide_eq_true. rewrite chars_app.
  by apply suffix_app_r.
Qed.

Lemma endsWith_ensureTrailingSlash value :
  endsWith (ensureTrailingSlash value) "/" = true.
Proof.
  unfold ensureTrailingSlash. destruct (endsWith value "/") eqn:He; [done|].
  apply endsWith_app_self.
Qed.

(** X3.  [ensureTrailingSlash] always returns a string that ends in ["/"];
    it returns its argument unchanged when that already ends in ["/"] and
    appends exactly one ["/"] otherwise, so applying it twice is the same as
    applying it once. *)
Theorem ensureTrailingSlash_spec value :
  endsWith (ensureTrailingSlash value) "/" = true
  ∧ (ensureTrailingSlash value
     = if endsWith value "/" then value else value +:+ "/")
  ∧ ensureTrailingSlash (ensureTrailingSlash value) = ensureTrailingSlash value.
Proof.
  pose proof (endsWith_ensureTrailingSlash value) as Hends.
  split_and!; [done|done|].
  unfold ensureTrailingSlash at 1. by rewrite Hends.
Qed.

(** ** The order of the page files (server.js, lines 63-71) *)

Lemma takeWhile_all {A} (p : A → bool) l x r :
  Forall (λ a, p a = true) l → p x = false → takeWhile p (l ++ x :: r) = l.
Proof.
  intros Hall Hx. induction Hall as [|a l Ha _ IH]; simpl.
  - by rewrite Hx.
  - by rewrite Ha, IH.
Qed.

Lemma chars_string_of_list l : chars (string_of_list_ascii l) = l.
Proof. apply list_ascii_of_string_of_list_ascii. Qed.

Lemma chars_pdftoppmName digits n :
  chars (pdftoppmName digits n)
  = chars "page-" ++ chars (padNumber n digits) ++ chars ".png".
Proof. unfold pdftoppmName. by rewrite !chars_app. Qed.

Lemma isPageFile_pdftoppmName digits n : isPageFile (pdftoppmName digits n) = true.
Proof.
  unfold isPageFile, startsWith, endsWith. apply andb_true_intro.
  rewrite chars_pdftoppmName. split; apply bool_decide_eq_true.
  - change (chars "page-") with (chars "page" ++ ["-"%char]).
    rewrite <- app_assoc. by apply prefix_app_r.
  - rewrite app_assoc. by apply suffix_app_r.
Qed.

(** The index read from a name written by [pdftoppm] is its page number. *)
Lemma pageIndex_pdftoppmName digits n : pageIndex (pdftoppmName digits n) = n.
Proof.
  pose proof (parseDigits_padNumber n digits) as Hparse.
  pose proof (padNumber_digits n digits) as Hdigits.
  pose proof (length_padNumber n digits) as Hlen.
  unfold pageIndex, matchPageDigits. rewrite chars_pdftoppmName.
  change (chars "page-") with ["p"; "a"; "g"; "e"; "-"]%char.
  change (chars ".png") with ["."; "p"; "n"; "g"]%char.
  rewrite !reverse_app.
  change (reverse ["."; "p"; "n"; "g"]%char) with ["g"; "n"; "p"; "."]%char.
  change (reverse ["p"; "a"; "g"; "e"; "-"]%char) with ["-"; "e"; "g"; "a"; "p"]%char.
  simpl.
  rewrite (takeWhile_all isDigit (reverse (chars (padNumber n digits))) "-"%char);
    [|by apply Forall_reverse|done].
  destruct (reverse (chars (padNumber n digits))) as [|c l] eqn:Hrev.
  - apply (f_equal length) in Hrev. rewrite length_reverse, length_chars in Hrev.
    pose proof (length_numberToString_pos n). simpl in Hrev. lia.
  - rewrite <- Hrev, reverse_involutive. simpl.
    unfold parseDigits in *. by rewrite chars_string_of_list.
Qed.

Lemma filter_page_files names others :
  Forall (λ f, isPageFile f = true) names →
  Forall (λ f, isPageFile f = false) others →
  ∀ files, files ≡ₚ names ++ others →
  filter (λ f, isPageFile f = true) files ≡ₚ names.
Proof.
  intros Hnames Hothers files ->. rewrite filter_app.
  rewrite (filter_all isPageFile names Hnames), (filter_none isPageFile others Hothers).
  by rewrite app_nil_r.
Qed.

Lemma seq_sorted_by_index digits start count :
  StronglySorted (λ a b, pageIndex a < pageIndex b)
    (pdftoppmName digits <$> seq start count).
Proof.
  revert start. induction count as [|count IH]; intros start; [constructor|].
  simpl. constructor; [apply IH|].
  apply Forall_fmap, Forall_forall. intros n Hn%elem_of_seq. simpl.
  rewrite !pageIndex_pdftoppmName. lia.
Qed.

Lemma indices_of_pdftoppm_names digits (l : list nat) :
  pageIndex <$> (pdftoppmName digits <$> l) = l.
Proof.
  induction l as [|n l IH]; [done|].
  rewrite !fmap_cons, IH. by rewrite pageIndex_pdftoppmName.
Qed.

(** X4.  If the output directory holds the files [pdftoppm] writes for a
    document of [count] pages, in any order and possibly among entries that
    are not page files, the adapter returns exactly these files in page
    order: the file at position [i] (numbered [i + 1] by the page loop) is the
    image of page [i + 1]. *)
Theorem pdftoppm_pages_in_page_order dir digits count files others :
  files ≡ₚ (pdftoppmName digits <$> seq 1 count) ++ others →
  Forall (λ f, isPageFile f = false) others →
  orderPageFiles dir files = pathJoin dir <$> (pdftoppmName digits <$> seq 1 count)
  ∧ ∀ i, i < count →
         orderPageFiles dir files !! i = Some (pathJoin dir (pdftoppmName digits (i + 1))).
Proof.
  intros Hfiles Hothers.
  assert (Hnames : Forall (λ f, isPageFile f = true) (pdftoppmName digits <$> seq 1 count)).
  { apply Forall_fmap, Forall_forall. intros n _. apply isPageFile_pdftoppmName. }
  pose proof (filter_page_files _ _ Hnames Hothers files Hfiles) as Hperm.
  assert (Heq : jsSort comparePages (filter (λ f, isPageFile f = true) files)
                = pdftoppmName digits <$> seq 1 count).
  { apply (StronglySorted_unique_strong (λ a b, pageIndex a < pageIndex b)).
    - intros x1 x2 _ _ H1 H2. lia.
    - apply (jsSort_strict comparePages pageIndex comparePages_key).
      rewrite Hperm, indices_of_pdftoppm_names. apply NoDup_seq.
    - apply seq_sorted_by_index.
    - by rewrite (jsSort_perm comparePages). }
  unfold orderPageFiles. rewrite Heq. split; [done|].
  intros i Hi. rewrite !list_lookup_fmap.
  rewrite (proj2 (lookup_seq 1 count i (1 + i))) by (split; [done|lia]).
  simpl. by replace (i + 1) with (S i) by lia.
Qed.

(** Three pages listed out of order next to a stray file. *)
Lemma pdftoppm_pages_in_page_order_witness :
  orderPageFiles "/t/png" threePageListing
  = pathJoin "/t/png" <$> (pdftoppmName 1 <$> seq 1 3)
  ∧ ∀ i, i < 3 →
         orderPageFiles "/t/png" threePageListing !! i
         = Some (pathJoin "/t/png" (pdftoppmName 1 (i + 1))).
Proof.
  apply (pdftoppm_pages_in_page_order "/t/png" 1 3 threePageListing ["notes.txt"]).
  - vm_compute. apply perm_swap.
  - repeat constructor.
Defined.

(** X5.  The sort is stable: page files whose names carry the same index
    keep the order the directory listing gave them. *)
Theorem equal_index_keeps_listing_order dir files index :
  filter (λ f, pageIndex f = index) (orderPageFiles dir files)
  = pathJoin dir <$>
      filter (λ f, pageIndex f = index) (filter (λ f, isPageFile f = true) files).
Proof.
  assert (Hinsert : ∀ x l,
    filter (λ f, pageIndex f = index) (sortInsert comparePages x l)
    = filter (λ f, pageIndex f = index) (x :: l)).
  { intros x l. induction l as [|y l IH]; [done|]. simpl.
    destruct (Z.leb_spec (comparePages x y) 0) as [Hle|Hgt]; [done|].
    unfold comparePages in Hgt.
    destruct (decide (pageIndex x = index)) as [Hx|Hx].
    - rewrite (filter_cons_False _ y) by lia.
      rewrite IH. rewrite (filter_cons_True _ x) by done.
      rewrite (filter_cons_True _ x) by done.
      by rewrite (filter_cons_False _ y) by lia.
    - rewrite (filter_cons_False _ x (y :: l)) by done.
      rewrite !(filter_cons _ y). rewrite IH.
      by rewrite (filter_cons_False _ x) by done. }
  assert (Hsort : ∀ l,
    filter (λ f, pageIndex f = index) (jsSort comparePages l)
    = filter (λ f, pageIndex f = index) l).
  { induction l as [|x l IH]; [done|]. simpl. rewrite Hinsert.
    rewrite !(filter_cons _ x). by rewrite IH. }
  unfold orderPageFiles.
  pose proof (sorted_names_pageFiles files) as Hpage.
  rewrite <- (Hsort (filter (λ f, isPageFile f = true) files)).
  set (sorted := jsSort comparePages (filter (λ f, isPageFile f = true) files)) in *.
  clearbody sorted.
  induction Hpage as [|f l Hf _ IH]; [done|].
  rewrite fmap_cons, !filter_cons, pageIndex_pathJoin by done.
  destruct (decide (pageIndex f = index)); [by rewrite fmap_cons, IH|done].
Qed.

(** * Further properties of the handler *)

(** ** Failures stop the run at once *)

Section FailFast.

Context (env : Env) (supabase : Supabase) (bucket editionId : string).

Lemma FailedAt_single failed message :
  evOk failed = false → reportedError failed = Some message →
  FailedAt [failed] message.
Proof. intros Hok Hmsg. by exists [], failed. Qed.

Lemma FailedAt_app ok new message :
  Forall (λ e, evOk e = true) ok → FailedAt new message → FailedAt (ok ++ new) message.
Proof.
  intros Hok (before & failed & -> & Hbefore & Hfailed & Hmsg).
  exists (ok ++ before), failed. rewrite app_assoc.
  split_and!; [done| |done..]. by apply Forall_app.
Qed.

Lemma uploadBuffer_thrown storagePath body tr message tr' :
  uploadBuffer env supabase bucket storagePath body tr = (Thrown message, tr') →
  ∃ failed, tr' = tr ++ [failed] ∧ evOk failed = false
            ∧ reportedError failed = Some message.
Proof.
  unfold uploadBuffer, mbind, M_bind, bind, perform, throw, ret. intros H.
  exists {| evCall := StorageUpload supabase bucket storagePath body;
            evResult := answer env tr (StorageUpload supabase bucket storagePath body) |}.
  unfold evOk, reportedError. simpl.
  destruct (answer env tr (StorageUpload supabase bucket storagePath body))
    as [[m|]|m]; by simplify_eq.
Qed.

Lemma cloneSharpForVariant_thrown input metadata config tr message tr' :
  cloneSharpForVariant env input metadata config tr = (Thrown message, tr') →
  ∃ failed, tr' = tr ++ [failed] ∧ evOk failed = false
            ∧ reportedError failed = Some message.
Proof.
  intros H. apply cloneSharpForVariant_run in H as ->. by eexists.
Qed.

Lemma variantLoop_thrown pageNumber pngBuffer metadata :
  ∀ variants variantUploads uploads tr message tr',
    variantLoop env supabase bucket editionId pageNumber pngBuffer metadata
      variants variantUploads uploads tr = (Thrown message, tr') →
    ∃ new, tr' = tr ++ new ∧ FailedAt new message.
Proof.
  induction variants as [|variant rest IH];
    intros variantUploads uploads tr message tr' Hrun.
  - by apply ret_run in Hrun as [? _].
  - simpl in Hrun.
    apply bind_run in Hrun as [(buffer & tr1 & Hclone & Hrun) | (msg & Hclone & Hmsg)].
    2: { simplify_eq. apply cloneSharpForVariant_thrown in Hclone as (failed & -> & ? & ?).
         exists [failed]. split; [done|]. by apply FailedAt_single. }
    apply cloneSharpForVariant_run in Hclone as ->.
    apply bind_run in Hrun as [([] & tr2 & Hup & Hrun) | (msg & Hup & Hmsg)].
    2: { simplify_eq. apply uploadBuffer_thrown in Hup as (failed & -> & ? & ?).
         eexists (_ :: [failed]). rewrite <- app_assoc. split; [done|].
         apply (FailedAt_app [_]); [each_event|]. by apply FailedAt_single. }
    apply uploadBuffer_run in Hup as (result & -> & ->).
    apply IH in Hrun as (new & -> & Hfailed).
    eexists (_ :: _ :: new). rewrite <- !app_assoc. split; [done|].
    apply (FailedAt_app [_; _]); [each_event|done].
Qed.

Lemma processPage_thrown variants thumbnail index pngPath uploads tr message tr' :
  processPage env supabase bucket editionId variants thumbnail index pngPath uploads tr
    = (Thrown message, tr') →
  ∃ new, tr' = tr ++ new ∧ FailedAt new message.
Proof.
  unfold processPage. intros Hrun.
  step_perform Hrun read. destruct read as [pngBuffer|msg].
  2: { destruct Hrun as [[= ->] ->]. eexists [_]. split; [done|]. by apply FailedAt_single. }
  step_perform Hrun meta. destruct meta as [metadata|msg].
  2: { destruct Hrun as [[= ->] ->]. eexists [_; _]. rewrite <- app_assoc. split; [done|].
       apply (FailedAt_app [_]); [each_event|]. by apply FailedAt_single. }
  apply bind_run in Hrun as [([variantUploads uploads1] & tr1 & Hloop & Hrun) | (msg & Hloop & Hmsg)].
  2: { simplify_eq. apply variantLoop_thrown in Hloop as (new & -> & Hfailed).
       eexists (_ :: _ :: new). rewrite <- !app_assoc. split; [done|].
       apply (FailedAt_app [_; _]); [each_event|done]. }
  apply (variantLoop_run env supabase bucket editionId (assetKeys variants thumbnail)
           index (index + 1)) in Hloop as (evs & -> & _ & _ & Hok & _);
    [|lia|by intros v Hv; apply variant_key_in].
  apply bind_run in Hrun as [(thumbBuffer & tr2 & Hclone & Hrun) | (msg & Hclone & Hmsg)].
  2: { simplify_eq. apply cloneSharpForVariant_thrown in Hclone as (failed & -> & ? & ?).
       eexists (_ :: _ :: evs ++ [failed]). rewrite <- !app_assoc. split; [done|].
       apply (FailedAt_app [_; _]); [each_event|].
       apply FailedAt_app; [done|]. by apply FailedAt_single. }
  apply cloneSharpForVariant_run in Hclone as ->.
  apply bind_run in Hrun as [([] & tr3 & Hup & Hrun) | (msg & Hup & Hmsg)].
  2: { simplify_eq. apply uploadBuffer_thrown in Hup as (failed & -> & ? & ?).
       eexists (_ :: _ :: evs ++ _ :: [failed]). rewrite <- !app_assoc. split; [done|].
       apply (FailedAt_app [_; _]); [each_event|].
       apply FailedAt_app; [done|].
       apply (FailedAt_app [_]); [each_event|]. by apply FailedAt_single. }
  by apply ret_run in Hrun as [? _].
Qed.

Lemma pageLoop_thrown variants thumbnail :
  ∀ pngPages index manifestPages uploads tr message tr',
    pageLoop env supabase bucket editionId variants thumbnail index pngPages
      manifestPages uploads tr = (Thrown message, tr') →
    ∃ new, tr' = tr ++ new ∧ FailedAt new message.
Proof.
  induction pngPages as [|pngPath rest IH];
    intros index manifestPages uploads tr message tr' Hrun.
  - by apply ret_run in Hrun as [? _].
  - simpl in Hrun.
    apply bind_run in Hrun as [([entry uploads1] & tr1 & Hpage & Hrun) | (msg & Hpage & Hmsg)].
    2: { simplify_eq. by apply processPage_thrown in Hpage. }
    apply processPage_run in Hpage as (evs1 & -> & _ & Hok & _).
    apply IH in Hrun as (new & -> & Hfailed).
    exists (evs1 ++ new). rewrite <- app_assoc. split; [done|].
    by apply FailedAt_app.
Qed.

End FailFast.

Section FailFastHandler.

Context (SERVICE_SECRET DEFAULT_BUCKET : string) (env : Env).

Lemma pipelineBody_thrown editionId pdfUrl supabaseUrl supabaseKey bucket
    variants thumbnail message tr' :
  pipelineBody env editionId pdfUrl supabaseUrl supabaseKey bucket variants thumbnail []
    = (Thrown message, tr') →
  (message = "No pages produced during PDF conversion"
   ∧ Forall (λ e, evOk e = true) tr'
   ∧ ∃ files, last tr' ≫= listingOf = Some files ∧ pageFilesOf files = [])
  ∨ FailedAt tr' message.
Proof.
  intros H. unfold pipelineBody, createTempDir, downloadPdf in H.
  apply bind_run in H as [(tempRoot & tr1 & Htmp & H) | (msg & Htmp & Hmsg)];
    step_perform Htmp mk; destruct mk as [dir|m];
    try (apply ret_run in Htmp as [? ?]); try destruct Htmp as [? ?]; simplify_eq.
  2: { right. by apply FailedAt_single. }
  apply bind_run in H as [(id & tr2 & Hid & H) | (m & Hid & Hmsg)]; simplify_eq.
  step_perform H mkd. destruct mkd as [[]|m].
  2: { destruct H as [[= ->] ->]. right.
       apply (FailedAt_app [_]); [each_event|]. by apply FailedAt_single. }
  step_perform H dl. destruct dl as [[]|m].
  2: { destruct H as [[= ->] ->]. right.
       apply (FailedAt_app [_; _]); [each_event|]. by apply FailedAt_single. }
  apply bind_run in H as [(pngPages & tr3 & Hconv & H) | (m & Hconv & Hmsg)];
    apply convertPdfToPng_run in Hconv as [[[]|m'] Hconv]; simpl in Hconv.
  4: { destruct Hconv as [[= ->] ->]. simplify_eq. right.
       apply (FailedAt_app [_; _; _]); [each_event|]. by apply FailedAt_single. }
  3: { destruct Hconv as ([files|m''] & -> & Hr); simplify_eq. right.
       apply (FailedAt_app [_; _; _; _]); [each_event|]. by apply FailedAt_single. }
  2: { destruct Hconv as [? _]. simplify_eq. }
  destruct Hconv as ([files|m''] & -> & Hr); simplify_eq.
  rename dir into tempRoot.
  pose proof (length_orderPageFiles (pathJoin tempRoot "png") files) as Hlen.
  destruct (Nat.eqb_spec (length (orderPageFiles (pathJoin tempRoot "png") files)) 0)
    as [Hzero|Hpos].
  { apply throw_run in H as [[= <-] ->]. left. split_and!; [done|each_event|].
    exists files. split; [done|]. apply nil_length_inv. unfold pageFilesOf. lia. }
  right.
  apply bind_run in H as [([pages uploads] & tr4 & Hloop & H) | (m & Hloop & Hmsg)].
  2: { simplify_eq. apply pageLoop_thrown in Hloop as (new & -> & Hfailed).
       apply (FailedAt_app [_; _; _; _; _]); [each_event|done]. }
  apply pageLoop_run in Hloop as (evs & -> & _ & entries & -> & -> & Hdone).
  destruct Hdone as (_ & Hok & _).
  apply bind_run in H as [(generated & tr5 & Hgen & H) | (m & Hgen & Hmsg)]; simplify_eq.
  apply bind_run in H as [([] & tr6 & Hup & H) | (m & Hup & Hmsg)].
  2: { simplify_eq. apply uploadBuffer_thrown in Hup as (failed & -> & ? & ?).
       apply (FailedAt_app [_; _; _; _; _]); [each_event|].
       apply FailedAt_app; [done|]. by apply FailedAt_single. }
  apply uploadBuffer_run in Hup as (result & -> & ->).
  apply bind_run in H as [([] & tr7 & Hrm & H) | (m & Hrm & Hmsg)];
    apply removeDirSafe_run in Hrm as [? (removal & ->)]; [|done].
  by apply ret_run in H as [? _].
Qed.

Lemma pipelineBody_ok editionId pdfUrl supabaseUrl supabaseKey bucket
    variants thumbnail tr response tr' :
  pipelineBody env editionId pdfUrl supabaseUrl supabaseKey bucket variants thumbnail tr
    = (Ok response, tr') →
  status response = 200.
Proof.
  intros H. unfold pipelineBody in H.
  apply bind_run in H as [(tempRoot & tr1 & _ & H) | (? & _ & ?)]; [|done].
  apply bind_run in H as [(id & tr2 & _ & H) | (? & _ & ?)]; [|done].
  apply bind_run in H as [([] & tr3 & _ & H) | (? & _ & ?)]; [|done].
  apply bind_run in H as [([] & tr4 & _ & H) | (? & _ & ?)]; [|done].
  apply bind_run in H as [(pngPages & tr5 & _ & H) | (? & _ & ?)]; [|done].
  destruct (Nat.eqb (length pngPages) 0); [by apply throw_run in H as [? _]|].
  apply bind_run in H as [([pages uploads] & tr6 & _ & H) | (? & _ & ?)]; [|done].
  apply bind_run in H as [(generated & tr7 & _ & H) | (? & _ & ?)]; [|done].
  apply bind_run in H as [([] & tr8 & _ & H) | (? & _ & ?)]; [|done].
  apply bind_run in H as [([] & tr9 & _ & H) | (? & _ & ?)]; [|done].
  apply ret_run in H as [Hresponse _]. by simplify_eq.
Qed.


(** X7.  The temporary directory is removed only at the end of a run
    answered 200: a removal call is the last call of its run, it removes the
    directory [mkdtemp] returned, every call before it succeeded, and the
    response is the success response whether the removal succeeds or not. *)
Theorem removal_only_after_success req response tr e :
  handler SERVICE_SECRET DEFAULT_BUCKET env req [] = (response, tr) →
  e ∈ tr → isRemoval e = true →
  status response = 200
  ∧ ∃ before tempRoot,
      tr = before ++ [e]
      ∧ Forall (λ e', evOk e' = true) before
      ∧ head tr ≫= createdDirOf = Some tempRoot
      ∧ evCall e = RmRecursive tempRoot.
Proof.
  intros Hrun He Hrm.
  assert (Hstatus : status response = 200).
  { destruct (decide (status response = 200)) as [|Hne]; [done|exfalso].
    pose proof (failure_leaves_temp_dir _ _ _ _ _ _ Hrun Hne) as Hnone.
    rewrite Forall_forall in Hnone. specialize (Hnone e He). congruence. }
  split; [done|].
  apply handler_Run in Hrun.
  destruct (Run_completed _ _ _ _ _ _ Hrun Hstatus) as
    (tempRoot & pdfPath & files & evs & pages & uploads & generated & removal
     & _ & -> & _ & Hdone & _).
  destruct Hdone as (Hwork & Hok & _).
  pose proof (setupEvents_kind env tempRoot (pdfUrlFor req) pdfPath files) as Hsetup.
  assert (Hbefore : Forall (λ e', evOk e' = true)
            (setupEvents env tempRoot (pdfUrlFor req) pdfPath files ++ evs
               ++ [manifestEvent DEFAULT_BUCKET req generated pages (Ok None)])).
  { rewrite !Forall_app. split_and!; [|done|each_event].
    eapply Forall_impl; [exact Hsetup|]. by intros a [_ ?]. }
  assert (Hin : e ∈ removalEvents tempRoot removal).
  { apply elem_of_app in He as [He|He].
    { rewrite Forall_forall in Hsetup. destruct (Hsetup e He) as [Hs _].
      apply isSetupCall_kind in Hs as (? & _). congruence. }
    apply elem_of_app in He as [He|He].
    { apply Forall_PageWork_kind in Hwork as (Hnr & _).
      rewrite Forall_forall in Hnr. specialize (Hnr e He). congruence. }
    apply elem_of_cons in He as [->|He]; [done|exact He]. }
  unfold removalEvents in *. destruct (String.eqb tempRoot ""); [by apply elem_of_nil in Hin|].
  apply list_elem_of_singleton in Hin as ->.
  eexists _, tempRoot. rewrite !app_assoc. split_and!; [done| |done|done].
  by rewrite <- !app_assoc.
Qed.

End FailFastHandler.


(** The removal of the temporary directory fails; the answer is still 200. *)
Lemma removal_only_after_success_witness :
  let run := handler "" "editions" (scriptedEnv twoPageListing removalFails)
               sampleRequest [] in
  status run.1 = 200.
Proof.
  intros run.
  apply (removal_only_after_success "" "editions"
           (scriptedEnv twoPageListing removalFails) sampleRequest run.1 run.2
           {| evCall := RmRecursive "/tmp/pdf-conversion-Ab12Cd";
              evResult := Thrown "unavailable" |}
           (surjective_pairing run)).
  - vm_compute. do 26 apply list_elem_of_further. apply list_elem_of_here.
  - reflexivity.
Defined.

(** ** The manifest, the response and the uploads of a completed run *)

Section Completed.

Context (SERVICE_SECRET DEFAULT_BUCKET : string) (env : Env) (req : Request).


(** X8.  In a run answered 200 exactly one manifest is uploaded, with
    success, at the [manifestPath] of the response, and it agrees with the
    response: the edition id and the bucket of the manifest are the
    [editionId] and [bucket] fields of the response (and those of the
    request), [totalPages] is the number of pages in both, and both list the
    same page numbers 1, 2, ... with the same dimensions page by page; the
    base URL of the manifest ends in ["/"]. *)
Theorem manifest_matches_response response tr :
  handler SERVICE_SECRET DEFAULT_BUCKET env req [] = (response, tr) →
  status response = 200 →
  ∃ manifest before after,
    tr = before
         ++ {| evCall := StorageUpload (clientFor req) (bucketFor DEFAULT_BUCKET req)
                           (manifestPathFor req) (BodyManifest manifest);
               evResult := Ok None |} :: after
    ∧ Forall (λ e, isManifestUpload e = false) (before ++ after)
    ∧ manifestPathOf response = Some (manifestPathFor req)
    ∧ editionIdOf manifest = editionIdFor req
    ∧ bucketOf manifest = bucketFor DEFAULT_BUCKET req
    ∧ editionIdField response = Some (editionIdOf manifest)
    ∧ bucketField response = Some (bucketOf manifest)
    ∧ totalPagesOf manifest = length (pagesOf response)
    ∧ totalPagesField response = Some (length (pagesOf response))
    ∧ mpPageNumber <$> manifestPagesOf manifest = seq 1 (length (pagesOf response))
    ∧ pageNumber <$> pagesOf response = seq 1 (length (pagesOf response))
    ∧ mpWidth <$> manifestPagesOf manifest = pwidth <$> pagesOf response
    ∧ mpHeight <$> manifestPagesOf manifest = pheight <$> pagesOf response
    ∧ endsWith (assetsBaseUrl manifest) "/" = true.
Proof.
  intros Hrun%handler_Run Hstatus.
  destruct (Run_completed _ _ _ _ _ _ Hrun Hstatus) as
    (tempRoot & pdfPath & files & evs & pages & uploads & generated & removal
     & -> & -> & _ & Hdone & _).
  pose proof (pageNumbers_of_loop _ _ _ _ _ _ _ _ _ _ Hdone) as Hnumbers.
  destruct Hdone as (Hwork & _ & _ & _ & _ & Hentries).
  apply Forall2_length in Hentries. rewrite length_seq in Hentries.
  apply Forall_PageWork_kind in Hwork as (_ & Hnm & _).
  exists (manifestFor DEFAULT_BUCKET req generated pages),
    (setupEvents env tempRoot (pdfUrlFor req) pdfPath files ++ evs),
    (removalEvents tempRoot removal).
  change (pagesOf (successResponse DEFAULT_BUCKET req pages uploads)) with pages.
  rewrite Hentries in Hnumbers.
  split_and!.
  - by rewrite <- app_assoc.
  - rewrite !Forall_app. split_and!;
      [apply setup_no_manifest|done|apply removal_no_manifest].
  - done.
  - done.
  - done.
  - done.
  - done.
  - done.
  - done.
  - change (manifestPagesOf _) with (summarizePage (thumbnailFor req) <$> pages).
    by rewrite <- list_fmap_compose.
  - done.
  - change (manifestPagesOf _) with (summarizePage (thumbnailFor req) <$> pages).
    by rewrite <- list_fmap_compose.
  - change (manifestPagesOf _) with (summarizePage (thumbnailFor req) <$> pages).
    by rewrite <- list_fmap_compose.
  - apply endsWith_ensureTrailingSlash.
Qed.

(** X9.  Every upload of a run, image or manifest, is made with the client
    built from the request's [supabaseUrl] and [supabaseKey] and goes to the
    bucket of the request, which is the default bucket when the request
    names none. *)
Theorem uploads_go_to_requested_bucket response tr e client bucket storagePath body :
  handler SERVICE_SECRET DEFAULT_BUCKET env req [] = (response, tr) →
  e ∈ tr → evCall e = StorageUpload client bucket storagePath body →
  sbUrl client = default "" (reqSupabaseUrl req)
  ∧ sbKey client = default "" (reqSupabaseKey req)
  ∧ bucket = default DEFAULT_BUCKET (reqBucket req)
  ∧ (reqBucket req = None → bucket = DEFAULT_BUCKET).
Proof.
  intros Hrun%handler_Run He Hcall.
  assert (Htarget : client = clientFor req ∧ bucket = bucketFor DEFAULT_BUCKET req).
  { assert (Hsetup : ∀ setup, Forall (λ e, isSetupCall e = true) setup → e ∈ setup → False).
    { intros setup Hall Hin. rewrite Forall_forall in Hall. specialize (Hall e Hin).
      unfold isSetupCall in Hall. by rewrite Hcall in Hall. }
    assert (Hsetup' : ∀ tempRoot pdfPath files,
      e ∈ setupEvents env tempRoot (pdfUrlFor req) pdfPath files → False).
    { intros tempRoot pdfPath files. apply Hsetup.
      eapply Forall_impl; [apply setupEvents_kind|]. by intros a [? _]. }
    assert (Hloop : ∀ evs hi,
      Forall (PageWork (clientFor req) (bucketFor DEFAULT_BUCKET req) (editionIdFor req)
                (assetKeys (variantsFor req) (thumbnailFor req)) 0 hi) evs →
      e ∈ evs → client = clientFor req ∧ bucket = bucketFor DEFAULT_BUCKET req).
    { intros evs hi Hall Hin. rewrite Forall_forall in Hall. specialize (Hall e Hin).
      unfold PageWork in Hall. rewrite Hcall in Hall.
      destruct body as [buf|m]; [|done]. by destruct Hall as (-> & -> & _). }
    assert (Hrm : ∀ t r, e ∈ removalEvents t r → False).
    { intros t r Hin. pose proof (removalEvents_kind t r) as Hk.
      rewrite Forall_forall in Hk. specialize (Hk e Hin).
      unfold isRemoval in Hk. by rewrite Hcall in Hk. }
    destruct Hrun as [| |setup message _ _ Hsetup0 _|tempRoot pdfPath files _ _ _
                     |tempRoot pdfPath files evs message _ _ _ Hwork
                     |tempRoot pdfPath files evs pages uploads generated result message
                        _ _ _ Hdone _
                     |tempRoot pdfPath files evs pages uploads generated removal
                        _ _ _ Hdone].
    - by apply elem_of_nil in He.
    - by apply elem_of_nil in He.
    - exfalso. by eapply Hsetup.
    - exfalso. by eapply Hsetup'.
    - apply elem_of_app in He as [He|He]; [exfalso; by eapply Hsetup'|].
      by eapply Hloop.
    - destruct Hdone as (Hwork & _).
      apply elem_of_app in He as [He|He]; [exfalso; by eapply Hsetup'|].
      apply elem_of_app in He as [He|He]; [by eapply Hloop|].
      apply list_elem_of_singleton in He as ->. simpl in Hcall. by simplify_eq.
    - destruct Hdone as (Hwork & _).
      apply elem_of_app in He as [He|He]; [exfalso; by eapply Hsetup'|].
      apply elem_of_app in He as [He|He]; [by eapply Hloop|].
      apply elem_of_cons in He as [->|He]; [simpl in Hcall; by simplify_eq|].
      exfalso. by eapply Hrm. }
  destruct Htarget as [-> ->]. split_and!; try done.
  intros Hnone. unfold bucketFor. by rewrite Hnone.
Qed.

End Completed.

(** ** The calls of a completed run, in order *)

Section DataFlow.

Context (env : Env) (supabase : Supabase) (bucket editionId : string).

Lemma variantLoop_trace pageNumber pngBuffer metadata :
  ∀ variants variantUploads uploads tr result tr',
    variantLoop env supabase bucket editionId pageNumber pngBuffer metadata
      variants variantUploads uploads tr = (Ok result, tr') →
    ∃ outputs,
      length outputs = length variants
      ∧ tr' = tr ++ concat (zip_with
                              (renderEvents supabase bucket editionId pageNumber
                                 pngBuffer metadata)
                              variants outputs).
Proof.
  induction variants as [|variant rest IH];
    intros variantUploads uploads tr result tr' Hrun.
  - apply ret_run in Hrun as [_ ->]. exists []. by rewrite app_nil_r.
  - simpl in Hrun.
    apply bind_run in Hrun as [(buffer & tr1 & Hclone & Hrun) | (msg & _ & ?)]; [|done].
    apply cloneSharpForVariant_run in Hclone as ->.
    apply bind_run in Hrun as [([] & tr2 & Hup & Hrun) | (msg & _ & ?)]; [|done].
    apply uploadBuffer_run in Hup as (res & -> & ->).
    apply IH in Hrun as (outputs & Hlen & ->).
    exists (buffer :: outputs). split; [simpl; lia|].
    simpl. by rewrite <- !app_assoc.
Qed.

Lemma processPage_trace variants thumbnail index pngPath uploads tr entry uploads' tr' :
  processPage env supabase bucket editionId variants thumbnail index pngPath uploads tr
    = (Ok (entry, uploads'), tr') →
  ∃ run,
    length (prOutputs run) = length variants + 1
    ∧ tr' = tr ++ pageEvents supabase bucket editionId (variants ++ [thumbnail])
                    (index + 1) pngPath run
    ∧ pwidth entry = mwidth (prMetadata run)
    ∧ pheight entry = mheight (prMetadata run).
Proof.
  unfold processPage. rewrite thumbnail_path_eq. intros Hrun.
  step_perform Hrun read. destruct read as [pngBuffer|msg]; [|by destruct Hrun].
  step_perform Hrun meta. destruct meta as [metadata|msg]; [|by destruct Hrun].
  apply bind_run in Hrun as [([variantUploads uploads1] & tr1 & Hloop & Hrun) | (msg & _ & ?)];
    [|done].
  apply variantLoop_trace in Hloop as (outputs & Hlen & ->).
  apply bind_run in Hrun as [(thumbBuffer & tr2 & Hclone & Hrun) | (msg & _ & ?)]; [|done].
  apply cloneSharpForVariant_run in Hclone as ->.
  apply bind_run in Hrun as [([] & tr3 & Hup & Hrun) | (msg & _ & ?)]; [|done].
  apply uploadBuffer_run in Hup as (res & -> & ->).
  apply ret_run in Hrun as [Hresult ->]. simplify_eq.
  exists {| prBuffer := pngBuffer; prMetadata := metadata;
            prOutputs := outputs ++ [thumbBuffer] |}.
  split_and!; [by cbn [prOutputs]; rewrite length_app, Hlen|..|done|done].
  unfold pageEvents. cbn [prBuffer prMetadata prOutputs].
  rewrite zip_with_app by done. rewrite concat_app. simpl.
  by rewrite <- !app_assoc.
Qed.

Lemma pageLoop_trace variants thumbnail :
  ∀ pngPages index manifestPages uploads tr pages' uploads' tr',
    pageLoop env supabase bucket editionId variants thumbnail index pngPages
      manifestPages uploads tr = (Ok (pages', uploads'), tr') →
    ∃ runs entries,
      pages' = manifestPages ++ entries
      ∧ length runs = length pngPages
      ∧ Forall (λ run, length (prOutputs run) = length variants + 1) runs
      ∧ tr' = tr ++ loopEvents supabase bucket editionId (variants ++ [thumbnail])
                      index pngPages runs
      ∧ pwidth <$> entries = (λ run, mwidth (prMetadata run)) <$> runs
      ∧ pheight <$> entries = (λ run, mheight (prMetadata run)) <$> runs.
Proof.
  induction pngPages as [|pngPath rest IH];
    intros index manifestPages uploads tr pages' uploads' tr' Hrun.
  - apply ret_run in Hrun as [Hresult ->]. simplify_eq. exists [], [].
    by rewrite !app_nil_r.
  - simpl in Hrun.
    apply bind_run in Hrun as [([entry uploads1] & tr1 & Hpage & Hrun) | (msg & _ & ?)];
      [|done].
    apply processPage_trace in Hpage as (run & Hlen & -> & Hw & Hh).
    apply IH in Hrun as (runs & entries & -> & Hruns & Hall & -> & Hws & Hhs).
    exists (run :: runs), (entry :: entries).
    split_and!.
    + by rewrite <- app_assoc.
    + simpl. by rewrite Hruns.
    + by constructor.
    + simpl. by rewrite <- app_assoc.
    + rewrite !fmap_cons. by rewrite Hw, Hws.
    + rewrite !fmap_cons. by rewrite Hh, Hhs.
Qed.

End DataFlow.

Section CompletedTrace.

Context (SERVICE_SECRET DEFAULT_BUCKET : string) (env : Env).

Lemma pipelineBody_trace editionId pdfUrl supabaseUrl supabaseKey bucket
    variants thumbnail response tr' :
  pipelineBody env editionId pdfUrl supabaseUrl supabaseKey bucket variants thumbnail []
    = (Ok response, tr') →
  ∃ tempRoot pdfPath files runs pages uploads manifest removal,
    let supabase := {| sbUrl := supabaseUrl; sbKey := supabaseKey |} in
    let pngPages := orderPageFiles (pathJoin tempRoot "png") files in
    tr' = setupEvents env tempRoot pdfUrl pdfPath files
          ++ loopEvents supabase bucket editionId (variants ++ [thumbnail]) 0 pngPages runs
          ++ [ {| evCall := StorageUpload supabase bucket (editionId +:+ "/manifest.json")
                              (BodyManifest manifest);
                  evResult := Ok None |} ]
          ++ removalEvents tempRoot removal
    ∧ payload response
      = Success editionId bucket (editionId +:+ "/manifest.json") (length pages) pages uploads
    ∧ length runs = length pngPages
    ∧ Forall (λ run, length (prOutputs run) = length variants + 1) runs
    ∧ pwidth <$> pages = (λ run, mwidth (prMetadata run)) <$> runs
    ∧ pheight <$> pages = (λ run, mheight (prMetadata run)) <$> runs.
Proof.
  intros H. unfold pipelineBody, createTempDir, downloadPdf in H.
  apply bind_run in H as [(tempRoot & tr1 & Htmp & H) | (msg & _ & ?)]; [|done].
  step_perform Htmp mk. destruct mk as [dir|m]; [|by destruct Htmp].
  apply ret_run in Htmp as [? ?]. simplify_eq. rename dir into tempRoot.
  apply bind_run in H as [(id & tr2 & Hid & H) | (m & _ & ?)]; [|done]. simplify_eq.
  step_perform H mkd. destruct mkd as [[]|m]; [|by destruct H].
  step_perform H dl. destruct dl as [[]|m]; [|by destruct H].
  apply bind_run in H as [(pngPages & tr3 & Hconv & H) | (m & _ & ?)]; [|done].
  apply convertPdfToPng_run in Hconv as [[[]|m'] Hconv]; simpl in Hconv;
    [|by destruct Hconv].
  destruct Hconv as ([files|m''] & -> & Hr); simplify_eq.
  set (pdfPath := pathJoin tempRoot (uuid env _ +:+ ".pdf")) in *.
  change [_; _; _; _; _] with (setupEvents env tempRoot pdfUrl pdfPath files) in H.
  destruct (Nat.eqb (length (orderPageFiles (pathJoin tempRoot "png") files)) 0);
    [by apply throw_run in H as [? _]|].
  apply bind_run in H as [([pages uploads] & tr4 & Hloop & H) | (m & _ & ?)]; [|done].
  apply pageLoop_trace in Hloop as (runs & entries & -> & Hruns & Hall & -> & Hws & Hhs).
  apply bind_run in H as [(generated & tr5 & Hgen & H) | (m & _ & ?)]; [|done].
  simplify_eq.
  apply bind_run in H as [([] & tr6 & Hup & H) | (m & _ & ?)]; [|done].
  apply uploadBuffer_run in Hup as (result & -> & ->).
  apply bind_run in H as [([] & tr7 & Hrm & H) | (m & _ & ?)]; [|done].
  apply removeDirSafe_run in Hrm as [_ (removal & ->)].
  apply ret_run in H as [Hresponse ->]. simplify_eq.
  eexists tempRoot, pdfPath, files, runs, entries, uploads, _, removal.
  cbn [payload buildManifest manifestPagesOf]. rewrite length_fmap.
  split_and!; [|done..]. by rewrite <- !app_assoc.
Qed.

(** X10.  The calls of a run answered 200, in order: the five setup calls
    ([mkdtemp], [mkdir], the download, [pdftoppm], [readdir]); then page by
    page, in page order, the read of the page file, the read of its
    metadata and, for every variant in the order given and last for the
    thumbnail, one render of that page's buffer with that variant's resize
    options and quality followed at once by the upload of the render's
    output to that variant's storage path for that page; then the upload of
    the manifest; then the removal of the temporary directory (no call
    when its path is empty).  The width and height of each page of the
    response are the ones its metadata call returned. *)
Theorem completed_run_calls req response tr :
  handler SERVICE_SECRET DEFAULT_BUCKET env req [] = (response, tr) →
  status response = 200 →
  ∃ tempRoot pdfPath files runs manifest removal,
    let pngPages := orderPageFiles (pathJoin tempRoot "png") files in
    tr = setupEvents env tempRoot (pdfUrlFor req) pdfPath files
         ++ loopEvents (clientFor req) (bucketFor DEFAULT_BUCKET req) (editionIdFor req)
              (variantsFor req ++ [thumbnailFor req]) 0 pngPages runs
         ++ [ {| evCall := StorageUpload (clientFor req) (bucketFor DEFAULT_BUCKET req)
                             (manifestPathFor req) (BodyManifest manifest);
                 evResult := Ok None |} ]
         ++ removalEvents tempRoot removal
    ∧ length runs = length pngPages
    ∧ length (pagesOf response) = length pngPages
    ∧ Forall (λ run, length (prOutputs run) = length (variantsFor req) + 1) runs
    ∧ pwidth <$> pagesOf response = (λ run, mwidth (prMetadata run)) <$> runs
    ∧ pheight <$> pagesOf response = (λ run, mheight (prMetadata run)) <$> runs.
Proof.
  intros Hrun Hstatus.
  destruct (decide (authorized SERVICE_SECRET req)) as [Hauth|Hno].
  2: { unfold authorized in Hno. rewrite handler_unauthorized in Hrun by tauto.
       by simplify_eq. }
  rewrite handler_authorized in Hrun by done.
  destruct (hasRequired req); [|by simplify_eq].
  destruct (pipelineBody _ _ _ _ _ _ _ _ _) as [[ok|message] tr1] eqn:Hbody;
    [|by simplify_eq].
  simplify_eq.
  apply pipelineBody_trace in Hbody
    as (tempRoot & pdfPath & files & runs & pages & uploads & manifest & removal
        & Htr & Hpayload & Hruns & Hall & Hws & Hhs).
  exists tempRoot, pdfPath, files, runs, manifest, removal.
  unfold pagesOf. rewrite Hpayload.
  split_and!; [done|done| |done|done|done].
  apply (f_equal length) in Hws. rewrite !length_fmap in Hws. congruence.
Qed.

End CompletedTrace.

(** ** The response of a completed run against its uploads *)

Section ResponseAssets.

Context (SERVICE_SECRET DEFAULT_BUCKET : string) (env : Env) (req : Request).

Lemma pagePaths_keys editionId variants thumbnail pageNumber :
  pagePaths editionId variants thumbnail pageNumber
  = (λ key, buildStoragePath editionId key pageNumber) <$> assetKeys variants thumbnail.
Proof.
  unfold pagePaths, variantPaths, assetKeys.
  by rewrite fmap_app, <- list_fmap_compose.
Qed.

Lemma NoDup_pathsOfPages editionId variants thumbnail count : ∀ index,
  NoDup (assetKeys variants thumbnail) →
  NoDup (pathsOfPages editionId variants thumbnail index count).
Proof.
  induction count as [|count IH]; intros index Hkeys; [apply NoDup_nil_2|].
  rewrite pathsOfPages_S. apply NoDup_app. split_and!.
  - rewrite pagePaths_keys. apply NoDup_fmap_2_strong; [|done].
    intros key1 key2 _ _ Heq. by apply storage_path_inv in Heq as [? _].
  - intros p Hp Hrest. rewrite pagePaths_keys in Hp.
    apply list_elem_of_fmap in Hp as (key & -> & _).
    apply elem_of_pathsOfPages in Hrest as (key' & n & _ & Hn & Heq).
    apply storage_path_inv in Heq as [_ Heq]. lia.
  - by apply IH.
Qed.

Lemma NoDup_pathsOfPages_keys editionId variants thumbnail index count :
  0 < count →
  NoDup (pathsOfPages editionId variants thumbnail index count) →
  NoDup (assetKeys variants thumbnail).
Proof.
  destruct count as [|count]; [lia|]. intros _.
  rewrite pathsOfPages_S. intros (Hpage & _)%NoDup_app.
  rewrite pagePaths_keys in Hpage. by apply NoDup_fmap_1 in Hpage.
Qed.


(** X12.  In a response answered 200 no storage path is listed twice in
    [uploads] exactly when the variant keys and the thumbnail key of the
    request are pairwise distinct; a key given twice, or a variant that
    shares the thumbnail's key, makes the run upload to the same path
    again.  With the default variants and thumbnail no path is repeated. *)
Theorem uploads_distinct_iff_keys_distinct response tr :
  handler SERVICE_SECRET DEFAULT_BUCKET env req [] = (response, tr) →
  status response = 200 →
  (NoDup (uploadsOf response)
   ↔ NoDup ((vkey <$> variantsFor req) ++ [vkey (thumbnailFor req)]))
  ∧ (reqVariants req = None → reqThumbnail req = None → NoDup (uploadsOf response)).
Proof.
  intros Hrun%handler_Run Hstatus.
  destruct (Run_completed _ _ _ _ _ _ Hrun Hstatus) as
    (tempRoot & pdfPath & files & evs & pages & uploads & generated & removal
     & -> & _ & Hsome & Hdone & _).
  destruct Hdone as (_ & _ & _ & -> & _).
  change (uploadsOf (successResponse _ _ _ ?u)) with u.
  fold (assetKeys (variantsFor req) (thumbnailFor req)).
  assert (Hpos : 0 < length (orderPageFiles (pathJoin tempRoot "png") files)).
  { rewrite length_orderPageFiles. fold (pageFilesOf files).
    destruct (pageFilesOf files); [done|simpl; lia]. }
  split.
  - split; [by apply NoDup_pathsOfPages_keys|apply NoDup_pathsOfPages].
  - intros Hvariants Hthumbnail. apply NoDup_pathsOfPages.
    unfold variantsFor, thumbnailFor. rewrite Hvariants, Hthumbnail.
    apply (bool_decide_unpack _). by vm_compute.
Qed.

End ResponseAssets.

(** ** How a request is answered *)


Section Answers.

Context (SERVICE_SECRET DEFAULT_BUCKET : string) (env : Env) (req : Request).


End Answers.

(** ** The order of the uploads, in every run *)

Section UploadOrder.

Context (env : Env) (supabase : Supabase) (bucket editionId : string).

Lemma variantLoop_upload_order pageNumber pngBuffer metadata :
  ∀ variants variantUploads uploads tr r tr',
    variantLoop env supabase bucket editionId pageNumber pngBuffer metadata
      variants variantUploads uploads tr = (r, tr') →
    ∃ evs,
      tr' = tr ++ evs
      ∧ omap uploadPathOf evs `prefix_of` variantPaths editionId pageNumber variants.
Proof.
  induction variants as [|variant rest IH];
    intros variantUploads uploads tr r tr' Hrun.
  - apply ret_run in Hrun as [_ ->]. exists []. by rewrite app_nil_r.
  - simpl in Hrun.
    apply bind_run in Hrun as [(buffer & tr1 & Hclone & Hrun) | (msg & Hclone & _)];
      apply cloneSharpForVariant_run in Hclone as ->.
    2: { eexists [_]. split; [done|]. apply prefix_nil. }
    apply bind_run in Hrun as [([] & tr2 & Hup & Hrun) | (msg & Hup & _)];
      apply uploadBuffer_run in Hup as (result & -> & _).
    2: { eexists [_; _]. rewrite <- app_assoc. split; [done|].
         apply (prefix_cons _ []), prefix_nil. }
    apply IH in Hrun as (evs & -> & Hprefix).
    eexists (_ :: _ :: evs). rewrite <- !app_assoc. split; [done|].
    by apply prefix_cons.
Qed.

Lemma processPage_upload_order variants thumbnail index pngPath uploads tr r tr' :
  processPage env supabase bucket editionId variants thumbnail index pngPath uploads tr
    = (r, tr') →
  ∃ evs,
    tr' = tr ++ evs
    ∧ omap uploadPathOf evs `prefix_of` pagePaths editionId variants thumbnail (index + 1).
Proof.
  unfold processPage. rewrite thumbnail_path_eq. intros Hrun.
  step_perform Hrun read. destruct read as [pngBuffer|msg].
  2: { destruct Hrun as [_ ->]. eexists [_]. split; [done|]. apply prefix_nil. }
  step_perform Hrun meta. destruct meta as [metadata|msg].
  2: { destruct Hrun as [_ ->]. eexists [_; _]. rewrite <- app_assoc.
       split; [done|]. apply prefix_nil. }
  apply bind_run in Hrun as [([variantUploads uploads1] & tr1 & Hloop & Hrun) | (msg & Hloop & _)].
  2: { apply variantLoop_upload_order in Hloop as (evs & -> & Hprefix).
       eexists (_ :: _ :: evs). rewrite <- !app_assoc. split; [done|].
       unfold pagePaths. by apply prefix_app_r. }
  apply (variantLoop_run env supabase bucket editionId (assetKeys variants thumbnail)
           index (index + 1)) in Hloop as (evs & -> & _ & _ & _ & Hpaths & _);
    [|lia|by intros v Hv; apply variant_key_in].
  assert (Hsplit : ∀ tail,
    omap uploadPathOf (evs ++ tail) = variantPaths editionId (index + 1) variants
                                      ++ omap uploadPathOf tail).
  { intros tail. by rewrite omap_app, Hpaths. }
  apply bind_run in Hrun as [(thumbBuffer & tr2 & Hclone & Hrun) | (msg & Hclone & _)];
    apply cloneSharpForVariant_run in Hclone as ->.
  2: { eexists (_ :: _ :: evs ++ [_]). rewrite <- !app_assoc. split; [done|].
       change (omap uploadPathOf (?a :: ?b :: ?l)) with (omap uploadPathOf l).
       rewrite Hsplit. apply prefix_app, prefix_nil. }
  apply bind_run in Hrun as [([] & tr3 & Hup & Hrun) | (msg & Hup & _)];
    apply uploadBuffer_run in Hup as (result & -> & _).
  2: { eexists (_ :: _ :: evs ++ [_; _]). rewrite <- !app_assoc. split; [done|].
       change (omap uploadPathOf (?a :: ?b :: ?l)) with (omap uploadPathOf l).
       by rewrite Hsplit. }
  apply ret_run in Hrun as [_ ->].
  eexists (_ :: _ :: evs ++ [_; _]). rewrite <- !app_assoc. split; [done|].
  change (omap uploadPathOf (?a :: ?b :: ?l)) with (omap uploadPathOf l).
  by rewrite Hsplit.
Qed.

Lemma pageLoop_upload_order variants thumbnail :
  ∀ pngPages index manifestPages uploads tr r tr',
    pageLoop env supabase bucket editionId variants thumbnail index pngPages
      manifestPages uploads tr = (r, tr') →
    ∃ evs,
      tr' = tr ++ evs
      ∧ omap uploadPathOf evs
        `prefix_of` pathsOfPages editionId variants thumbnail index (length pngPages).
Proof.
  induction pngPages as [|pngPath rest IH];
    intros index manifestPages uploads tr r tr' Hrun.
  - apply ret_run in Hrun as [_ ->]. exists []. by rewrite app_nil_r.
  - simpl in Hrun. simpl length. rewrite pathsOfPages_S.
    apply bind_run in Hrun as [([entry uploads1] & tr1 & Hpage & Hrun) | (msg & Hpage & _)].
    2: { apply processPage_upload_order in Hpage as (evs & -> & Hprefix).
         exists evs. split; [done|]. by apply prefix_app_r. }
    apply processPage_run in Hpage as (evs1 & -> & _ & _ & Hpaths & _).
    apply IH in Hrun as (evs2 & -> & Hprefix).
    exists (evs1 ++ evs2). rewrite <- app_assoc. split; [done|].
    rewrite omap_app, Hpaths. by apply prefix_app.
Qed.

End UploadOrder.

Section UploadOrderHandler.

Context (SERVICE_SECRET DEFAULT_BUCKET : string) (env : Env).

Lemma pipelineBody_upload_order editionId pdfUrl supabaseUrl supabaseKey bucket
    variants thumbnail r tr' :
  pipelineBody env editionId pdfUrl supabaseUrl supabaseKey bucket variants thumbnail []
    = (r, tr') →
  (Forall (λ e, listingOf e = None) tr' ∧ omap uploadPathOf tr' = [])
  ∨ ∃ tempRoot pdfPath files rest,
      tr' = setupEvents env tempRoot pdfUrl pdfPath files ++ rest
      ∧ omap uploadPathOf tr'
        `prefix_of` pathsOfPages editionId variants thumbnail 0 (length (pageFilesOf files))
                    ++ [editionId +:+ "/manifest.json"].
Proof.
  intros H. unfold pipelineBody, createTempDir, downloadPdf in H.
  apply bind_run in H as [(tempRoot & tr1 & Htmp & H) | (msg & Htmp & _)];
    step_perform Htmp mk; destruct mk as [dir|m];
    try (apply ret_run in Htmp as [? ?]); try destruct Htmp as [? ?]; simplify_eq.
  2: { left. split; [each_event|done]. }
  rename dir into tempRoot.
  apply bind_run in H as [(id & tr2 & Hid & H) | (m & Hid & _)]; simplify_eq.
  step_perform H mkd. destruct mkd as [[]|m].
  2: { destruct H as [_ ->]. left. split; [each_event|done]. }
  step_perform H dl. destruct dl as [[]|m].
  2: { destruct H as [_ ->]. left. split; [each_event|done]. }
  apply bind_run in H as [(pngPages & tr3 & Hconv & H) | (m & Hconv & _)];
    apply convertPdfToPng_run in Hconv as [[[]|m'] Hconv]; simpl in Hconv.
  4: { destruct Hconv as [_ ->]. left. split; [each_event|done]. }
  3: { destruct Hconv as ([files|m''] & -> & Hr); simplify_eq.
       left. split; [each_event|done]. }
  2: { destruct Hconv as [? _]. simplify_eq. }
  destruct Hconv as ([files|m''] & -> & Hr); simplify_eq.
  right.
  set (pdfPath := pathJoin tempRoot (uuid env _ +:+ ".pdf")) in *.
  change [_; _; _; _; _] with (setupEvents env tempRoot pdfUrl pdfPath files) in H.
  assert (Hsetup : ∀ rest,
    omap uploadPathOf (setupEvents env tempRoot pdfUrl pdfPath files ++ rest)
    = omap uploadPathOf rest).
  { intros rest. rewrite omap_app. by unfold setupEvents. }
  pose proof (length_orderPageFiles (pathJoin tempRoot "png") files) as Hlen.
  fold (pageFilesOf files) in Hlen.
  exists tempRoot, pdfPath, files.
  destruct (Nat.eqb (length (orderPageFiles (pathJoin tempRoot "png") files)) 0).
  { apply throw_run in H as [_ ->]. exists []. rewrite app_nil_r. split; [done|].
    rewrite <- (app_nil_r (setupEvents _ _ _ _ _)), Hsetup. apply prefix_nil. }
  apply bind_run in H as [([pages uploads] & tr4 & Hloop & H) | (m & Hloop & _)].
  2: { apply pageLoop_upload_order in Hloop as (evs & -> & Hprefix).
       exists evs. split; [done|]. rewrite Hsetup, <- Hlen. by apply prefix_app_r. }
  apply pageLoop_run in Hloop as (evs & -> & _ & entries & _ & _ & Hdone).
  destruct Hdone as (_ & _ & Hpaths & _).
  apply bind_run in H as [(generated & tr5 & Hgen & H) | (m & Hgen & _)]; simplify_eq.
  apply bind_run in H as [([] & tr6 & Hup & H) | (m & Hup & _)];
    apply uploadBuffer_run in Hup as (result & -> & _).
  2: { eexists (evs ++ [_]). rewrite <- !app_assoc. split; [done|].
       rewrite Hsetup, omap_app, Hpaths, Hlen. done. }
  apply bind_run in H as [([] & tr7 & Hrm & H) | (m & Hrm & _)];
    apply removeDirSafe_run in Hrm as [? (removal & ->)]; [|done].
  apply ret_run in H as [_ ->].
  eexists (evs ++ [_] ++ removalEvents tempRoot removal). rewrite <- !app_assoc.
  split; [done|].
  rewrite Hsetup, omap_app, Hpaths, Hlen.
  rewrite omap_app.
  replace (omap uploadPathOf (removalEvents tempRoot removal)) with (@nil string);
    [done|].
  unfold removalEvents. by destruct (String.eqb tempRoot "").
Qed.

(** Every run is a sequence of calls that came back well, followed by at
    most one more call. *)
Lemma handler_stops_at_failure req response tr :
  handler SERVICE_SECRET DEFAULT_BUCKET env req [] = (response, tr) →
  ∃ before rest,
    tr = before ++ rest ∧ Forall (λ e, evOk e = true) before ∧ length rest ≤ 1.
Proof.
  intros Hrun.
  destruct (decide (status response = 200)) as [Hstatus|Hstatus].
  - apply handler_Run in Hrun.
    destruct (Run_completed _ _ _ _ _ _ Hrun Hstatus) as
      (tempRoot & pdfPath & files & evs & pages & uploads & generated & removal
       & _ & -> & _ & Hdone & _).
    destruct Hdone as (_ & Hok & _).
    exists (setupEvents env tempRoot (pdfUrlFor req) pdfPath files ++ evs
            ++ [manifestEvent DEFAULT_BUCKET req generated pages (Ok None)]),
      (removalEvents tempRoot removal).
    split_and!.
    + by rewrite <- !app_assoc.
    + rewrite !Forall_app. split_and!; [|done|each_event].
      eapply Forall_impl; [apply setupEvents_kind|]. by intros a [_ ?].
    + unfold removalEvents. destruct (String.eqb tempRoot ""); simpl; lia.
  - destruct (decide (authorized SERVICE_SECRET req)) as [Hauth|Hno].
    2: { unfold authorized in Hno. rewrite handler_unauthorized in Hrun by tauto.
         simplify_eq. exists [], []. split_and!; [done..|simpl; lia]. }
    rewrite handler_authorized in Hrun by done.
    destruct (hasRequired req);
      [|simplify_eq; exists [], []; split_and!; [done..|simpl; lia]].
    destruct (pipelineBody _ _ _ _ _ _ _ _ _) as [[ok|message] tr1] eqn:Hbody;
      simplify_eq.
    { exfalso. apply Hstatus. by eapply pipelineBody_ok. }
    apply pipelineBody_thrown in Hbody
      as [(_ & Hok & _)|(before & failed & -> & Hok & _)].
    + exists tr, []. rewrite app_nil_r. split_and!; [done..|simpl; lia].
    + exists before, [failed]. split_and!; [done..|simpl; lia].
Qed.

(** X14.  In every run the uploads are attempted in one fixed order: the
    assets of page 1 in the order of the variants with the thumbnail last,
    then those of page 2, and so on over the page files of the listing,
    then the manifest.  A run that stops early has attempted a prefix of
    this sequence, and the uploads that succeeded are a prefix of it as
    well: what a failed run leaves in the bucket is the first objects of
    this order, never a later one without all earlier ones.  A run without a
    directory listing attempted no upload. *)
Theorem uploads_follow_page_order req response tr :
  handler SERVICE_SECRET DEFAULT_BUCKET env req [] = (response, tr) →
  (Forall (λ e, listingOf e = None) tr → omap uploadPathOf tr = [])
  ∧ (∀ files,
       (∃ l, l ∈ tr ∧ listingOf l = Some files) →
       let order :=
         pathsOfPages (editionIdFor req) (variantsFor req) (thumbnailFor req)
           0 (length (pageFilesOf files))
         ++ [manifestPathFor req] in
       omap uploadPathOf tr `prefix_of` order
       ∧ omap uploadPathOf (filter (λ e, evOk e = true) tr) `prefix_of` order).
Proof.
  intros Hrun.
  assert (Horder :
    (Forall (λ e, listingOf e = None) tr ∧ omap uploadPathOf tr = [])
    ∨ ∃ tempRoot pdfPath files rest,
        tr = setupEvents env tempRoot (pdfUrlFor req) pdfPath files ++ rest
        ∧ omap uploadPathOf tr
          `prefix_of` pathsOfPages (editionIdFor req) (variantsFor req) (thumbnailFor req)
                        0 (length (pageFilesOf files))
                      ++ [manifestPathFor req]).
  { destruct (decide (authorized SERVICE_SECRET req)) as [Hauth|Hno].
    2: { unfold authorized in Hno. rewrite handler_unauthorized in Hrun by tauto.
         simplify_eq. by left. }
    pose proof Hrun as Hrun'. rewrite handler_authorized in Hrun' by done.
    destruct (hasRequired req); [|simplify_eq; by left].
    destruct (pipelineBody _ _ _ _ _ _ _ _ _) as [r tr1] eqn:Hbody.
    apply pipelineBody_upload_order in Hbody. by destruct r; simplify_eq. }
  split.
  - intros Hnone. destruct Horder as [[_ ?]|(tempRoot & pdfPath & files & rest & -> & _)];
      [done|].
    apply Forall_app in Hnone as [Hnone _]. unfold setupEvents in Hnone.
    rewrite !Forall_cons in Hnone. by destruct Hnone as (_ & _ & _ & _ & ? & _).
  - intros files (l & Hl & Hlisting) order.
    assert (Hattempted : omap uploadPathOf tr `prefix_of` order).
    { destruct Horder as [[Hnone _]|(tempRoot & pdfPath & files' & rest & Htr & Hprefix)].
      { rewrite Forall_forall in Hnone. specialize (Hnone l Hl). congruence. }
      apply handler_Run in Hrun.
      destruct (Run_listing _ _ _ _ _ _ _ _ Hrun Hl Hlisting)
        as (tempRoot' & pdfPath' & rest' & Htr' & _).
      assert (files' = files) as ->; [|done].
      rewrite Htr in Htr'.
      apply (f_equal (λ t, t !! 4 ≫= listingOf)) in Htr'.
      unfold setupEvents in Htr'. simpl in Htr'. by simplify_eq. }
    split; [done|].
    destruct (handler_stops_at_failure _ _ _ Hrun) as (before & rest & -> & Hok & Hrest).
    etrans; [|exact Hattempted].
    change Trace with (list Event).
    rewrite filter_app, (filter_all evOk) by done.
    rewrite !omap_app. apply prefix_app.
    destruct rest as [|x [|? ?]]; [done| |simpl in Hrest; lia].
    destruct (decide (evOk x = true)).
    + by rewrite filter_cons_True.
    + rewrite filter_cons_False by done. apply prefix_nil.
Qed.

End UploadOrderHandler.

(** ** The files a run touches *)

Ltac files_ok :=
  repeat first
    [ done
    | apply Forall_nil_2
    | apply Forall_cons_2
    | apply Forall_app_2
    | progress cbn [fsPathsOf evCall drop] ].

Section Files.

Context (env : Env) (supabase : Supabase) (bucket editionId : string).

Lemma inDir_self dir : inDir dir dir = true.
Proof. unfold inDir. by rewrite String.eqb_refl. Qed.

Lemma inDir_below dir rest : inDir dir (dir +:+ "/" +:+ rest) = true.
Proof.
  unfold inDir, startsWith. apply orb_true_intro. right.
  apply bool_decide_eq_true. rewrite !chars_app, app_assoc. by apply prefix_app_r.
Qed.

Lemma inDir_pathJoin dir name : inDir dir (pathJoin dir name) = true.
Proof. apply inDir_below. Qed.

Lemma inDir_pathJoin_2 dir sub name :
  inDir dir (pathJoin (pathJoin dir sub) name) = true.
Proof. unfold pathJoin. rewrite !app_assoc_string. apply inDir_below. Qed.

Lemma PageWork_no_file keys lo hi e :
  PageWork supabase bucket editionId keys lo hi e → readFileOf e = None →
  fsPathsOf e = [].
Proof. unfold PageWork, readFileOf, fsPathsOf. by destruct (evCall e). Qed.

Lemma variantLoop_files index pngBuffer metadata variants variantUploads uploads
    tr r tr' (allowed : string → Prop) :
  variantLoop env supabase bucket editionId (index + 1) pngBuffer metadata
    variants variantUploads uploads tr = (r, tr') →
  ∃ evs, tr' = tr ++ evs ∧ Forall (λ e, Forall allowed (fsPathsOf e)) evs.
Proof.
  intros Hrun.
  apply (variantLoop_run env supabase bucket editionId (vkey <$> variants)
           index (index + 1)) in Hrun as (evs & -> & Hwork & Hread & _);
    [|lia|by intros v Hv; apply list_elem_of_fmap_2].
  exists evs. split; [done|].
  rewrite Forall_forall in Hwork, Hread. apply Forall_forall. intros e He.
  rewrite (PageWork_no_file _ _ _ _ (Hwork e He) (Hread e He)). constructor.
Qed.

Lemma processPage_files variants thumbnail index pngPath uploads tr r tr' :
  processPage env supabase bucket editionId variants thumbnail index pngPath uploads tr
    = (r, tr') →
  ∃ evs, tr' = tr ++ evs ∧ Forall (λ e, Forall (λ p, p = pngPath) (fsPathsOf e)) evs.
Proof.
  unfold processPage. intros Hrun.
  step_perform Hrun read. destruct read as [pngBuffer|msg].
  2: { destruct Hrun as [_ ->]. eexists [_]. split; [done|]. files_ok. }
  step_perform Hrun meta. destruct meta as [metadata|msg].
  2: { destruct Hrun as [_ ->]. eexists [_; _]. rewrite <- app_assoc.
       split; [done|]. files_ok. }
  apply bind_run in Hrun as [([variantUploads uploads1] & tr1 & Hloop & Hrun) | (msg & Hloop & _)];
    apply (variantLoop_files _ _ _ _ _ _ _ _ _ (λ p, p = pngPath)) in Hloop
      as (evs & -> & Hevs).
  2: { eexists (_ :: _ :: evs). rewrite <- !app_assoc. split; [done|]. files_ok. }
  apply bind_run in Hrun as [(thumbBuffer & tr2 & Hclone & Hrun) | (msg & Hclone & _)];
    apply cloneSharpForVariant_run in Hclone as ->.
  2: { eexists (_ :: _ :: evs ++ [_]). rewrite <- !app_assoc. split; [done|]. files_ok. }
  apply bind_run in Hrun as [([] & tr3 & Hup & Hrun) | (msg & Hup & _)];
    apply uploadBuffer_run in Hup as (result & -> & _).
  2: { eexists (_ :: _ :: evs ++ [_; _]). rewrite <- !app_assoc. split; [done|].
       files_ok. }
  apply ret_run in Hrun as [_ ->].
  eexists (_ :: _ :: evs ++ [_; _]). rewrite <- !app_assoc. split; [done|]. files_ok.
Qed.

Lemma pageLoop_files variants thumbnail :
  ∀ pngPages index manifestPages uploads tr r tr',
    pageLoop env supabase bucket editionId variants thumbnail index pngPages
      manifestPages uploads tr = (r, tr') →
    ∃ evs, tr' = tr ++ evs
           ∧ Forall (λ e, Forall (λ p, p ∈ pngPages) (fsPathsOf e)) evs.
Proof.
  induction pngPages as [|pngPath rest IH];
    intros index manifestPages uploads tr r tr' Hrun.
  - apply ret_run in Hrun as [_ ->]. exists []. by rewrite app_nil_r.
  - simpl in Hrun.
    assert (Hhere : ∀ evs,
      Forall (λ e, Forall (λ p, p = pngPath) (fsPathsOf e)) evs →
      Forall (λ e, Forall (λ p, p ∈ pngPath :: rest) (fsPathsOf e)) evs).
    { intros evs Hevs. eapply Forall_impl; [exact Hevs|]. intros e He.
      eapply Forall_impl; [exact He|]. intros p ->. by left. }
    apply bind_run in Hrun as [([entry uploads1] & tr1 & Hpage & Hrun) | (msg & Hpage & _)];
      apply processPage_files in Hpage as (evs1 & -> & Hevs1).
    2: { exists evs1. split; [done|]. by apply Hhere. }
    apply IH in Hrun as (evs2 & -> & Hevs2).
    exists (evs1 ++ evs2). rewrite <- app_assoc. split; [done|].
    apply Forall_app. split; [by apply Hhere|].
    eapply Forall_impl; [exact Hevs2|]. intros e He.
    eapply Forall_impl; [exact He|]. intros p Hp. by right.
Qed.

End Files.

Section FilesHandler.

Context (SERVICE_SECRET DEFAULT_BUCKET : string) (env : Env).

Lemma orderPageFiles_inDir tempRoot files p :
  p ∈ orderPageFiles (pathJoin tempRoot "png") files → inDir tempRoot p = true.
Proof.
  unfold orderPageFiles. intros (name & -> & _)%list_elem_of_fmap.
  apply inDir_pathJoin_2.
Qed.

Lemma pipelineBody_files editionId pdfUrl supabaseUrl supabaseKey bucket
    variants thumbnail r tr' :
  pipelineBody env editionId pdfUrl supabaseUrl supabaseKey bucket variants thumbnail []
    = (r, tr') →
  ∃ created rest,
    tr' = {| evCall := Mkdtemp (pathJoin (tmpdir env) "pdf-conversion-");
             evResult := created |} :: rest
    ∧ match created with
      | Ok tempRoot =>
          Forall (λ e, Forall (λ p, inDir tempRoot p = true) (fsPathsOf e)) rest
      | Thrown _ => rest = []
      end.
Proof.
  intros H. unfold pipelineBody, createTempDir, downloadPdf in H.
  apply bind_run in H as [(tempRoot & tr1 & Htmp & H) | (msg & Htmp & _)];
    step_perform Htmp mk; destruct mk as [dir|m];
    try (apply ret_run in Htmp as [? ?]); try destruct Htmp as [? ?]; simplify_eq.
  2: { by eexists (Thrown _), []. }
  rename dir into tempRoot. exists (Ok tempRoot).
  pose proof (inDir_self tempRoot) as Hself.
  pose proof (inDir_pathJoin tempRoot) as Hjoin.
  pose proof (inDir_pathJoin_2 tempRoot) as Hjoin2.
  apply bind_run in H as [(id & tr2 & Hid & H) | (m & Hid & _)]; simplify_eq.
  step_perform H mkd. destruct mkd as [[]|m].
  2: { destruct H as [_ ->]. eexists [_]. split; [done|]. files_ok. }
  step_perform H dl. destruct dl as [[]|m].
  2: { destruct H as [_ ->]. eexists [_; _]. split; [done|]. files_ok. }
  apply bind_run in H as [(pngPages & tr3 & Hconv & H) | (m & Hconv & _)];
    apply convertPdfToPng_run in Hconv as [[[]|m'] Hconv]; simpl in Hconv.
  4: { destruct Hconv as [_ ->]. eexists [_; _; _]. split; [done|].
       files_ok. }
  3: { destruct Hconv as ([files|m''] & -> & Hr); simplify_eq.
       eexists [_; _; _; _]. split; [done|]. files_ok. }
  2: { destruct Hconv as [? _]. simplify_eq. }
  destruct Hconv as ([files|m''] & -> & Hr); simplify_eq.
  set (pdfPath := pathJoin tempRoot (uuid env _ +:+ ".pdf")) in *.
  assert (Hpdf : inDir tempRoot pdfPath = true) by apply inDir_pathJoin.
  assert (Hsetup : Forall (λ e, Forall (λ p, inDir tempRoot p = true) (fsPathsOf e))
            [ {| evCall := Mkdir (pathJoin tempRoot "png"); evResult := Ok tt |};
              {| evCall := HttpGetToFile pdfUrl pdfPath; evResult := Ok tt |};
              {| evCall := ExecFile "pdftoppm"
                             ["-png"; "-r"; numberToString 300; pdfPath;
                              pathJoin (pathJoin tempRoot "png") "page"];
                 evResult := Ok tt |};
              {| evCall := Readdir (pathJoin tempRoot "png"); evResult := Ok files |} ])
    by files_ok.
  destruct (Nat.eqb (length (orderPageFiles (pathJoin tempRoot "png") files)) 0).
  { apply throw_run in H as [_ ->]. by eexists [_; _; _; _]. }
  assert (Hloop : ∀ evs,
    Forall (λ e, Forall (λ p, p ∈ orderPageFiles (pathJoin tempRoot "png") files)
                   (fsPathsOf e)) evs →
    Forall (λ e, Forall (λ p, inDir tempRoot p = true) (fsPathsOf e)) evs).
  { intros evs Hevs. eapply Forall_impl; [exact Hevs|]. intros e He.
    eapply Forall_impl; [exact He|]. intros p. apply orderPageFiles_inDir. }
  apply bind_run in H as [([pages uploads] & tr4 & Hpages & H) | (m & Hpages & _)];
    apply pageLoop_files in Hpages as (evs & -> & Hevs%Hloop).
  2: { eexists (_ :: _ :: _ :: _ :: evs). split; [done|].
       by apply (Forall_app _ [_; _; _; _]). }
  apply bind_run in H as [(generated & tr5 & Hgen & H) | (m & Hgen & _)]; simplify_eq.
  apply bind_run in H as [([] & tr6 & Hup & H) | (m & Hup & _)];
    apply uploadBuffer_run in Hup as (result & -> & _).
  2: { eexists (_ :: _ :: _ :: _ :: evs ++ [_]). rewrite <- !app_assoc. split; [done|].
       apply (Forall_app _ [_; _; _; _]). split; [done|].
       apply Forall_app. split; [done|files_ok]. }
  apply bind_run in H as [([] & tr7 & Hrm & H) | (m & Hrm & _)];
    apply removeDirSafe_run in Hrm as [? (removal & ->)]; [|done].
  apply ret_run in H as [_ ->].
  eexists (_ :: _ :: _ :: _ :: evs ++ [_] ++ removalEvents tempRoot removal).
  rewrite <- !app_assoc. split; [done|].
  apply (Forall_app _ [_; _; _; _]). split; [done|].
  apply Forall_app. split; [done|].
  apply Forall_app. split; [files_ok|].
  unfold removalEvents. destruct (String.eqb tempRoot ""); files_ok.
Qed.

(** X15.  A run that makes any call starts by creating its temporary
    directory with [mkdtemp] under [os.tmpdir()], with the prefix
    ['pdf-conversion-'].  If that fails the run makes no other call.
    Otherwise every path of the local file system named by a later call (the
    directory made or listed, the download's destination, the operands of
    [pdftoppm], the page files read, the directory removed) is the created
    directory or a path below it: the run touches no other local file. *)
Theorem files_stay_in_temp_dir req response tr :
  handler SERVICE_SECRET DEFAULT_BUCKET env req [] = (response, tr) →
  tr ≠ [] →
  ∃ created rest,
    tr = {| evCall := Mkdtemp (pathJoin (tmpdir env) "pdf-conversion-");
            evResult := created |} :: rest
    ∧ match created with
      | Ok tempRoot =>
          Forall (λ e, Forall (λ p, inDir tempRoot p = true) (fsPathsOf e)) rest
      | Thrown _ => rest = []
      end.
Proof.
  intros Hrun Hne.
  destruct (decide (authorized SERVICE_SECRET req)) as [Hauth|Hno].
  2: { unfold authorized in Hno. rewrite handler_unauthorized in Hrun by tauto.
       by simplify_eq. }
  rewrite handler_authorized in Hrun by done.
  destruct (hasRequired req); [|by simplify_eq].
  destruct (pipelineBody _ _ _ _ _ _ _ _ _) as [r tr1] eqn:Hbody.
  apply pipelineBody_files in Hbody. by destruct r; simplify_eq.
Qed.

End FilesHandler.

(** ** The properties above on a run over a two-page document *)

Lemma manifest_matches_response_witness :
  let run := handler "" "editions" (scriptedEnv twoPageListing neverFails)
               sampleRequest [] in
  ∃ manifest before after,
    run.2 = before
         ++ {| evCall := StorageUpload (clientFor sampleRequest)
                           (bucketFor "editions" sampleRequest)
                           (manifestPathFor sampleRequest) (BodyManifest manifest);
               evResult := Ok None |} :: after
    ∧ Forall (λ e, isManifestUpload e = false) (before ++ after)
    ∧ manifestPathOf run.1 = Some (manifestPathFor sampleRequest)
    ∧ editionIdOf manifest = editionIdFor sampleRequest
    ∧ bucketOf manifest = bucketFor "editions" sampleRequest
    ∧ editionIdField run.1 = Some (editionIdOf manifest)
    ∧ bucketField run.1 = Some (bucketOf manifest)
    ∧ totalPagesOf manifest = length (pagesOf run.1)
    ∧ totalPagesField run.1 = Some (length (pagesOf run.1))
    ∧ mpPageNumber <$> manifestPagesOf manifest = seq 1 (length (pagesOf run.1))
    ∧ pageNumber <$> pagesOf run.1 = seq 1 (length (pagesOf run.1))
    ∧ mpWidth <$> manifestPagesOf manifest = pwidth <$> pagesOf run.1
    ∧ mpHeight <$> manifestPagesOf manifest = pheight <$> pagesOf run.1
    ∧ endsWith (assetsBaseUrl manifest) "/" = true.
Proof.
  intros run.
  apply (manifest_matches_response "" "editions"
           (scriptedEnv twoPageListing neverFails) sampleRequest run.1 run.2
           (surjective_pairing run)).
  vm_compute. reflexivity.
Defined.

(** The upload of the low variant of page 1 goes to the default bucket. *)
Lemma uploads_go_to_requested_bucket_witness :
  let client := {| sbUrl := "https://proj.supabase.co"; sbKey := "service-role-key" |} in
  sbUrl client = "https://proj.supabase.co"
  ∧ sbKey client = "service-role-key"
  ∧ "editions" = "editions"
  ∧ (reqBucket sampleRequest = None → "editions" = "editions").
Proof.
  intros client.
  pose (run := handler "" "editions" (scriptedEnv twoPageListing neverFails)
                 sampleRequest []).
  apply (uploads_go_to_requested_bucket "" "editions"
           (scriptedEnv twoPageListing neverFails) sampleRequest run.1 run.2
           {| evCall := StorageUpload client "editions" "ed1/pages/low/001.webp"
                          (BodyImage []);
              evResult := Ok None |}
           client "editions" "ed1/pages/low/001.webp" (BodyImage [])
           (surjective_pairing run)).
  - vm_compute. do 8 apply list_elem_of_further. apply list_elem_of_here.
  - reflexivity.
Defined.

Lemma completed_run_calls_witness :
  let run := handler "" "editions" (scriptedEnv twoPageListing neverFails)
               sampleRequest [] in
  ∃ tempRoot pdfPath files runs manifest removal,
    let pngPages := orderPageFiles (pathJoin tempRoot "png") files in
    run.2 = setupEvents (scriptedEnv twoPageListing neverFails) tempRoot
              (pdfUrlFor sampleRequest) pdfPath files
         ++ loopEvents (clientFor sampleRequest) (bucketFor "editions" sampleRequest)
              (editionIdFor sampleRequest)
              (variantsFor sampleRequest ++ [thumbnailFor sampleRequest]) 0 pngPages runs
         ++ [ {| evCall := StorageUpload (clientFor sampleRequest)
                             (bucketFor "editions" sampleRequest)
                             (manifestPathFor sampleRequest) (BodyManifest manifest);
                 evResult := Ok None |} ]
         ++ removalEvents tempRoot removal
    ∧ length runs = length pngPages
    ∧ length (pagesOf run.1) = length pngPages
    ∧ Forall (λ r, length (prOutputs r) = length (variantsFor sampleRequest) + 1) runs
    ∧ pwidth <$> pagesOf run.1 = (λ r, mwidth (prMetadata r)) <$> runs
    ∧ pheight <$> pagesOf run.1 = (λ r, mheight (prMetadata r)) <$> runs.
Proof.
  intros run.
  apply (completed_run_calls "" "editions"
           (scriptedEnv twoPageListing neverFails) sampleRequest run.1 run.2
           (surjective_pairing run)).
  vm_compute. reflexivity.
Defined.


Lemma uploads_distinct_iff_keys_distinct_witness :
  let run := handler "" "editions" (scriptedEnv twoPageListing neverFails)
               sampleRequest [] in
  (NoDup (uploadsOf run.1)
   ↔ NoDup ((vkey <$> variantsFor sampleRequest) ++ [vkey (thumbnailFor sampleRequest)]))
  ∧ (reqVariants sampleRequest = None → reqThumbnail sampleRequest = None →
     NoDup (uploadsOf run.1)).
Proof.
  intros run.
  apply (uploads_distinct_iff_keys_distinct "" "editions"
           (scriptedEnv twoPageListing neverFails) sampleRequest run.1 run.2
           (surjective_pairing run)).
  vm_compute. reflexivity.
Defined.


(** The upload of the medium variant of page 1 fails: two uploads were
    attempted and one object is in the bucket. *)
Lemma uploads_follow_page_order_witness :
  let run := handler "" "editions"
               (scriptedEnv twoPageListing (uploadFailsAt "ed1/pages/medium/001.webp"))
               sampleRequest [] in
  let order :=
    pathsOfPages (editionIdFor sampleRequest) (variantsFor sampleRequest)
      (thumbnailFor sampleRequest) 0 (length (pageFilesOf twoPageListing))
    ++ [manifestPathFor sampleRequest] in
  omap uploadPathOf run.2 `prefix_of` order
  ∧ omap uploadPathOf (filter (λ e, evOk e = true) run.2) `prefix_of` order.
Proof.
  intros run.
  apply (uploads_follow_page_order "" "editions"
           (scriptedEnv twoPageListing (uploadFailsAt "ed1/pages/medium/001.webp"))
           sampleRequest run.1 run.2 (surjective_pairing run)).
  exists {| evCall := Readdir "/tmp/pdf-conversion-Ab12Cd/png";
            evResult := Ok twoPageListing |}.
  split; [|reflexivity].
  vm_compute. do 4 apply list_elem_of_further. apply list_elem_of_here.
Defined.

Lemma files_stay_in_temp_dir_witness :
  let run := handler "" "editions" (scriptedEnv twoPageListing neverFails)
               sampleRequest [] in
  ∃ created rest,
    run.2 = {| evCall := Mkdtemp (pathJoin (tmpdir (scriptedEnv twoPageListing neverFails))
                                    "pdf-conversion-");
               evResult := created |} :: rest
    ∧ match created with
      | Ok tempRoot =>
          Forall (λ e, Forall (λ p, inDir tempRoot p = true) (fsPathsOf e)) rest
      | Thrown _ => rest = []
      end.
Proof.
  intros run.
  apply (files_stay_in_temp_dir "" "editions"
           (scriptedEnv twoPageListing neverFails) sampleRequest run.1 run.2
           (surjective_pairing run)).
  vm_compute. discriminate.
Defined.
